(** * top1-streamlit-viewer: the collector (data_create.py) and the viewer
      with its close-to-next-open backtest (app.py)

    The development embeds the two Python scripts as Rocq functions and
    proves the properties of the specification about them.

    Modelling conventions.
    - A pandas float64 cell is a value of [float]: an exact rational, one of
      the two infinities, or NaN (which pandas also uses as the null marker).
      Rounding and overflow of binary64 are not modelled: arithmetic on finite
      values is exact, and -0.0 is identified with 0.0.  Division by zero,
      infinities and NaN follow IEEE 754 as numpy applies it to a Series
      (no exception is raised).  The theorems on [float] are therefore
      stated so that they do not depend on a rounding or on the sign of a
      zero; where the value the code computes is at stake, the returns of a
      row are computed in binary64 itself (module [Binary64]).
    - A datetime64 cell is [option Z]: nanoseconds since 1970-01-01, [None]
      for NaT.
    - A DataFrame is its list of column labels and its list of rows; a row is
      a record of the columns the scripts read, typed as the collector writes
      them, plus a map holding every other column.
    - [sort_values] is a parameter of the model: pandas sorts with numpy's
      quicksort by default, so the order of rows with equal keys is not
      fixed.  The theorems hold for every sorting function, and the examples
      run with a merge sort. *)

From Stdlib Require Import ZArith QArith Qcanon Lia Lqa.
From Stdlib Require Import Floats.SpecFloat.
From stdpp Require Import base list gmap strings numbers sorting pretty.

Local Open Scope Qc_scope.

(** ** Floating-point cells *)

Inductive float := Fin (q : Qc) | PInf | NInf | NaN.

Global Instance float_eq_dec : EqDecision float.
Proof. solve_decision. Defined.

Definition isna (x : float) : bool :=
  match x with NaN => true | _ => false end.

(** Sign of a non-NaN value: -1, 0 or 1. *)
Definition sgn (x : float) : Z :=
  match x with
  | Fin q => match Qccompare q 0 with Lt => (-1)%Z | Eq => 0%Z | Gt => 1%Z end
  | PInf => 1%Z
  | NInf => (-1)%Z
  | NaN => 0%Z
  end.

Definition of_sign (s : Z) : float :=
  match s with Z0 => NaN | Zpos _ => PInf | Zneg _ => NInf end.

Definition fneg (x : float) : float :=
  match x with Fin q => Fin (- q) | PInf => NInf | NInf => PInf | NaN => NaN end.

Definition fadd (x y : float) : float :=
  match x, y with
  | NaN, _ | _, NaN => NaN
  | Fin a, Fin b => Fin (a + b)
  | PInf, NInf | NInf, PInf => NaN
  | PInf, _ | _, PInf => PInf
  | NInf, _ | _, NInf => NInf
  end.

Definition fsub (x y : float) : float := fadd x (fneg y).

Definition fmul (x y : float) : float :=
  match x, y with
  | NaN, _ | _, NaN => NaN
  | Fin a, Fin b => Fin (a * b)
  | _, _ => of_sign (sgn x * sgn y)%Z
  end.

(** True division as numpy performs it on a Series: a finite non-zero value
    over zero is an infinity of the numerator's sign, 0/0 and inf/inf are
    NaN. *)
Definition fdiv (x y : float) : float :=
  match x, y with
  | NaN, _ | _, NaN => NaN
  | Fin a, Fin b => if decide (b = 0) then of_sign (sgn x) else Fin (a / b)
  | Fin _, _ => Fin 0
  | _, Fin b =>
      let s := if decide (b < 0) then (-1)%Z else 1%Z in of_sign (sgn x * s)%Z
  | _, _ => NaN
  end.

(** Comparisons of a cell with a finite scalar; every comparison with NaN is
    false. *)
Definition fge (x : float) (c : Qc) : bool :=
  match x with
  | Fin q => bool_decide (c ≤ q) | PInf => true | NInf => false | NaN => false
  end.

Definition fle (x : float) (c : Qc) : bool :=
  match x with
  | Fin q => bool_decide (q ≤ c) | PInf => false | NInf => true | NaN => false
  end.

Definition fgt (x : float) (c : Qc) : bool :=
  match x with
  | Fin q => bool_decide (c < q) | PInf => true | NInf => false | NaN => false
  end.

Definition Qcmin (a b : Qc) : Qc := if decide (a ≤ b) then a else b.
Definition Qcmax (a b : Qc) : Qc := if decide (a ≤ b) then b else a.

(** [Series.clip(lower=, upper=)] with two scalar thresholds.  pandas first
    orders the thresholds ([lower, upper = min(lower, upper), max(lower,
    upper)], its issue 2747), then replaces by [lower] the values that are
    not null and not [>= lower], and by [upper] those that are not null and
    not [<= upper]. *)
Definition clip (lower upper : Qc) (x : float) : float :=
  let lo := Qcmin lower upper in
  let hi := Qcmax lower upper in
  let r := if isna x || fge x lo then x else Fin lo in
  if isna x || fle x hi then r else Fin hi.

(** The clamp of the specification: [lower] is the lower bound and [upper]
    the upper bound, in the order given. *)
Definition clamp (lower upper : Qc) (x : Qc) : Qc :=
  Qcmin (Qcmax x lower) upper.

(** [Series.cumprod()] (skipna=True): a NaN entry counts as 1 in the running
    product and stays NaN in the result. *)
Definition fillna_one (x : float) : float := if isna x then Fin 1 else x.

Fixpoint cumprod_from (acc : float) (l : list float) : list float :=
  match l with
  | [] => []
  | x :: l' =>
      let acc' := fmul acc (fillna_one x) in
      (if isna x then NaN else acc') :: cumprod_from acc' l'
  end.

Definition cumprod (l : list float) : list float := cumprod_from (Fin 1) l.

(** [Series.mean()] (skipna=True): the mean of the entries that are not NaN,
    NaN when there is none. *)
Definition fsum (l : list float) : float := foldr fadd (Fin 0) l.

Definition mean (l : list float) : float :=
  let vals := filter (λ x, isna x = false) l in
  fdiv (fsum vals) (Fin (Qc_of_Z (Z.of_nat (length vals)))).

(** The plain product of a list of cells, NaN included. *)
Definition fprod (l : list float) : float := foldl fmul (Fin 1) l.

(** ** Timestamps *)

(** Nanoseconds in a day. *)
Definition DAY : Z := 86400000000000.

(** [Timestamp.weekday()]: Monday is 0 and Sunday is 6; 1970-01-01 was a
    Thursday. *)
Definition weekday (t : Z) : Z := ((t `div` DAY + 3) `mod` 7)%Z.

(** The proleptic Gregorian year of the day numbered [z] from 1970-01-01. *)
Definition year_of_days (z : Z) : Z :=
  (let z := z + 719468 in
   let era := z `div` 146097 in
   let doe := z - era * 146097 in
   let yoe := (doe - doe `div` 1460 + doe `div` 36524 - doe `div` 146096) `div` 365 in
   let doy := doe - (365 * yoe + yoe `div` 4 - yoe `div` 100) in
   let mp := (5 * doy + 2) `div` 153 in
   yoe + era * 400 + (if decide (mp < 10) then 0 else 1))%Z.

(** [Timestamp.year]. *)
Definition dt_year (t : Z) : Z := year_of_days (t `div` DAY).

(** Order of a datetime64 column under [sort_values]: ascending, NaT last. *)
Definition date_leb (a b : option Z) : bool :=
  match a, b with
  | Some x, Some y => bool_decide (x ≤ y)%Z
  | _, None => true
  | None, Some _ => false
  end.

(** ** Sorting *)

(** [DataFrame.sort_values]: some function that returns its argument
    rearranged in ascending order of the keys. *)
Class SortValues := {
  sort_values : ∀ {A : Type}, (A → A → bool) → list A → list A;
  sort_values_perm : ∀ {A : Type} (le : A → A → bool) (l : list A),
    sort_values le l ≡ₚ l;
  sort_values_sorted : ∀ {A : Type} (le : A → A → bool) (l : list A),
    (∀ x y, le x y ∨ le y x) → Sorted (λ x y, le x y) (sort_values le l)
}.

(** ** The viewer: app.py *)

Module App.

Definition START_YEAR : Z := 2000.
Definition END_YEAR : Z := 2025.

(** A cell of a column the viewer only displays. *)
Inductive cell := Number (x : float) | Text (s : string).

(** A cell of the date column of a sheet as [pd.read_excel] returns it: a
    timestamp (nanoseconds since 1970-01-01), a text, or an empty cell. *)
Inductive date_cell := Stamp (t : Z) | Words (s : string) | Blank.

(** A row of a table: the columns the viewer computes with, and the others
    by label. [d1_open] is the column "d+1_open".  The type [D] is the type
    of the cells of the date column: [date_cell] in a sheet as it is read,
    [option Z] once the column is datetime64. *)
Record Row_ (D : Type) := mkRow {
  date : D;
  year : option Z;
  d0_close : float;
  d1_open : float;
  rest : gmap string cell
}.
Arguments mkRow {D} _ _ _ _ _.
Arguments date {D} _.
Arguments year {D} _.
Arguments d0_close {D} _.
Arguments d1_open {D} _.
Arguments rest {D} _.

Record DataFrame_ (D : Type) := mkDataFrame {
  columns : list string;
  rows : list (Row_ D)
}.
Arguments mkDataFrame {D} _ _.
Arguments columns {D} _.
Arguments rows {D} _.

(** A row and a table of the viewer, and a sheet as it is read. *)
Definition Row : Type := Row_ (option Z).
Definition DataFrame : Type := DataFrame_ (option Z).
Definition Sheet : Type := DataFrame_ date_cell.

Definition has_col {D} (c : string) (df : DataFrame_ D) : bool :=
  bool_decide (c ∈ columns df).

(** [df.empty]: an axis of length zero. *)
Definition empty (df : DataFrame) : bool :=
  match columns df, rows df with
  | [], _ | _, [] => true
  | _, _ => false
  end.

(** [pd.concat] fills the columns a frame lacks with nulls. *)
Definition reindex (df : DataFrame) (r : Row) : Row :=
  {| date := if has_col "date" df then date r else None;
     year := if has_col "year" df then year r else None;
     d0_close := if has_col "d0_close" df then d0_close r else NaN;
     d1_open := if has_col "d+1_open" df then d1_open r else NaN;
     rest := rest r |}.

(** [pd.concat(dfs, ignore_index=True)]: the union of the columns in order
    of first appearance, and the rows of the frames one after the other. *)
Definition concat (dfs : list DataFrame) : DataFrame :=
  {| columns :=
       foldl (λ acc df, acc ++ list_difference (columns df) acc) [] dfs;
     rows := dfs ≫= (λ df, reindex df <$> rows df) |}.

(** [DATA_DIR / f"{prefix}_{year}.xlsx"]. *)
Definition fname (prefix : string) (year : Z) : string :=
  prefix +:+ "_" +:+ pretty year +:+ ".xlsx".

(** [pd.to_datetime] on a column, with the default [errors="raise"]: the
    column as datetime64, or [None] when the call raises.  How a text is
    parsed is left to the library; what is used of it is that the result has
    one entry per cell, that a timestamp stays the timestamp it is, that an
    empty cell becomes NaT, and that a column without text never raises. *)
Class ToDatetime := {
  to_datetime : list date_cell → option (list (option Z));
  to_datetime_length : ∀ col l,
    to_datetime col = Some l → length l = length col;
  to_datetime_stamp : ∀ col l i t,
    to_datetime col = Some l → col !! i = Some (Stamp t) → l !! i = Some (Some t);
  to_datetime_blank : ∀ col l i,
    to_datetime col = Some l → col !! i = Some Blank → l !! i = Some None;
  to_datetime_no_text : ∀ col,
    (∀ s, Words s ∉ col) → is_Some (to_datetime col)
}.

(** [df["date"] = dates]: the rows with the cells of the date column
    replaced. *)
Definition set_date {D E} (dates : list E) (rs : list (Row_ D)) : list (Row_ E) :=
  zip_with (λ d r, mkRow d (year r) (d0_close r) (d1_open r) (rest r)) dates rs.

(** The body of the loop of [load_top1_data] for one year: [None] when
    [pd.to_datetime] raises, and otherwise the frame to append, or [None]
    where the loop continues without appending. *)
Definition load_year `{ToDatetime} (fs : gmap string Sheet) (prefix : string)
    (year : Z) : option (option DataFrame) :=
  match fs !! fname prefix year with
  | None => Some None
  | Some df =>
      if has_col "date" df then
        match to_datetime (date <$> rows df) with
        | None => None
        | Some dates =>
            let df : DataFrame :=
              {| columns := columns df; rows := set_date dates (rows df) |} in
            if has_col "year" df then Some (Some df)
            else
              Some (Some {| columns := columns df ++ ["year"];
                            rows := (λ r, mkRow (date r) (dt_year <$> date r)
                                            (d0_close r) (d1_open r) (rest r))
                                      <$> rows df |})
        end
      else Some None
  end.

Definition years : list Z := seqZ START_YEAR (END_YEAR + 1 - START_YEAR).

(** The end of [load_top1_data], from the frames appended to [dfs]. *)
Definition assemble `{SortValues} (dfs : list DataFrame) : DataFrame :=
  match dfs with
  | [] => mkDataFrame [] []
  | _ =>
      let all_df := concat dfs in
      {| columns := columns all_df;
         rows := sort_values (λ a b, date_leb (date a) (date b)) (rows all_df) |}
  end.

(** [load_top1_data]: the loop over the years stops at the first year whose
    dates cannot be coerced, the exception leaving the function ([None]). *)
Definition load_top1_data `{SortValues} `{ToDatetime} (fs : gmap string Sheet)
    (kind : string) : option DataFrame :=
  let prefix := if decide (kind = "volume") then "top1_volume" else "top1_value" in
  dfs ← mapM (load_year fs prefix) years;
  Some (assemble (omap id dfs)).

(** Minimum and maximum of a datetime64 column, NaT skipped. *)
Definition date_min (l : list (option Z)) : option Z :=
  foldr (λ t acc, match t, acc with
                  | Some x, Some y => Some (x `min` y)%Z
                  | Some x, None => Some x
                  | None, _ => acc
                  end) None l.

Definition date_max (l : list (option Z)) : option Z :=
  foldr (λ t acc, match t, acc with
                  | Some x, Some y => Some (x `max` y)%Z
                  | Some x, None => Some x
                  | None, _ => acc
                  end) None l.

(** [get_date_bounds]: the result is [None] when [df["date"]] raises
    KeyError, the table having rows and no date column; in the pair,
    Python's [None] is the outer [None] and NaT the inner one. *)
Definition get_date_bounds (df : DataFrame)
    : option (option (option Z) * option (option Z)) :=
  if empty df then Some (None, None)
  else if has_col "date" df then
    Some (Some (date_min (date <$> rows df)), Some (date_max (date <$> rows df)))
  else None.

(** *** The backtest *)

Record WorkRow := mkWork {
  row : Row;
  raw_ret : float;
  clipped_ret : float;
  net_ret : float
}.

(** The failure reasons: "필요 컬럼 부족: {...}" with the missing columns,
    and "유효한 데이터가 없습니다 (d0_close 또는 d+1_open NaN)". *)
Inductive reason :=
  | MissingColumns (missing : list string)
  | NoValidData.

Record Stats := mkStats {
  n_trades : nat;
  wins : nat;
  win_rate : float;
  avg_ret : float;
  total_ret : float;
  final_equity : float;
  equity_series : list (option Z * float)
}.

Definition required_cols : list string := ["d0_close"; "d+1_open"; "date"].

Definition notna (r : Row) : bool :=
  negb (isna (d0_close r)) && negb (isna (d1_open r))
  && bool_decide (date r ≠ None).

(** [df.dropna(subset=["d0_close", "d+1_open", "date"])]. *)
Definition dropna (df : DataFrame) : list Row := filter notna (rows df).

Definition hundred : Qc := Qc_of_Z 100.

(** The net return of a row from its clipped return:
    [(1 + clipped_ret) * (1 - fee) - 1]. *)
Definition net_of_clipped (fee_pct : Qc) (c : float) : float :=
  let fee := fee_pct / hundred in
  fsub (fmul (fadd (Fin 1) c) (Fin (1 - fee))) (Fin 1).

(** The columns [raw_ret], [clipped_ret] and [net_ret] of a row. *)
Definition returns (upper_pct lower_pct fee_pct : Qc) (r : Row) : WorkRow :=
  let raw := fsub (fdiv (d1_open r) (d0_close r)) (Fin 1) in
  let up := upper_pct / hundred in
  let down := lower_pct / hundred in
  let clipped := clip down up raw in
  mkWork r raw clipped (net_of_clipped fee_pct clipped).

(** The table [work] after [work.sort_values("date")]. *)
Definition work_table `{SortValues} (df : DataFrame)
    (upper_pct lower_pct fee_pct : Qc) : list WorkRow :=
  sort_values (λ a b, date_leb (date (row a)) (date (row b)))
    (returns upper_pct lower_pct fee_pct <$> dropna df).

(** The column [equity]: [capital * (1 + work["net_ret"]).cumprod()]. *)
Definition equity (capital : Z) (work : list WorkRow) : list float :=
  fmul (Fin (Qc_of_Z capital))
    <$> cumprod ((λ w, fadd (Fin 1) (net_ret w)) <$> work).

Definition of_nat (n : nat) : float := Fin (Qc_of_Z (Z.of_nat n)).

(** The statistics of a sorted work table.  [n_trades > 0] holds exactly when
    the equity column has a last entry. *)
Definition statistics (capital : Z) (work : list WorkRow) : Stats :=
  let eq := equity capital work in
  let n := length work in
  let w := length (filter (λ r, fgt (net_ret r) 0) work) in
  let cap := Fin (Qc_of_Z capital) in
  {| n_trades := n;
     wins := w;
     win_rate := match n with
                 | O => Fin 0
                 | _ => fmul (fdiv (of_nat w) (of_nat n)) (Fin hundred)
                 end;
     avg_ret := match n with
                | O => Fin 0
                | _ => fmul (mean (net_ret <$> work)) (Fin hundred)
                end;
     total_ret := match last eq with
                  | Some e => fmul (fsub (fdiv e cap) (Fin 1)) (Fin hundred)
                  | None => Fin 0
                  end;
     final_equity := match last eq with Some e => e | None => cap end;
     equity_series := zip (date ∘ row <$> work) eq |}.

Definition backtest_next_open `{SortValues} (df : DataFrame)
    (upper_pct lower_pct fee_pct : Qc) (capital : Z)
    : option Stats * option reason :=
  if bool_decide (required_cols ⊆ columns df) then
    match dropna df with
    | [] => (None, Some NoValidData)
    | _ =>
        (Some (statistics capital (work_table df upper_pct lower_pct fee_pct)),
         None)
    end
  else (None, Some (MissingColumns (list_difference required_cols (columns df)))).

(** *** The script: sidebar, loading and filtering *)

Inductive data_kind_label := VolumeTop1 | ValueTop1.

(** What [st.sidebar.date_input] returned: a tuple of dates or one date,
    each as a day number. *)
Inductive date_input := Tuple (ds : list Z) | Single (d : Z).

Inductive message := NoExcelData | NoDateInfo.

(** How a run of the script ends up to the filter: halted by [st.stop()]
    after [st.error], aborted by an exception (the dates of a sheet cannot
    be coerced, a tuple of dates that is not a pair cannot be unpacked, and
    the date picker is not given NaT bounds), or with the filtered view. *)
Inductive outcome :=
  | Stopped (msg : message)
  | Raised
  | Viewing (df_all df_view : DataFrame).

(** [pd.to_datetime] of a [datetime.date]: midnight of that day. *)
Definition midnight (d : Z) : Z := (d * DAY)%Z.

(** The mask [(date >= start) & (date <= end)] for a row, [start_date] and
    [end_date] being the timestamps [pd.to_datetime] returned; a comparison
    with NaT is false. *)
Definition in_range (start_date end_date : Z) (r : Row) : bool :=
  match date r with
  | Some t => bool_decide (start_date ≤ t)%Z && bool_decide (t ≤ end_date)%Z
  | None => false
  end.

(** The mask [date.dt.weekday != 4] for a row; the weekday of NaT is NaN,
    which differs from 4. *)
Definition not_friday (r : Row) : bool :=
  match date r with
  | Some t => bool_decide (weekday t ≠ 4%Z)
  | None => true
  end.

(** Lines 197 to 201: the date-range mask, then the weekday mask when the
    box is ticked. *)
Definition filter_view (df_all : DataFrame) (start_date end_date : Z)
    (exclude_friday : bool) : DataFrame :=
  let df_view :=
    {| columns := columns df_all;
       rows := filter (in_range start_date end_date) (rows df_all) |} in
  if exclude_friday then
    {| columns := columns df_view; rows := filter not_friday (rows df_view) |}
  else df_view.

Definition script `{SortValues} `{ToDatetime} (fs : gmap string Sheet)
    (label : data_kind_label) (date_range : date_input)
    (exclude_friday : bool) : outcome :=
  let data_kind := match label with VolumeTop1 => "volume" | ValueTop1 => "value" end in
  match load_top1_data fs data_kind with
  | None => Raised
  | Some df_all =>
      if empty df_all then Stopped NoExcelData
      else
        match get_date_bounds df_all with
        | Some (Some (Some min_date), Some (Some max_date)) =>
            match date_range with
            | Tuple [start_date; end_date] =>
                Viewing df_all
                  (filter_view df_all (midnight start_date) (midnight end_date)
                     exclude_friday)
            | Tuple _ => Raised
            | Single _ =>
                Viewing df_all (filter_view df_all min_date max_date exclude_friday)
            end
        | Some (None, _) | Some (_, None) => Stopped NoDateInfo
        | _ => Raised
        end
  end.

End App.

(** ** The collector: data_create.py *)

Module DataCreate.

(** A row of the market snapshot of a day: the columns 시가, 고가, 저가, 종가,
    거래량 and 거래대금.  The snapshot is indexed by ticker, and its tickers
    are taken to be distinct. *)
Record Ohlcv := mkOhlcv {
  open : Z;
  high : Z;
  low : Z;
  close : Z;
  volume : Z;
  value : Z
}.

Definition Snapshot : Type := list (string * Ohlcv).

(** The calls to the market-data provider, by trading day or by ticker;
    [None] stands for a raised exception. *)
Class Provider := {
  get_market_ohlcv_by_ticker : Z → option Snapshot;
  get_etf_ticker_list : Z → option (list string);
  get_market_ticker_name : string → option string
}.

Inductive RankType := VOLUME_TOP | VALUE_TOP.

Global Instance RankType_eq_dec : EqDecision RankType.
Proof. solve_decision. Defined.

Record TopRecord := mkTop {
  date : Z;
  rank_type : RankType;
  ticker : string;
  name : string;
  d0_open : Z;
  d0_high : Z;
  d0_low : Z;
  d0_close : Z;
  d0_volume : Z;
  d0_value : Z
}.

(** [df[col].idxmax()]: the label of the first row that holds the maximum. *)
Definition idxmax (col : Ohlcv → Z) (df : Snapshot) : option string :=
  match df with
  | [] => None
  | x :: df' =>
      Some (foldl (λ best y, if decide (col best.2 < col y.2)%Z then y else best)
              x df').1
  end.

(** [df.loc[label]]. *)
Definition loc (df : Snapshot) (label : string) : option Ohlcv :=
  snd <$> List.find (λ x, bool_decide (x.1 = label)) df.

(** What one turn of the loop of [get_top1_by_day] does. *)
Inductive step :=
  | Continue
  | Raise
  | Append (vol val : TopRecord).

Definition top_record (dt : Z) (k : RankType) (t : string) (n : string)
    (r : Ohlcv) : TopRecord :=
  mkTop dt k t n (open r) (high r) (low r) (close r) (volume r) (value r).

Definition top1_of_day `{Provider} (dt : Z) : step :=
  match get_market_ohlcv_by_ticker dt with
  | None => Continue
  | Some df =>
      match get_etf_ticker_list dt with
      | None => Raise
      | Some etfs =>
          let df := filter (λ x, x.1 ∉ etfs) df in
          match df with
          | [] => Continue
          | _ =>
              match idxmax volume df, idxmax value df with
              | Some vol_ticker, Some val_ticker =>
                  match loc df vol_ticker, loc df val_ticker with
                  | Some vol_row, Some val_row =>
                      let vol_name := default "" (get_market_ticker_name vol_ticker) in
                      let val_name := default "" (get_market_ticker_name val_ticker) in
                      Append (top_record dt VOLUME_TOP vol_ticker vol_name vol_row)
                             (top_record dt VALUE_TOP val_ticker val_name val_row)
                  | _, _ => Raise
                  end
              | _, _ => Raise
              end
          end
      end
  end.

(** The loop of [get_top1_by_day] from the records gathered so far; [None]
    when an exception leaves the function. *)
Fixpoint collect `{Provider} (records : list TopRecord) (trading_days : list Z)
    : option (list TopRecord) :=
  match trading_days with
  | [] => Some records
  | dt :: days =>
      match top1_of_day dt with
      | Continue => collect records days
      | Raise => None
      | Append vol val => collect (records ++ [vol; val]) days
      end
  end.

Definition get_top1_by_day `{Provider} (trading_days : list Z)
    : option (list TopRecord) :=
  collect [] trading_days.

(** *** Saving by year: the end of [main] *)

(** A row of [df_final]: a top record with the columns merged onto it. *)
Record FinalRow := mkFinal {
  top : TopRecord;
  attached : gmap string float
}.

(** The column [year]: [df_final["date"].dt.year]. *)
Definition year (r : FinalRow) : Z := dt_year (date (top r)).

(** [df_final.groupby("year")]: the groups in ascending order of the key,
    each with its rows in the order of the table. *)
Definition groupby_year (df : list FinalRow) : list (Z * list FinalRow) :=
  (λ y, (y, filter (λ r, year r = y) df))
    <$> merge_sort Z.le (remove_dups (year <$> df)).

Definition rank_name (k : RankType) : string :=
  match k with VOLUME_TOP => "VOLUME_TOP" | VALUE_TOP => "VALUE_TOP" end.

(** The order of [sort_values(["date", "rank_type", "ticker"])]. *)
Definition key_leb (a b : FinalRow) : bool :=
  if bool_decide (date (top a) = date (top b)) then
    if bool_decide (rank_type (top a) = rank_type (top b)) then
      String.leb (ticker (top a)) (ticker (top b))
    else String.leb (rank_name (rank_type (top a))) (rank_name (rank_type (top b)))
  else bool_decide (date (top a) ≤ date (top b))%Z.

Definition file_name (k : RankType) (year : Z) : string :=
  match k with
  | VOLUME_TOP => "top1_volume_" +:+ pretty year +:+ ".xlsx"
  | VALUE_TOP => "top1_value_" +:+ pretty year +:+ ".xlsx"
  end.

Definition of_rank (k : RankType) (r : FinalRow) : Prop := rank_type (top r) = k.

Global Instance of_rank_dec k r : Decision (of_rank k r).
Proof. unfold of_rank. apply _. Defined.

(** [df.to_excel(name, index=False)] when [df] is not empty. *)
Definition to_excel_unless_empty (name : string) (df : list FinalRow)
    (fs : gmap string (list FinalRow)) : gmap string (list FinalRow) :=
  match df with
  | [] => fs
  | _ => <[name := df]> fs
  end.

(** One turn of the loop over the groups, on the files written so far. *)
Definition save_year `{SortValues} (fs : gmap string (list FinalRow))
    (g : Z * list FinalRow) : gmap string (list FinalRow) :=
  let '(y, df_year) := g in
  if bool_decide (y < 2000 ∨ y > 2025)%Z then fs
  else
    let df_year_sorted := sort_values key_leb df_year in
    let df_vol := filter (of_rank VOLUME_TOP) df_year_sorted in
    let fs := to_excel_unless_empty (file_name VOLUME_TOP y) df_vol fs in
    let df_val := filter (of_rank VALUE_TOP) df_year_sorted in
    to_excel_unless_empty (file_name VALUE_TOP y) df_val fs.

(** Lines 339 to 357 of [main]: the files after the loop, from the final
    table and the files before it. *)
Definition save_yearly `{SortValues} (df_final : list FinalRow)
    (fs : gmap string (list FinalRow)) : gmap string (list FinalRow) :=
  foldl save_year fs (groupby_year df_final).

End DataCreate.

(** ** A sorting function: merge sort *)

Definition merge_sort_by {A : Type} (le : A → A → bool) (l : list A) : list A :=
  merge_sort (λ x y, le x y) l.

Lemma merge_sort_by_perm {A : Type} (le : A → A → bool) (l : list A) :
  merge_sort_by le l ≡ₚ l.
Proof. apply merge_sort_Permutation. Qed.

Lemma merge_sort_by_sorted {A : Type} (le : A → A → bool) (l : list A) :
  (∀ x y, le x y ∨ le y x) → Sorted (λ x y, le x y) (merge_sort_by le l).
Proof.
  intros Htot.
  assert (Total (λ x y : A, Is_true (le x y))) as HT by exact Htot.
  unfold merge_sort_by. by apply Sorted_merge_sort.
Qed.

Definition merge_sort_values : SortValues :=
  {| sort_values := @merge_sort_by;
     sort_values_perm := @merge_sort_by_perm;
     sort_values_sorted := @merge_sort_by_sorted |}.

(** A rational from a numerator and a denominator, for the examples. *)
Definition ratio (n : Z) (d : positive) : Qc := Q2Qc (n # d).

(** ** Arithmetic of the cells *)


(** Closed goals on [Qc]: by evaluation. *)
Ltac qc_eval := apply (bool_decide_unpack _); vm_compute; exact I.

Lemma Qcmin_le_max a b : Qcmin a b ≤ Qcmax a b.
Proof.
  unfold Qcmin, Qcmax. case_decide; [done|].
  apply Qclt_le_weak. by apply Qclt_nge.
Qed.

Lemma Qcmin_max_ordered a b : a ≤ b → Qcmin a b = a ∧ Qcmax a b = b.
Proof. intros. unfold Qcmin, Qcmax. by case_decide. Qed.


Lemma hundred_pos : 0 < App.hundred.
Proof. qc_eval. Qed.

Lemma div_hundred_le a b : a ≤ b → a / App.hundred ≤ b / App.hundred.
Proof.
  intros. apply Qcmult_le_compat_r; [done|].
  apply Qclt_le_weak, Qcinv_pos, hundred_pos.
Qed.

Lemma div_hundred_lt a b : a < b → a / App.hundred < b / App.hundred.
Proof.
  intros. apply Qcmult_lt_compat_r; [|done].
  apply Qcinv_pos, hundred_pos.
Qed.

Lemma fdiv_Fin o c : c ≠ 0 → fdiv (Fin o) (Fin c) = Fin (o / c).
Proof. intros. unfold fdiv. by case_decide. Qed.


Lemma clip_NaN lower upper : clip lower upper NaN = NaN.
Proof. reflexivity. Qed.

Lemma clip_bounds lower upper x :
  x ≠ NaN →
  ∃ c, clip lower upper x = Fin c ∧ Qcmin lower upper ≤ c ≤ Qcmax lower upper.
Proof.
  intros Hx. pose proof (Qcmin_le_max lower upper) as Hmm.
  unfold clip. destruct x as [q| | |]; simpl; [| | |done];
    repeat case_bool_decide; eexists; (split; [reflexivity|]);
    split; first [done | apply Qcle_refl].
Qed.



Lemma net_of_clipped_Fin fee_pct c :
  App.net_of_clipped fee_pct (Fin c)
  = Fin ((1 + c) * (1 - fee_pct / App.hundred) - 1).
Proof. reflexivity. Qed.

(** ** The backtest *)

Section backtest.
Context `{SortValues}.
Import App.

(** The rows of the sorted work table are the rows of the input that have no
    null in the three columns, each with its three return columns. *)
Lemma work_table_perm df upper_pct lower_pct fee_pct :
  work_table df upper_pct lower_pct fee_pct
  ≡ₚ returns upper_pct lower_pct fee_pct <$> dropna df.
Proof. apply sort_values_perm. Qed.

Lemma elem_of_work_table df upper_pct lower_pct fee_pct w :
  w ∈ work_table df upper_pct lower_pct fee_pct ↔
  ∃ r, w = returns upper_pct lower_pct fee_pct r ∧ r ∈ rows df ∧ notna r.
Proof.
  rewrite work_table_perm, list_elem_of_fmap. unfold dropna. split.
  - intros (r & -> & Hin). apply list_elem_of_filter in Hin as [Hna Hin]. eauto.
  - intros (r & -> & Hin & Hna). exists r. split; [done|].
    by apply list_elem_of_filter.
Qed.

Lemma work_table_length df upper_pct lower_pct fee_pct :
  length (work_table df upper_pct lower_pct fee_pct) = length (dropna df).
Proof. by rewrite work_table_perm, length_fmap. Qed.

Lemma work_table_singleton df upper_pct lower_pct fee_pct r :
  dropna df = [r] →
  work_table df upper_pct lower_pct fee_pct = [returns upper_pct lower_pct fee_pct r].
Proof.
  intros Hr. apply Permutation_singleton_r.
  by rewrite work_table_perm, Hr.
Qed.


End backtest.

(** The row of the example of the specification: close 100 and next open
    103, with any date and any other columns. *)
Definition example_row (t : Z) (rest : gmap string App.cell) : App.Row :=
  App.mkRow (Some t) (Some (dt_year t)) (Fin (Qc_of_Z 100)) (Fin (Qc_of_Z 103)) rest.





(** A row with close 100 and next open 101: a raw return of 0.01. *)
Definition one_percent_row : App.Row :=
  App.mkRow (Some 0%Z) (Some 1970%Z) (Fin (Qc_of_Z 100)) (Fin (Qc_of_Z 101)) ∅.


(** *** The returns of a row in binary64 *)

(** Lines 118 to 131 for one row, in the arithmetic of the code: IEEE 754
    binary64 with rounding to nearest, ties to even. *)
Module Binary64.

Definition prec : Z := 53.
Definition emax : Z := 1024.

(** The float64 nearest to an integer. *)
Definition of_Z (z : Z) : spec_float :=
  match z with
  | Z0 => S754_zero false
  | Zpos p => binary_normalize prec emax (Zpos p) 0 false
  | Zneg p => binary_normalize prec emax (Zpos p) 0 true
  end.

Definition add : spec_float → spec_float → spec_float := SFadd prec emax.
Definition sub : spec_float → spec_float → spec_float := SFsub prec emax.
Definition mul : spec_float → spec_float → spec_float := SFmul prec emax.
Definition div : spec_float → spec_float → spec_float := SFdiv prec emax.

Definition isna (x : spec_float) : bool :=
  match x with S754_nan => true | _ => false end.

(** [Series.clip(lower=, upper=)] with two scalar thresholds, which pandas
    orders first. *)
Definition clip (lower upper x : spec_float) : spec_float :=
  let lo := if SFltb upper lower then upper else lower in
  let hi := if SFltb upper lower then lower else upper in
  let r := if isna x || SFleb lo x then x else lo in
  if isna x || SFleb x hi then r else hi.

(** The columns [raw_ret], [clipped_ret] and [net_ret] of a row. *)
Definition returns (d0_close d1_open upper_pct lower_pct fee_pct : spec_float)
    : spec_float * spec_float * spec_float :=
  let raw := sub (div d1_open d0_close) (of_Z 1) in
  let up := div upper_pct (of_Z 100) in
  let down := div lower_pct (of_Z 100) in
  let clipped := clip down up raw in
  let fee := div fee_pct (of_Z 100) in
  (raw, clipped, sub (mul (add (of_Z 1) clipped) (sub (of_Z 1) fee)) (of_Z 1)).

(** The equity of a table of one row: [capital * (1 + net_ret)]. *)
Definition equity_one (capital : Z) (net : spec_float) : spec_float :=
  mul (of_Z capital) (add (of_Z 1) net).

End Binary64.

(** With lower_pct = 3 above upper_pct = -1, a trade with a raw return of
    0.01 has the net return 0.00495, where the formula with the clamp of the
    specification gives -0.01495.  And in binary64 the net return of the
    example is not the float64 0.02485: it is 7162524847370048 * 2^-58,
    eleven units in the last place above it, where the raw return
    0.030000000000000027 was clipped to 0.03; the equity is the float64
    1024850. *)
Lemma net_return_counterexample :
  let upper_pct := Qc_of_Z (-1) in
  let lower_pct := Qc_of_Z 3 in
  let df := App.mkDataFrame App.required_cols [one_percent_row] in
  let claimed :=
    Fin ((1 + clamp (lower_pct / App.hundred) (upper_pct / App.hundred)
                (Qc_of_Z 101 / Qc_of_Z 100 - 1))
         * (1 - ratio 1 2 / App.hundred) - 1) in
  (App.net_ret
     <$> App.work_table (H := merge_sort_values) df upper_pct lower_pct (ratio 1 2)
   = [Fin (ratio 495 100000)]
   ∧ claimed = Fin (ratio (-1495) 100000)
   ∧ App.net_ret
       <$> App.work_table (H := merge_sort_values) df upper_pct lower_pct
             (ratio 1 2)
     ≠ [claimed])
  ∧ (let half := Binary64.div (Binary64.of_Z 1) (Binary64.of_Z 2) in
     let res :=
       Binary64.returns (Binary64.of_Z 100) (Binary64.of_Z 103)
         (Binary64.of_Z 3) (Binary64.of_Z (-1)) half in
     res.1.2 = Binary64.div (Binary64.of_Z 3) (Binary64.of_Z 100)
     ∧ res.2 = S754_finite false 7162524847370048 (-58)
     ∧ Binary64.div (Binary64.of_Z 2485) (Binary64.of_Z 100000)
       = S754_finite false 7162524847370037 (-58)
     ∧ res.2 ≠ Binary64.div (Binary64.of_Z 2485) (Binary64.of_Z 100000)
     ∧ Binary64.equity_one 1000000 res.2 = Binary64.of_Z 1024850).
Proof.
  intros upper_pct lower_pct df claimed. split.
  - split; [qc_eval|]. split; [qc_eval|].
    intros Heq. apply (bool_decide_pack _) in Heq. vm_compute in Heq.
    destruct Heq.
  - cbv zeta. split; [vm_compute; reflexivity|].
    split; [vm_compute; reflexivity|]. split; [vm_compute; reflexivity|].
    split; [vm_compute; discriminate|]. vm_compute. reflexivity.
Qed.

(** Division by a zero close. *)
Lemma raw_return_zero_close x :
  x ≠ NaN → fsub (fdiv x (Fin 0)) (Fin 1) = of_sign (sgn x).
Proof.
  intros Hx. destruct x as [o| | |]; [| done | done | done].
  unfold fdiv. rewrite decide_True by done.
  by destruct (sgn (Fin o)).
Qed.

Lemma of_sign_not_Fin s q : of_sign s ≠ Fin q.
Proof. by destruct s. Qed.


(** *** The equity column *)

Lemma fmul_1_l x : fmul (Fin 1) x = x.
Proof. destruct x; try done. simpl. by rewrite Qcmult_1_l. Qed.

Lemma fadd_1_isna x : isna (fadd (Fin 1) x) = isna x.
Proof. by destruct x. Qed.

Lemma fillna_one_id (l : list float) :
  (∀ x, x ∈ l → x ≠ NaN) → fillna_one <$> l = l.
Proof.
  induction l as [|x l IH]; intros Hl; [done|]. csimpl. f_equal.
  - assert (x ≠ NaN) by (apply Hl; left). by destruct x.
  - apply IH. intros y Hy. apply Hl. by right.
Qed.

(** Entry [i] of a cumulative product: NaN where the entry of the series is
    NaN, and otherwise the product of the entries up to [i], NaN ones
    excepted. *)
Lemma cumprod_from_lookup (l : list float) : ∀ acc i x,
  l !! i = Some x →
  cumprod_from acc l !! i
  = Some (if isna x then NaN else foldl fmul acc (fillna_one <$> take (S i) l)).
Proof.
  induction l as [|y l IH]; intros acc i x Hx; [done|].
  destruct i as [|i]; simplify_eq/=; [done|].
  by rewrite (IH _ _ _ Hx).
Qed.

Lemma cumprod_from_length l : ∀ acc, length (cumprod_from acc l) = length l.
Proof. induction l as [|y l IH]; intros acc; simpl; [done|]. by rewrite IH. Qed.

Lemma cumprod_singleton x : cumprod [x] = [x].
Proof.
  unfold cumprod; cbn [cumprod_from]. rewrite fmul_1_l. by destruct x.
Qed.

Lemma equity_singleton capital w :
  App.equity capital [w]
  = [fmul (Fin (Qc_of_Z capital)) (fadd (Fin 1) (App.net_ret w))].
Proof.
  unfold App.equity. by rewrite list_fmap_singleton, cumprod_singleton.
Qed.

Lemma date_leb_total {A} (f : A → option Z) x y :
  date_leb (f x) (f y) ∨ date_leb (f y) (f x).
Proof.
  unfold date_leb. destruct (f x) as [a|], (f y) as [b|]; simpl; auto.
  destruct (decide (a ≤ b)%Z).
  - left. by apply bool_decide_pack.
  - right. apply bool_decide_pack. lia.
Qed.

(** C2, as the code has it: the work table is the retained rows sorted by
    date ascending, and the equity column has one entry per row.  Entry i is
    NaN when the net return of row i is NaN, and otherwise the capital times
    the product of 1 + net_return[j] over the rows j <= i whose net return is
    not NaN; when no net return is NaN this is the capital times the product
    of 1 + net_return[j] for j from 0 to i.  With exactly one retained row the
    final equity is capital * (1 + net_return) and the win rate 0 or 100. *)
Theorem backtest_equity_compounding `{SortValues} (df : App.DataFrame)
    (upper_pct lower_pct fee_pct : Qc) (capital : Z) :
  let work := App.work_table df upper_pct lower_pct fee_pct in
  let growth := (λ w, fadd (Fin 1) (App.net_ret w)) <$> work in
  let eq := App.equity capital work in
  let cap := Fin (Qc_of_Z capital) in
  Sorted (λ a b, date_leb (App.date (App.row a)) (App.date (App.row b))) work
  ∧ work ≡ₚ App.returns upper_pct lower_pct fee_pct <$> App.dropna df
  ∧ length eq = length work
  ∧ (∀ i w, work !! i = Some w →
       eq !! i
       = Some (if isna (App.net_ret w) then NaN
               else fmul cap (fprod (fillna_one <$> take (S i) growth))))
  ∧ ((∀ w, w ∈ work → App.net_ret w ≠ NaN) →
       ∀ i, (i < length work)%nat →
         eq !! i = Some (fmul cap (fprod (take (S i) growth))))
  ∧ (∀ r, App.required_cols ⊆ App.columns df → App.dropna df = [r] →
       ∃ stats,
         App.backtest_next_open df upper_pct lower_pct fee_pct capital
         = (Some stats, None)
         ∧ App.final_equity stats
           = fmul cap
               (fadd (Fin 1)
                  (App.net_ret (App.returns upper_pct lower_pct fee_pct r)))
         ∧ (App.win_rate stats = Fin 0 ∨ App.win_rate stats = Fin App.hundred)).
Proof.
  intros work growth eq cap.
  assert (∀ i w, work !! i = Some w →
            eq !! i
            = Some (if isna (App.net_ret w) then NaN
                    else fmul cap (fprod (fillna_one <$> take (S i) growth))))
    as Hlookup.
  { intros i w Hw. unfold eq, App.equity. rewrite list_lookup_fmap.
    unfold cumprod. fold growth.
    assert (growth !! i = Some (fadd (Fin 1) (App.net_ret w))) as Hg
      by (unfold growth; by rewrite list_lookup_fmap, Hw).
    rewrite (cumprod_from_lookup _ _ _ _ Hg), fadd_1_isna. simpl.
    by destruct (isna (App.net_ret w)). }
  split; [apply sort_values_sorted; intros x y;
          apply (date_leb_total (App.date ∘ App.row))|].
  split; [apply work_table_perm|].
  split; [unfold eq, App.equity, cumprod;
          by rewrite length_fmap, cumprod_from_length, length_fmap|].
  split; [done|]. split.
  - intros Hnum i Hi.
    destruct (lookup_lt_is_Some_2 work i Hi) as [w Hw].
    rewrite (Hlookup _ _ Hw).
    assert (App.net_ret w ≠ NaN) as Hn
      by (apply Hnum; by eapply list_elem_of_lookup_2).
    destruct (App.net_ret w) eqn:Hnet; try done; simpl;
      rewrite fillna_one_id; try done.
    all: intros x Hx%subseteq_take; unfold growth in Hx.
    all: apply list_elem_of_fmap in Hx as (w' & -> & Hw').
    all: apply Hnum in Hw'; by destruct (App.net_ret w').
  - intros r Hcols Hr. eexists. unfold App.backtest_next_open.
    rewrite bool_decide_eq_true_2 by done. rewrite Hr.
    rewrite (work_table_singleton _ _ _ _ _ Hr). split; [done|].
    set (w := App.returns upper_pct lower_pct fee_pct r). split.
    + unfold App.statistics; cbn [App.final_equity].
      by rewrite equity_singleton.
    + unfold App.statistics; cbn [App.win_rate length].
      rewrite filter_cons, filter_nil.
      destruct (decide _); [right|left]; simpl; qc_eval.
Qed.

(** A row with close 0 and next open 0, dated 1970-01-01: its raw return
    is 0/0. *)
Definition undefined_return_row : App.Row :=
  App.mkRow (Some 0%Z) (Some 1970%Z) (Fin 0) (Fin 0) ∅.

(** After a row whose net return is NaN the equity is a number, where the
    product of all the factors 1 + net_return[j] up to that row is NaN. *)
Lemma equity_product_counterexample :
  let df :=
    App.mkDataFrame App.required_cols [undefined_return_row; example_row DAY ∅] in
  let work :=
    App.work_table (H := merge_sort_values) df (Qc_of_Z 3) (Qc_of_Z (-1)) (ratio 1 2) in
  let growth := (λ w, fadd (Fin 1) (App.net_ret w)) <$> work in
  App.equity 1000000 work !! 1%nat = Some (Fin (Qc_of_Z 1024850))
  ∧ fmul (Fin (Qc_of_Z 1000000)) (fprod (take 2 growth)) = NaN
  ∧ App.equity 1000000 work !! 1%nat
    ≠ Some (fmul (Fin (Qc_of_Z 1000000)) (fprod (take 2 growth))).
Proof. intros df work growth. qc_eval. Qed.

(** ** A zero close *)

(** Entry [i] of the equity column: NaN when the net return of row [i] is
    NaN, and otherwise the capital times the running product, in which the
    factor of row [i] comes last. *)
Lemma equity_lookup (capital : Z) (work : list App.WorkRow) i w :
  work !! i = Some w →
  let growth := (λ w, fadd (Fin 1) (App.net_ret w)) <$> work in
  App.equity capital work !! i
  = Some (if isna (App.net_ret w) then NaN
          else fmul (Fin (Qc_of_Z capital))
                 (fmul (fprod (fillna_one <$> take i growth))
                    (fadd (Fin 1) (App.net_ret w)))).
Proof.
  intros Hw growth. unfold App.equity. rewrite list_lookup_fmap.
  unfold cumprod. fold growth.
  assert (growth !! i = Some (fadd (Fin 1) (App.net_ret w))) as Hg
    by (unfold growth; by rewrite list_lookup_fmap, Hw).
  rewrite (cumprod_from_lookup _ _ _ _ Hg), fadd_1_isna.
  cbn [fmap option_fmap option_map].
  destruct (isna (App.net_ret w)) eqn:Hna; [done|].
  rewrite (take_S_r _ _ _ Hg), fmap_app. do 2 f_equal.
  rewrite foldl_app. cbn [foldl fmap list_fmap]. unfold fprod. f_equal.
  unfold fillna_one. by rewrite fadd_1_isna, Hna.
Qed.

(** C9: a row with a zero close, a next open that is not null and a date is
    not dropped; the backtest returns statistics and no failure reason, and
    the row is one of the counted trades.  Its raw return is the result of
    the division by zero, never a finite number: NaN for 0/0, an infinity
    otherwise (of the sign of the next open for a close of 0.0; the model
    does not tell -0.0 from 0.0, so the sign is not stated).  Its clipped
    return is then NaN or one of the two limits, its net return is computed
    from it, and the entry of the equity column at the position of the row
    is NaN or the capital times the running product with the factor
    1 + net return of this row. *)
Theorem backtest_zero_close `{SortValues} (df : App.DataFrame)
    (upper_pct lower_pct fee_pct : Qc) (capital : Z) (r : App.Row) :
  App.required_cols ⊆ App.columns df →
  r ∈ App.rows df →
  App.d0_close r = Fin 0 → App.d1_open r ≠ NaN → App.date r ≠ None →
  let work := App.work_table df upper_pct lower_pct fee_pct in
  let growth := (λ w, fadd (Fin 1) (App.net_ret w)) <$> work in
  ∃ stats i w,
    App.backtest_next_open df upper_pct lower_pct fee_pct capital
    = (Some stats, None)
    ∧ App.n_trades stats = length work
    ∧ length (App.equity_series stats) = length work
    ∧ work !! i = Some w ∧ App.row w = r
    ∧ (sgn (App.d1_open r) = 0%Z → App.raw_ret w = NaN)
    ∧ (sgn (App.d1_open r) ≠ 0%Z → App.raw_ret w = PInf ∨ App.raw_ret w = NInf)
    ∧ (∀ q, App.raw_ret w ≠ Fin q)
    ∧ App.clipped_ret w
      = clip (lower_pct / App.hundred) (upper_pct / App.hundred) (App.raw_ret w)
    ∧ (App.clipped_ret w = NaN
       ∨ App.clipped_ret w = Fin (lower_pct / App.hundred)
       ∨ App.clipped_ret w = Fin (upper_pct / App.hundred))
    ∧ App.net_ret w = App.net_of_clipped fee_pct (App.clipped_ret w)
    ∧ App.equity_series stats !! i
      = Some (App.date r,
              if isna (App.net_ret w) then NaN
              else fmul (Fin (Qc_of_Z capital))
                     (fmul (fprod (fillna_one <$> take i growth))
                        (fadd (Fin 1) (App.net_ret w)))).
Proof.
  intros Hcols Hin Hclose Hopen Hdate work growth.
  assert (App.notna r) as Hna.
  { unfold App.notna. rewrite Hclose. destruct (App.d1_open r); try done;
      simpl; by rewrite bool_decide_eq_true_2. }
  assert (r ∈ App.dropna df) as Hdrop by by apply list_elem_of_filter.
  set (w := App.returns upper_pct lower_pct fee_pct r).
  assert (w ∈ work) as [i Hi]%list_elem_of_lookup
    by (apply elem_of_work_table; eauto).
  exists (App.statistics capital work), i, w.
  assert (App.raw_ret w = of_sign (sgn (App.d1_open r))) as Hraw.
  { unfold w, App.returns; cbn [App.raw_ret]. rewrite Hclose.
    by apply raw_return_zero_close. }
  assert (length (App.equity capital work) = length work) as Hlen.
  { unfold App.equity, cumprod.
    by rewrite length_fmap, cumprod_from_length, length_fmap. }
  split.
  { unfold App.backtest_next_open. rewrite bool_decide_eq_true_2 by done.
    destruct (App.dropna df); [by apply elem_of_nil in Hdrop|done]. }
  split; [done|]. split.
  { unfold App.statistics; cbn [App.equity_series].
    fold work. rewrite length_zip, length_fmap, Hlen. lia. }
  split; [done|]. split; [done|]. split; [by intros Hs; rewrite Hraw, Hs|].
  split.
  { intros Hs. rewrite Hraw. destruct (sgn (App.d1_open r)); [done|by left|by right]. }
  split; [intros q; rewrite Hraw; apply of_sign_not_Fin|].
  split; [done|]. split.
  { unfold w, App.returns; cbn [App.clipped_ret]. fold w.
    change (fsub (fdiv (App.d1_open r) (App.d0_close r)) (Fin 1))
      with (App.raw_ret w).
    rewrite Hraw. unfold clip, Qcmin, Qcmax.
    destruct (sgn (App.d1_open r)); simpl; [by left|..];
      destruct (decide _); auto. }
  split; [done|].
  unfold App.statistics; cbn [App.equity_series]. fold work.
  rewrite lookup_zip_with, list_lookup_fmap, Hi. simpl.
  by rewrite (equity_lookup capital work i w Hi).
Qed.

(** A row with close 0 and next open 5, on the day after the example row. *)
Definition zero_close_row : App.Row :=
  App.mkRow (Some DAY) (Some 1970%Z) (Fin 0) (Fin (Qc_of_Z 5)) ∅.

(** With the example row before it, the row of close 0 has an infinite raw
    return, clipped to the upper limit 0.03, and the equity after it is
    1000000 * 1.02485 * 1.02485. *)
Lemma backtest_zero_close_witness :
  let df := App.mkDataFrame App.required_cols [example_row 0 ∅; zero_close_row] in
  ∃ stats,
    App.backtest_next_open (H := merge_sort_values) df
      (Qc_of_Z 3) (Qc_of_Z (-1)) (ratio 1 2) 1000000
    = (Some stats, None)
    ∧ App.n_trades stats = 2%nat
    ∧ App.equity_series stats !! 1%nat
      = Some (Some DAY, Fin (ratio 10503175225 10000)).
Proof.
  intros df.
  destruct (backtest_zero_close (H := merge_sort_values) df
              (Qc_of_Z 3) (Qc_of_Z (-1)) (ratio 1 2) 1000000 zero_close_row)
    as (stats & i & w & Hres & Hn & _).
  - done.
  - apply list_elem_of_further, list_elem_of_here.
  - reflexivity.
  - discriminate.
  - discriminate.
  - exists stats. split; [done|]. split; [by rewrite Hn|].
    assert (App.backtest_next_open (H := merge_sort_values) df
              (Qc_of_Z 3) (Qc_of_Z (-1)) (ratio 1 2) 1000000
            = (Some (App.statistics 1000000
                       (App.work_table (H := merge_sort_values) df
                          (Qc_of_Z 3) (Qc_of_Z (-1)) (ratio 1 2))), None))
      as Hb by reflexivity.
    rewrite Hb in Hres. injection Hres as <-. qc_eval.
Defined.

(** ** The viewer's filter *)

(** C10: the filtered view has the columns of the loaded table; its rows are
    rows of the loaded table in their order, each as it was; a row is kept
    exactly when its date lies between the start and the end timestamps,
    both included, and, when the weekday exclusion is ticked, its weekday is
    not 4; and the rows left out are, with their multiplicity, the rows that
    fail this condition. *)
Theorem filter_view_keeps (df_all : App.DataFrame) (start_date end_date : Z)
    (exclude_friday : bool) :
  let df_view := App.filter_view df_all start_date end_date exclude_friday in
  let keep (r : App.Row) : Prop :=
    ∃ t, App.date r = Some t ∧ (start_date ≤ t ≤ end_date)%Z
         ∧ (exclude_friday → weekday t ≠ 4%Z) in
  App.columns df_view = App.columns df_all
  ∧ App.rows df_view `sublist_of` App.rows df_all
  ∧ (∀ r, r ∈ App.rows df_view ↔ r ∈ App.rows df_all ∧ keep r)
  ∧ ∃ removed,
      App.rows df_all ≡ₚ App.rows df_view ++ removed
      ∧ ∀ r, r ∈ removed → ¬ keep r.
Proof.
  intros df_view keep.
  set (mask r :=
         App.in_range start_date end_date r
         && (negb exclude_friday || App.not_friday r)).
  assert (App.rows df_view = filter mask (App.rows df_all)) as Hrows.
  { unfold df_view, App.filter_view, mask. destruct exclude_friday; simpl.
    - rewrite list_filter_filter. apply list_filter_iff. intros r.
      destruct (App.in_range _ _ r), (App.not_friday r); simpl; tauto.
    - apply list_filter_iff. intros r. by rewrite andb_true_r. }
  assert (∀ r, keep r ↔ mask r) as Hkeep.
  { intros r. unfold keep, mask, App.in_range, App.not_friday.
    destruct (App.date r) as [t|]; simpl.
    - split.
      + intros (t' & [= <-] & [Hs He] & Hf).
        repeat (apply andb_True; split); try by apply bool_decide_pack.
        destruct exclude_friday; simpl; [|done].
        apply bool_decide_pack. by apply Hf.
      + intros [[Hs%bool_decide_unpack He%bool_decide_unpack]%andb_True
                  Hf]%andb_True.
        exists t. repeat split; try done. intros Hex.
        destruct exclude_friday; [|done]. by apply bool_decide_unpack in Hf.
    - split; [intros (t & [=] & _)|intros []]. }
  split; [unfold df_view, App.filter_view; by destruct exclude_friday|].
  rewrite Hrows. split; [apply sublist_filter|]. split.
  - intros r. rewrite list_elem_of_filter, Hkeep. tauto.
  - exists (filter (λ r, ¬ mask r) (App.rows df_all)).
    split; [by rewrite filter_app_complement|].
    intros r [Hn _]%list_elem_of_filter. by rewrite Hkeep.
Qed.

(** ** The loader *)


Lemma elem_of_years y : y ∈ App.years ↔ (2000 ≤ y ≤ 2025)%Z.
Proof.
  unfold App.years, App.START_YEAR, App.END_YEAR. rewrite elem_of_seqZ. lia.
Qed.


(** A file as the loader appends it: with a year column taken from the
    dates when the file has none. *)
Definition with_year (raw : App.DataFrame) : App.DataFrame :=
  if App.has_col "year" raw then raw
  else
    {| App.columns := App.columns raw ++ ["year"];
       App.rows :=
         (λ r, App.mkRow (App.date r) (dt_year <$> App.date r)
                 (App.d0_close r) (App.d1_open r) (App.rest r))
           <$> App.rows raw |}.

(** A sheet with its date column replaced by the coerced dates. *)
Definition coerced (sheet : App.Sheet) (dates : list (option Z)) : App.DataFrame :=
  {| App.columns := App.columns sheet;
     App.rows := App.set_date dates (App.rows sheet) |}.

(** The frames the loop appends when no coercion raises. *)
Definition found `{App.ToDatetime} (fs : gmap string App.Sheet)
    (prefix : string) : list App.DataFrame :=
  omap (λ y, default None (App.load_year fs prefix y)) App.years.

Section loader.
Context `{SortValues} `{App.ToDatetime}.

(** What the loop does with the file of a year. *)
Lemma load_year_cases fs prefix y :
  match fs !! (prefix +:+ "_" +:+ pretty y +:+ ".xlsx") with
  | None => App.load_year fs prefix y = Some None
  | Some sheet =>
      if decide ("date" ∈ App.columns sheet) then
        match App.to_datetime (App.date <$> App.rows sheet) with
        | None => App.load_year fs prefix y = None
        | Some dates =>
            App.load_year fs prefix y = Some (Some (with_year (coerced sheet dates)))
        end
      else App.load_year fs prefix y = Some None
  end.
Proof.
  unfold App.load_year, App.fname.
  destruct (fs !! _) as [sheet|]; [|done].
  destruct (decide _) as [Hd|Hd].
  - assert (App.has_col "date" sheet = true) as ->
      by by apply bool_decide_eq_true_2.
    destruct (App.to_datetime _) as [dates|]; [|done].
    unfold with_year, coerced, App.has_col. cbn [App.columns App.rows].
    by case_bool_decide.
  - assert (App.has_col "date" sheet = false) as ->
      by by apply bool_decide_eq_false_2.
    done.
Qed.

Lemma load_year_Some fs prefix y f :
  App.load_year fs prefix y = Some (Some f) ↔
  ∃ sheet dates,
    fs !! (prefix +:+ "_" +:+ pretty y +:+ ".xlsx") = Some sheet
    ∧ "date" ∈ App.columns sheet
    ∧ App.to_datetime (App.date <$> App.rows sheet) = Some dates
    ∧ f = with_year (coerced sheet dates).
Proof.
  pose proof (load_year_cases fs prefix y) as Hc. revert Hc.
  destruct (fs !! _) as [sheet|]; intros Hc.
  2: { rewrite Hc. split; [done|]. by intros (? & ? & [=] & _). }
  revert Hc. destruct (decide _) as [Hd|Hd]; intros Hc.
  2: { rewrite Hc. split; [done|]. by intros (? & ? & [= <-] & ? & _). }
  revert Hc.
  destruct (App.to_datetime _) as [dates|] eqn:Hdates; intros Hc; rewrite Hc; split.
  - intros [= <-]. by exists sheet, dates.
  - intros (? & dates' & [= <-] & _ & Hd' & ->). rewrite Hdates in Hd'.
    by injection Hd' as <-.
  - done.
  - intros (? & dates' & [= <-] & _ & Hd' & _). by rewrite Hdates in Hd'.
Qed.

Lemma load_year_raises fs prefix y :
  App.load_year fs prefix y = None ↔
  ∃ sheet,
    fs !! (prefix +:+ "_" +:+ pretty y +:+ ".xlsx") = Some sheet
    ∧ "date" ∈ App.columns sheet
    ∧ App.to_datetime (App.date <$> App.rows sheet) = None.
Proof.
  pose proof (load_year_cases fs prefix y) as Hc. revert Hc.
  destruct (fs !! _) as [sheet|]; intros Hc.
  2: { rewrite Hc. split; [done|]. by intros (? & [=] & _). }
  revert Hc. destruct (decide _) as [Hd|Hd]; intros Hc.
  2: { rewrite Hc. split; [done|]. by intros (? & [= <-] & ? & _). }
  revert Hc.
  destruct (App.to_datetime _) as [dates|] eqn:Hdates; intros Hc; rewrite Hc; split.
  - done.
  - intros (? & [= <-] & _ & Hd'). by rewrite Hdates in Hd'.
  - intros _. by exists sheet.
  - done.
Qed.

Lemma mapM_omap_id {A B} (f : A → option (option B)) (l : list A) k :
  mapM f l = Some k → omap id k = omap (λ x, default None (f x)) l.
Proof.
  intros Hk%mapM_Some. induction Hk as [|x y l k Hxy _ IH]; [done|].
  csimpl. rewrite Hxy. simpl. by rewrite IH.
Qed.

(** The two outcomes of the loader. *)
Lemma load_top1_data_Some fs kind df :
  let prefix := if decide (kind = "volume") then "top1_volume" else "top1_value" in
  App.load_top1_data fs kind = Some df ↔
  (∀ y, (2000 ≤ y ≤ 2025)%Z → App.load_year fs prefix y ≠ None)
  ∧ df = App.assemble (found fs prefix).
Proof.
  intros prefix. unfold App.load_top1_data. fold prefix. split.
  - destruct (mapM _ _) as [dfs|] eqn:Hdfs; [|done]. simpl. intros [= <-].
    split; [|unfold found; by rewrite (mapM_omap_id _ _ _ Hdfs)].
    intros y Hy%elem_of_years Hnone.
    assert (is_Some (mapM (App.load_year fs prefix) App.years)) as Hs by eauto.
    apply mapM_is_Some, Forall_forall with (x := y) in Hs; [|done].
    simpl in Hs. rewrite Hnone in Hs. by destruct Hs.
  - intros [Hall ->].
    destruct (mapM _ _) as [dfs|] eqn:Hdfs.
    + simpl. unfold found. by rewrite (mapM_omap_id _ _ _ Hdfs).
    + apply mapM_None, Exists_exists in Hdfs as (y & Hy%elem_of_years & Hnone).
      by destruct (Hall y Hy).
Qed.


Lemma elem_of_found fs prefix f :
  f ∈ found fs prefix ↔
  ∃ y sheet dates, (2000 ≤ y ≤ 2025)%Z
    ∧ fs !! (prefix +:+ "_" +:+ pretty y +:+ ".xlsx") = Some sheet
    ∧ "date" ∈ App.columns sheet
    ∧ App.to_datetime (App.date <$> App.rows sheet) = Some dates
    ∧ f = with_year (coerced sheet dates).
Proof.
  unfold found. rewrite list_elem_of_omap. split.
  - intros (y & Hy%elem_of_years & Hf).
    destruct (App.load_year fs prefix y) as [[f'|]|] eqn:Hl; simplify_eq/=.
    apply load_year_Some in Hl as (sheet & dates & ? & ? & ? & ->).
    by exists y, sheet, dates.
  - intros (y & sheet & dates & Hy & Hs & Hd & Hdates & ->). exists y.
    split; [by apply elem_of_years|].
    assert (App.load_year fs prefix y
            = Some (Some (with_year (coerced sheet dates)))) as ->; [|done].
    apply load_year_Some. by exists sheet, dates.
Qed.



End loader.


(** ** The collector *)

Section collector.
Context `{DataCreate.Provider}.
Import DataCreate.




Lemma foldl_best_elem (col : Ohlcv → Z) (l : Snapshot) : ∀ x,
  foldl (λ best y, if decide (col best.2 < col y.2)%Z then y else best) x l
  ∈ x :: l.
Proof.
  induction l as [|y l IH]; intros x; simpl; [left|].
  case_decide.
  - right. apply IH.
  - specialize (IH x). apply elem_of_cons in IH as [->|?]; [left|].
    by do 2 right.
Qed.


Lemma foldl_best_max (col : Ohlcv → Z) (l : Snapshot) : ∀ x,
  let best :=
    foldl (λ best y, if decide (col best.2 < col y.2)%Z then y else best) x l in
  (col x.2 ≤ col best.2)%Z ∧ ∀ p, p ∈ l → (col p.2 ≤ col best.2)%Z.
Proof.
  induction l as [|y l IH]; intros x; simpl.
  - split; [lia|]. by intros p ?%elem_of_nil.
  - destruct (IH (if decide (col x.2 < col y.2)%Z then y else x)) as [Hx Hl].
    split; [case_decide; lia|].
    intros p [->|Hp]%elem_of_cons; [case_decide; lia|by apply Hl].
Qed.

(** The row picked by [idxmax] holds a maximum of the column. *)
Lemma idxmax_maximal col (df : Snapshot) t :
  idxmax col df = Some t →
  ∃ r, (t, r) ∈ df ∧ ∀ p, p ∈ df → (col p.2 ≤ col r)%Z.
Proof.
  destruct df as [|x df]; [done|]. unfold idxmax. intros [= <-].
  pose proof (foldl_best_elem col df x) as Hin.
  destruct (foldl_best_max col df x) as [Hx Hl].
  destruct (foldl _ x df) as [t r]. exists r. split; [done|].
  intros p [->|Hp]%elem_of_cons; [done|by apply Hl].
Qed.









End collector.


(** ** The yearly files *)

Lemma string_length_app (s t : string) :
  String.length (s +:+ t) = (String.length s + String.length t)%nat.
Proof.
  induction s as [|a s IH]; [done|].
  change (String a s +:+ t) with (String a (s +:+ t)). simpl. by rewrite IH.
Qed.

Lemma string_app_inv_tail (s1 s2 t : string) : s1 +:+ t = s2 +:+ t → s1 = s2.
Proof.
  revert s2. induction s1 as [|a s1 IH]; intros [|b s2] Heq; [done|..].
  - apply (f_equal String.length) in Heq.
    rewrite !string_length_app in Heq. simpl in Heq. lia.
  - apply (f_equal String.length) in Heq.
    rewrite !string_length_app in Heq. simpl in Heq. lia.
  - change (String a (s1 +:+ t) = String b (s2 +:+ t)) in Heq.
    injection Heq as -> Heq. f_equal. by apply IH.
Qed.

(** The file names tell the rank types and the years apart. *)
Lemma file_name_inj k1 y1 k2 y2 :
  DataCreate.file_name k1 y1 = DataCreate.file_name k2 y2 → k1 = k2 ∧ y1 = y2.
Proof.
  unfold DataCreate.file_name. destruct k1, k2; intros Heq.
  - apply (inj (String.app _)), string_app_inv_tail, (inj pretty) in Heq. done.
  - lazy beta iota delta [String.append] in Heq. discriminate Heq.
  - lazy beta iota delta [String.append] in Heq. discriminate Heq.
  - apply (inj (String.app _)), string_app_inv_tail, (inj pretty) in Heq. done.
Qed.

Section yearly_files.
Context `{SortValues}.
Import DataCreate.

(** The rows of a year, and what the loop writes for a year and a rank
    type. *)
Definition rows_of_year (df : list FinalRow) (y : Z) : list FinalRow :=
  filter (λ r, year r = y) df.

Definition written (df : list FinalRow) (y : Z) (k : RankType) : list FinalRow :=
  filter (of_rank k) (sort_values key_leb (rows_of_year df y)).

(** The partition of the final table for a year and a rank type. *)
Definition partition (df : list FinalRow) (y : Z) (k : RankType) : list FinalRow :=
  filter (λ r, year r = y ∧ rank_type (top r) = k) df.

Lemma written_perm df y k : written df y k ≡ₚ partition df y k.
Proof.
  unfold written, partition, rows_of_year.
  rewrite sort_values_perm, list_filter_filter.
  erewrite list_filter_iff; [done|]. intros r. unfold of_rank. tauto.
Qed.

Lemma written_nil df y k : written df y k = [] ↔ partition df y k = [].
Proof. by rewrite <-!Permutation_nil_r, written_perm. Qed.

Lemma lookup_to_excel_ne name n df (fs : gmap string (list FinalRow)) :
  name ≠ n → to_excel_unless_empty n df fs !! name = fs !! name.
Proof.
  intros Hne. unfold to_excel_unless_empty.
  destruct df; [done|]. by rewrite lookup_insert_ne.
Qed.

Lemma lookup_to_excel_eq n df (fs : gmap string (list FinalRow)) :
  df ≠ [] → to_excel_unless_empty n df fs !! n = Some df.
Proof.
  intros Hne. unfold to_excel_unless_empty.
  destruct df; [done|]. by rewrite lookup_insert_eq.
Qed.

Definition in_years (y : Z) : Prop := (2000 ≤ y ≤ 2025)%Z.

Lemma save_year_out fs df y :
  ¬ in_years y → save_year fs (y, rows_of_year df y) = fs.
Proof.
  intros Hy. unfold save_year, in_years in *.
  rewrite bool_decide_eq_true_2; [done|lia].
Qed.

Lemma save_year_other fs df y name :
  (in_years y → ∀ k, written df y k ≠ [] → name ≠ file_name k y) →
  save_year fs (y, rows_of_year df y) !! name = fs !! name.
Proof.
  intros Hname. destruct (decide (in_years y)) as [Hy|Hy];
    [|by rewrite save_year_out].
  unfold save_year. rewrite bool_decide_eq_false_2 by (unfold in_years in Hy; lia).
  fold (written df y VOLUME_TOP). fold (written df y VALUE_TOP).
  assert (∀ k fs', to_excel_unless_empty (file_name k y) (written df y k) fs'
                   !! name = fs' !! name) as Hk.
  { intros k fs'. destruct (written df y k) eqn:Hw; [done|].
    apply lookup_to_excel_ne, (Hname Hy). by rewrite Hw. }
  by rewrite !Hk.
Qed.

Lemma save_year_written fs df y k :
  in_years y → written df y k ≠ [] →
  save_year fs (y, rows_of_year df y) !! file_name k y = Some (written df y k).
Proof.
  intros Hy Hw. unfold save_year.
  rewrite bool_decide_eq_false_2 by (unfold in_years in Hy; lia).
  fold (written df y VOLUME_TOP). fold (written df y VALUE_TOP).
  destruct k.
  - rewrite lookup_to_excel_ne; [by apply lookup_to_excel_eq|].
    by intros [[=] _]%file_name_inj.
  - by apply lookup_to_excel_eq.
Qed.

Definition groups (df : list FinalRow) (ys : list Z) : list (Z * list FinalRow) :=
  (λ y, (y, rows_of_year df y)) <$> ys.

Lemma save_groups_other df name (ys : list Z) : ∀ fs,
  (∀ y k, y ∈ ys → in_years y → written df y k ≠ [] → name ≠ file_name k y) →
  foldl save_year fs (groups df ys) !! name = fs !! name.
Proof.
  induction ys as [|y ys IH]; intros fs Hname; [done|]. simpl.
  rewrite IH by (intros y' k ?; apply Hname; by right).
  apply save_year_other. intros Hy k. apply Hname; [left|done].
Qed.

Lemma save_groups_written df (ys : list Z) : ∀ fs y k,
  NoDup ys → y ∈ ys → in_years y → written df y k ≠ [] →
  foldl save_year fs (groups df ys) !! file_name k y = Some (written df y k).
Proof.
  induction ys as [|y0 ys IH]; intros fs y k Hnd Hin Hy Hw;
    [by apply elem_of_nil in Hin|].
  apply NoDup_cons in Hnd as [Hnotin Hnd]. simpl.
  apply elem_of_cons in Hin as [->|Hin].
  - rewrite save_groups_other; [by apply save_year_written|].
    intros y' k' Hy' _ _ [_ ->]%file_name_inj. done.
  - by apply IH.
Qed.

Lemma elem_of_group_keys (df : list FinalRow) y :
  y ∈ merge_sort Z.le (remove_dups (year <$> df)) ↔ ∃ r, r ∈ df ∧ year r = y.
Proof.
  rewrite merge_sort_Permutation, elem_of_remove_dups, list_elem_of_fmap.
  split; [intros (r & -> & ?)|intros (r & ? & <-)]; eauto.
Qed.

Lemma partition_year df y k : partition df y k ≠ [] → ∃ r, r ∈ df ∧ year r = y.
Proof.
  destruct (partition df y k) as [|r l] eqn:Hp; [done|]. intros _.
  assert (r ∈ partition df y k) as Hr by (rewrite Hp; left).
  apply list_elem_of_filter in Hr as [[? _] ?]. eauto.
Qed.

End yearly_files.

(** C8: after the saving loop, for every year from 2000 to 2025 and every
    rank type whose partition of the final table has a row, the file
    top1_volume_{year}.xlsx or top1_value_{year}.xlsx, by rank type, holds
    exactly the rows of that partition (those of the year sorted, then
    restricted to the rank type); two partitions never share a file name;
    every other file is as it was before, so that a partition with no row
    and a partition of a year outside 2000 to 2025 produce no file. *)
Theorem save_yearly_files `{SortValues} (df_final : list DataCreate.FinalRow)
    (fs : gmap string (list DataCreate.FinalRow)) :
  let fs' := DataCreate.save_yearly df_final fs in
  (∀ y k, (2000 ≤ y ≤ 2025)%Z → partition df_final y k ≠ [] →
     fs' !! DataCreate.file_name k y = Some (written df_final y k)
     ∧ written df_final y k ≡ₚ partition df_final y k)
  ∧ (∀ k1 y1 k2 y2,
       DataCreate.file_name k1 y1 = DataCreate.file_name k2 y2 →
       k1 = k2 ∧ y1 = y2)
  ∧ (∀ name,
       (∀ y k, (2000 ≤ y ≤ 2025)%Z → partition df_final y k ≠ [] →
          name ≠ DataCreate.file_name k y) →
       fs' !! name = fs !! name)
  ∧ (∀ y k, partition df_final y k = [] →
       fs' !! DataCreate.file_name k y = fs !! DataCreate.file_name k y)
  ∧ (∀ y k, ¬ (2000 ≤ y ≤ 2025)%Z →
       fs' !! DataCreate.file_name k y = fs !! DataCreate.file_name k y).
Proof.
  intros fs'.
  assert (∀ name,
            (∀ y k, (2000 ≤ y ≤ 2025)%Z → partition df_final y k ≠ [] →
               name ≠ DataCreate.file_name k y) →
            fs' !! name = fs !! name) as Hother.
  { intros name Hname. unfold fs', DataCreate.save_yearly, DataCreate.groupby_year.
    apply (save_groups_other df_final). intros y k _ Hy Hw.
    apply Hname; [done|]. by rewrite <-written_nil. }
  split; [|split; [|split; [|split]]].
  - intros y k Hy Hp. split; [|apply written_perm].
    unfold fs', DataCreate.save_yearly, DataCreate.groupby_year.
    apply (save_groups_written df_final).
    + rewrite merge_sort_Permutation. apply NoDup_remove_dups.
    + apply elem_of_group_keys. by eapply partition_year.
    + done.
    + by rewrite written_nil.
  - apply file_name_inj.
  - done.
  - intros y k Hp. apply Hother.
    intros y' k' _ Hp' [-> ->]%file_name_inj. done.
  - intros y k Hy. apply Hother.
    intros y' k' Hy' _ [-> ->]%file_name_inj. done.
Qed.

(** ** The fee haircut *)

(** C5: for a fee percentage F with 0 <= F < 100, the net return
    (1 + c) * (1 - F/100) - 1 is a number for every clipped return c that is
    one, and it does not decrease when c grows. *)
Theorem net_return_monotone (fee_pct c1 c2 : Qc) :
  0 ≤ fee_pct → fee_pct < App.hundred → c1 ≤ c2 →
  ∃ n1 n2,
    App.net_of_clipped fee_pct (Fin c1) = Fin n1
    ∧ App.net_of_clipped fee_pct (Fin c2) = Fin n2
    ∧ n1 ≤ n2.
Proof.
  intros Hfee0 Hfee Hc. do 2 eexists.
  split; [apply net_of_clipped_Fin|]. split; [apply net_of_clipped_Fin|].
  assert (fee_pct / App.hundred < 1) as Hlt.
  { replace 1 with (App.hundred / App.hundred).
    - by apply div_hundred_lt.
    - apply Qcmult_inv_r. intros Heq. pose proof hundred_pos as Hp.
      rewrite Heq in Hp. by apply Qclt_not_eq in Hp. }
  apply Qcplus_le_mono_r, Qcmult_le_compat_r.
  - by apply Qcplus_le_mono_l.
  - apply Qclt_le_weak. unfold Qcminus.
    apply (Qcplus_lt_mono_r _ _ (fee_pct / App.hundred)).
    by rewrite Qcplus_0_l, <-Qcplus_assoc, (Qcplus_comm (- _)),
      Qcplus_opp_r, Qcplus_0_r.
Qed.

Lemma net_return_monotone_witness :
  ∃ n1 n2,
    App.net_of_clipped (ratio 1 2) (Fin (ratio (-1) 100)) = Fin n1
    ∧ App.net_of_clipped (ratio 1 2) (Fin (ratio 3 100)) = Fin n2
    ∧ n1 ≤ n2.
Proof. apply net_return_monotone; qc_eval. Defined.

(** ** Runs on concrete inputs *)

(** *** The backtest on one row and on a table without d+1_open *)

Lemma backtest_equity_compounding_witness :
  let df := App.mkDataFrame App.required_cols [example_row 0 ∅] in
  ∃ stats,
    App.backtest_next_open (H := merge_sort_values) df
      (Qc_of_Z 3) (Qc_of_Z (-1)) (ratio 1 2) 1000000
    = (Some stats, None)
    ∧ App.final_equity stats
      = fmul (Fin (Qc_of_Z 1000000))
          (fadd (Fin 1)
             (App.net_ret
                (App.returns (Qc_of_Z 3) (Qc_of_Z (-1)) (ratio 1 2)
                   (example_row 0 ∅))))
    ∧ (App.win_rate stats = Fin 0 ∨ App.win_rate stats = Fin App.hundred).
Proof.
  intros df.
  pose proof (backtest_equity_compounding (H := merge_sort_values) df
                (Qc_of_Z 3) (Qc_of_Z (-1)) (ratio 1 2) 1000000) as Hall.
  cbv zeta in Hall. destruct Hall as (_ & _ & _ & _ & _ & Hone).
  apply Hone; [done|reflexivity].
Defined.

Definition no_open_table : App.DataFrame :=
  App.mkDataFrame ["date"; "d0_close"] [example_row 0 ∅].


Example backtest_missing_column :
  list_difference App.required_cols (App.columns no_open_table) = ["d+1_open"].
Proof. reflexivity. Qed.

(** *** The filter on a table of four days: Thursday 1970-01-01, Friday
    1970-01-02, Monday 1970-01-05 and Friday 1970-01-09 *)

Definition day_row (d : Z) : App.Row :=
  App.mkRow (Some (d * DAY)%Z) (Some 1970%Z)
    (Fin (Qc_of_Z 100)) (Fin (Qc_of_Z 101)) ∅.

Definition four_days : App.DataFrame :=
  App.mkDataFrame ["date"; "d0_close"; "d+1_open"; "year"]
    [day_row 0; day_row 1; day_row 4; day_row 8].

Example filter_view_four_days :
  App.filter_view four_days 0 (4 * DAY) true
  = App.mkDataFrame ["date"; "d0_close"; "d+1_open"; "year"]
      [day_row 0; day_row 4]
  ∧ App.filter_view four_days DAY (8 * DAY) false
    = App.mkDataFrame ["date"; "d0_close"; "d+1_open"; "year"]
        [day_row 1; day_row 4; day_row 8].
Proof. split; vm_compute; reflexivity. Qed.

Lemma filter_view_keeps_witness :
  day_row 4 ∈ App.rows (App.filter_view four_days 0 (4 * DAY) true).
Proof.
  apply (proj1 (proj2 (proj2 (filter_view_keeps four_days 0 (4 * DAY) true)))).
  split.
  - do 2 apply list_elem_of_further. apply list_elem_of_here.
  - exists (4 * DAY)%Z. split; [reflexivity|].
    split; [vm_compute; split; discriminate|].
    intros _. vm_compute. discriminate.
Defined.

(** *** The loader on four files: one of 2000 without a year column, one of
    2001 without d+1_open, one of 2002 without a date column, and one of the
    other kind *)

(** A library that reads no text as a date: [pd.to_datetime] raises on a
    text such as "hello". *)
Definition coerce_cell (c : App.date_cell) : option (option Z) :=
  match c with
  | App.Stamp t => Some (Some t)
  | App.Blank => Some None
  | App.Words _ => None
  end.

Lemma coerce_cells_lookup col l i c :
  mapM coerce_cell col = Some l → col !! i = Some c →
  ∃ d, l !! i = Some d ∧ coerce_cell c = Some d.
Proof.
  intros Hl%mapM_Some Hc.
  destruct (Forall2_lookup_l _ _ _ _ _ Hl Hc) as (d & Hd & Hcd). eauto.
Qed.

Lemma coerce_cells_length col l :
  mapM coerce_cell col = Some l → length l = length col.
Proof. intros Hl%mapM_Some. symmetry. by eapply Forall2_length. Qed.

Lemma coerce_cells_stamp col l i t :
  mapM coerce_cell col = Some l → col !! i = Some (App.Stamp t) →
  l !! i = Some (Some t).
Proof.
  intros Hl Hc. destruct (coerce_cells_lookup _ _ _ _ Hl Hc) as (d & Hd & [= <-]).
  done.
Qed.

Lemma coerce_cells_blank col l i :
  mapM coerce_cell col = Some l → col !! i = Some App.Blank →
  l !! i = Some None.
Proof.
  intros Hl Hc. destruct (coerce_cells_lookup _ _ _ _ Hl Hc) as (d & Hd & [= <-]).
  done.
Qed.

Lemma coerce_cells_no_text col :
  (∀ s, App.Words s ∉ col) → is_Some (mapM coerce_cell col).
Proof.
  intros Hcol. apply mapM_is_Some, Forall_forall. intros c Hc. simpl.
  destruct c as [t|s|]; [done| |done]. by destruct (Hcol s).
Qed.

Definition reads_no_text : App.ToDatetime :=
  {| App.to_datetime := mapM coerce_cell;
     App.to_datetime_length := coerce_cells_length;
     App.to_datetime_stamp := coerce_cells_stamp;
     App.to_datetime_blank := coerce_cells_blank;
     App.to_datetime_no_text := coerce_cells_no_text |}.

Definition sheet_2000 : App.Sheet :=
  App.mkDataFrame ["date"; "d0_close"; "d+1_open"]
    [App.mkRow (App.Stamp 946944000000000000%Z) None
       (Fin (Qc_of_Z 100)) (Fin (Qc_of_Z 103)) ∅;
     App.mkRow (App.Stamp 946857600000000000%Z) None (Fin (Qc_of_Z 50)) NaN ∅].

Definition sheet_2001 : App.Sheet :=
  App.mkDataFrame ["date"; "year"; "d0_close"]
    [App.mkRow (App.Stamp 978307200000000000%Z) (Some 2001%Z)
       (Fin (Qc_of_Z 70)) NaN ∅].

Definition sheet_without_date : App.Sheet :=
  App.mkDataFrame ["d0_close"] [App.mkRow App.Blank None (Fin 1) NaN ∅].

(** A sheet of 2003 whose second date is a text. *)
Definition sheet_with_text : App.Sheet :=
  App.mkDataFrame ["date"; "d0_close"; "d+1_open"]
    [App.mkRow (App.Stamp 1041379200000000000%Z) None
       (Fin (Qc_of_Z 100)) (Fin (Qc_of_Z 103)) ∅;
     App.mkRow (App.Words "hello") None (Fin (Qc_of_Z 50)) (Fin (Qc_of_Z 51)) ∅].

Definition disk : gmap string App.Sheet :=
  <["top1_volume_2001.xlsx" := sheet_2001]>
    (<["top1_volume_2000.xlsx" := sheet_2000]>
       (<["top1_volume_2002.xlsx" := sheet_without_date]>
          (<["top1_value_2000.xlsx" := sheet_2001]> ∅))).

(** The table loaded from the sheet of 2000 alone. *)
Definition file_2000 : App.DataFrame :=
  App.mkDataFrame ["date"; "d0_close"; "d+1_open"; "year"]
    [App.mkRow (Some 946857600000000000%Z) (Some 2000%Z)
       (Fin (Qc_of_Z 50)) NaN ∅;
     App.mkRow (Some 946944000000000000%Z) (Some 2000%Z)
       (Fin (Qc_of_Z 100)) (Fin (Qc_of_Z 103)) ∅].

Example load_top1_data_disk :
  App.load_top1_data (H := merge_sort_values) (H0 := reads_no_text) disk "volume"
  = Some (App.mkDataFrame ["date"; "d0_close"; "d+1_open"; "year"]
            [App.mkRow (Some 946857600000000000%Z) (Some 2000%Z)
               (Fin (Qc_of_Z 50)) NaN ∅;
             App.mkRow (Some 946944000000000000%Z) (Some 2000%Z)
               (Fin (Qc_of_Z 100)) (Fin (Qc_of_Z 103)) ∅;
             App.mkRow (Some 978307200000000000%Z) (Some 2001%Z)
               (Fin (Qc_of_Z 70)) NaN ∅])
  ∧ App.load_top1_data (H := merge_sort_values) (H0 := reads_no_text)
      {["top1_volume_2000.xlsx" := sheet_2000]} "volume"
    = Some file_2000.
Proof. split; vm_compute; reflexivity. Qed.


(** With a sheet whose date column holds a text that is no date, the file
    exists and has a date column, and the loader returns no table: the
    exception of [pd.to_datetime] leaves it, and the script with it. *)
Lemma load_top1_data_text_counterexample :
  let fs : gmap string App.Sheet :=
    <["top1_volume_2003.xlsx" := sheet_with_text]> disk in
  fs !! "top1_volume_2003.xlsx" = Some sheet_with_text
  ∧ "date" ∈ App.columns sheet_with_text
  ∧ App.load_top1_data (H := merge_sort_values) (H0 := reads_no_text) fs "volume"
    = None
  ∧ (∀ df, App.load_top1_data (H := merge_sort_values) (H0 := reads_no_text)
             fs "volume" ≠ Some df)
  ∧ App.script (H := merge_sort_values) (H0 := reads_no_text) fs App.VolumeTop1
      (App.Tuple [0; 1]%Z) false
    = App.Raised.
Proof.
  intros fs.
  assert (App.load_top1_data (H := merge_sort_values) (H0 := reads_no_text)
            fs "volume" = None) as Hnone by (vm_compute; reflexivity).
  split; [reflexivity|]. split; [by apply (bool_decide_unpack _)|].
  split; [done|]. split; [by rewrite Hnone|].
  unfold App.script. by rewrite Hnone.
Qed.

(** *** The collector over three days: a market of four tickers, one of them
    an ETF; a day whose snapshot cannot be fetched; a day with the ETF
    alone *)

Definition market : DataCreate.Snapshot :=
  [("005930", DataCreate.mkOhlcv 10 12 9 11 500 5500);
   ("069500", DataCreate.mkOhlcv 30 31 29 30 9000 270000);
   ("000660", DataCreate.mkOhlcv 80 85 79 84 500 42000);
   ("035720", DataCreate.mkOhlcv 5 6 4 5 300 1500)].

Definition fake_provider : DataCreate.Provider :=
  {| DataCreate.get_market_ohlcv_by_ticker dt :=
       if decide (dt = 0%Z) then Some market
       else if decide (dt = DAY) then None
       else Some [("069500", DataCreate.mkOhlcv 30 31 29 30 9000 270000)];
     DataCreate.get_etf_ticker_list dt := Some ["069500"];
     DataCreate.get_market_ticker_name t :=
       if decide (t = "005930") then Some "Samsung" else None |}.

Example get_top1_by_day_three_days :
  DataCreate.get_top1_by_day (H := fake_provider) [0; DAY; 2 * DAY]%Z
  = Some [DataCreate.mkTop 0 DataCreate.VOLUME_TOP "005930" "Samsung"
            10 12 9 11 500 5500;
          DataCreate.mkTop 0 DataCreate.VALUE_TOP "000660" ""
            80 85 79 84 500 42000].
Proof. vm_compute. reflexivity. Qed.


(** A provider whose ETF list cannot be fetched on the second day. *)
Definition etf_list_fails : DataCreate.Provider :=
  {| DataCreate.get_market_ohlcv_by_ticker dt := Some market;
     DataCreate.get_etf_ticker_list dt :=
       if decide (dt = 0%Z) then Some ["069500"] else None;
     DataCreate.get_market_ticker_name t := None |}.

(** On the second day the snapshot is fetched and has rows that are no ETF,
    and yet the day contributes neither two records nor a silent skip: the
    collector raises, and the two records of the first day are lost. *)
Lemma get_top1_by_day_etf_counterexample :
  DataCreate.get_market_ohlcv_by_ticker (Provider := etf_list_fails) DAY
  = Some market
  ∧ DataCreate.get_top1_by_day (H := etf_list_fails) [0%Z]
    = Some [DataCreate.mkTop 0 DataCreate.VOLUME_TOP "005930" ""
              10 12 9 11 500 5500;
            DataCreate.mkTop 0 DataCreate.VALUE_TOP "000660" ""
              80 85 79 84 500 42000]
  ∧ DataCreate.top1_of_day (H := etf_list_fails) DAY = DataCreate.Raise
  ∧ DataCreate.get_top1_by_day (H := etf_list_fails) [0%Z; DAY] = None
  ∧ ¬ (∀ dt, dt ∈ [0%Z; DAY] →
         DataCreate.top1_of_day (H := etf_list_fails) dt = DataCreate.Continue
         ∨ ∃ vol val,
             DataCreate.top1_of_day (H := etf_list_fails) dt
             = DataCreate.Append vol val).
Proof.
  split; [reflexivity|]. split; [vm_compute; reflexivity|].
  split; [vm_compute; reflexivity|]. split; [vm_compute; reflexivity|].
  intros Hall. destruct (Hall DAY) as [Hc|(vol & val & Hc)].
  - right. left.
  - vm_compute in Hc. discriminate.
  - vm_compute in Hc. discriminate.
Qed.

(** *** The saving loop on a table of five rows: three of 2000, one of 1999
    and one of 2001 *)

Definition final_row (t : Z) (k : DataCreate.RankType) (tk : string)
    : DataCreate.FinalRow :=
  DataCreate.mkFinal (DataCreate.mkTop t k tk "" 1 1 1 1 1 1) ∅.

(** 2000-01-01. *)
Definition first_day_2000 : Z := 946684800000000000.

Definition final_table : list DataCreate.FinalRow :=
  [final_row (first_day_2000 + DAY) DataCreate.VOLUME_TOP "B";
   final_row first_day_2000 DataCreate.VALUE_TOP "A";
   final_row first_day_2000 DataCreate.VOLUME_TOP "A";
   final_row (first_day_2000 - DAY) DataCreate.VOLUME_TOP "C";
   final_row (first_day_2000 + 366 * DAY) DataCreate.VALUE_TOP "D"].

Example save_yearly_final_table :
  DataCreate.save_yearly (H := merge_sort_values) final_table ∅
  = <["top1_value_2001.xlsx" :=
        [final_row (first_day_2000 + 366 * DAY) DataCreate.VALUE_TOP "D"]]>
      (<["top1_value_2000.xlsx" :=
           [final_row first_day_2000 DataCreate.VALUE_TOP "A"]]>
         (<["top1_volume_2000.xlsx" :=
              [final_row first_day_2000 DataCreate.VOLUME_TOP "A";
               final_row (first_day_2000 + DAY) DataCreate.VOLUME_TOP "B"]]>
            ∅)).
Proof. vm_compute. reflexivity. Qed.

Lemma save_yearly_files_witness :
  DataCreate.save_yearly (H := merge_sort_values) final_table ∅
    !! DataCreate.file_name DataCreate.VOLUME_TOP 2000
  = Some (written (H := merge_sort_values) final_table 2000 DataCreate.VOLUME_TOP)
  ∧ written (H := merge_sort_values) final_table 2000 DataCreate.VOLUME_TOP
    ≡ₚ partition final_table 2000 DataCreate.VOLUME_TOP.
Proof.
  pose proof (save_yearly_files (H := merge_sort_values) final_table ∅) as Hall.
  cbv zeta in Hall. destruct Hall as (Hwritten & _).
  apply Hwritten; [lia|]. vm_compute. discriminate.
Defined.

(** *** Dates *)

Example dt_year_examples :
  dt_year <$> [0; 946684799999999999; 946684800000000000; 951782400000000000;
               1767225599999999999; 1767225600000000000; -1]%Z
  = [1970; 1999; 2000; 2000; 2025; 2026; 1969]%Z.
Proof. reflexivity. Qed.

Example weekday_examples :
  weekday <$> [0; DAY; 4 * DAY; 1762128000000000000; -1]%Z = [3; 4; 0; 0; 2]%Z.
Proof. reflexivity. Qed.

(** * Further properties *)

(** ** The equity column stays positive *)


(** Goals of ordered-field arithmetic on [Qc]: through [Q]. *)
Ltac qc_arith :=
  unfold Qcle, Qclt, Qcdiv, Qcminus, Qcplus, Qcmult, Qcopp, Q2Qc in *;
  cbn [this] in *; rewrite ?Qred_correct in *; nra.

(** A cell that is NaN or a positive number. *)
Definition positive_or_nan (x : float) : Prop :=
  x = NaN ∨ ∃ q, x = Fin q ∧ 0 < q.

Lemma neg_hundred_div : - App.hundred / App.hundred = -1.
Proof. qc_eval. Qed.

Lemma hundred_div : App.hundred / App.hundred = 1.
Proof. qc_eval. Qed.

Lemma returns_cases upper_pct lower_pct fee_pct r :
  let w := App.returns upper_pct lower_pct fee_pct r in
  let down := lower_pct / App.hundred in
  let up := upper_pct / App.hundred in
  (App.raw_ret w = NaN ∧ App.clipped_ret w = NaN ∧ App.net_ret w = NaN)
  ∨ ∃ c, App.clipped_ret w = Fin c
         ∧ Qcmin down up ≤ c ≤ Qcmax down up
         ∧ App.net_ret w = Fin ((1 + c) * (1 - fee_pct / App.hundred) - 1).
Proof.
  intros w down up. unfold w, App.returns. cbn [App.raw_ret App.clipped_ret App.net_ret].
  fold down up. set (raw := fsub _ _).
  destruct (decide (raw = NaN)) as [->|Hraw]; [by left|right].
  destruct (clip_bounds down up raw Hraw) as (c & -> & Hc).
  exists c. split; [done|]. split; [done|]. apply net_of_clipped_Fin.
Qed.

Lemma growth_positive upper_pct lower_pct fee_pct r :
  fee_pct < App.hundred → - App.hundred < lower_pct → - App.hundred < upper_pct →
  positive_or_nan
    (fadd (Fin 1) (App.net_ret (App.returns upper_pct lower_pct fee_pct r))).
Proof.
  intros Hfee%div_hundred_lt Hlo%div_hundred_lt Hup%div_hundred_lt.
  rewrite hundred_div in Hfee. rewrite neg_hundred_div in Hlo, Hup.
  destruct (returns_cases upper_pct lower_pct fee_pct r)
    as [(_ & _ & ->)|(c & _ & [Hc _] & ->)]; [by left|right].
  eexists. split; [reflexivity|].
  assert (-1 < c) as Hc1.
  { eapply Qclt_le_trans; [|exact Hc]. unfold Qcmin. by case_decide. }
  generalize dependent (fee_pct / App.hundred). intros f Hf.
  clear Hc Hlo Hup. qc_arith.
Qed.

Lemma cumprod_from_positive (l : list float) : ∀ a,
  0 < a → Forall positive_or_nan l →
  Forall positive_or_nan (cumprod_from (Fin a) l).
Proof.
  induction l as [|x l IH]; intros a Ha Hl; [constructor|].
  apply Forall_cons in Hl as [[->|(q & -> & Hq)] Hl]; simpl.
  - constructor; [by left|]. rewrite Qcmult_1_r. by apply IH.
  - constructor; [right; eexists; split; [done|]; by apply Qcmult_pos_pos|].
    apply IH; [by apply Qcmult_pos_pos|done].
Qed.

(** X1: with a positive capital, a fee below 100 % and both limits above
    -100 %, no entry of the equity column is negative: every entry is NaN
    or compares as at least 0.  (Every factor 1 + net return is then NaN or
    not negative, which rounding preserves; in binary64 a long product can
    still underflow to 0.0, so that the entries are not claimed to be
    positive.) *)
Theorem equity_not_negative `{SortValues} (df : App.DataFrame)
    (upper_pct lower_pct fee_pct : Qc) (capital : Z) (e : float) :
  (0 < capital)%Z → fee_pct < App.hundred →
  - App.hundred < lower_pct → - App.hundred < upper_pct →
  e ∈ App.equity capital (App.work_table df upper_pct lower_pct fee_pct) →
  e = NaN ∨ fge e 0 = true.
Proof.
  intros Hcap Hfee Hlo Hup He. unfold App.equity in He.
  apply list_elem_of_fmap in He as (g & -> & Hg).
  assert (Forall positive_or_nan
            (cumprod ((λ w, fadd (Fin 1) (App.net_ret w))
                        <$> App.work_table df upper_pct lower_pct fee_pct)))
    as Hall.
  { unfold cumprod. apply cumprod_from_positive; [qc_eval|]. apply Forall_fmap, Forall_forall.
    intros w (r & -> & _)%elem_of_work_table. by apply growth_positive. }
  rewrite Forall_forall in Hall.
  destruct (Hall g Hg) as [->|(q & -> & Hq)]; [by left|right].
  simpl. apply bool_decide_eq_true_2, Qcmult_nonneg_nonneg.
  - rewrite <-Z2Qc_inj_0. apply (proj1 (Z2Qc_inj_le _ _)). lia.
  - by apply Qclt_le_weak.
Qed.

Lemma equity_not_negative_witness :
  Fin (Qc_of_Z 1024850) = NaN ∨ fge (Fin (Qc_of_Z 1024850)) 0 = true.
Proof.
  apply (equity_not_negative (H := merge_sort_values)
           (App.mkDataFrame App.required_cols [example_row 0 ∅])
           (Qc_of_Z 3) (Qc_of_Z (-1)) (ratio 1 2) 1000000).
  - lia.
  - qc_eval.
  - qc_eval.
  - qc_eval.
  - apply (bool_decide_unpack _). vm_compute. exact I.
Defined.

(** ** Trade count and win rate *)

Lemma of_nat_pos n : (0 < n)%nat → 0 < Qc_of_Z (Z.of_nat n).
Proof. intros. rewrite <-Z2Qc_inj_0. apply (proj1 (Z2Qc_inj_lt _ _)). lia. Qed.

Lemma ratio_bounds (a b : Qc) : 0 ≤ a → a ≤ b → 0 < b → 0 ≤ a / b ≤ 1.
Proof.
  intros Ha Hab Hb. pose proof (Qcinv_pos _ Hb) as Hi.
  assert (b / b = 1) as H1.
  { apply Qcmult_inv_r. intros ->. by apply Qclt_not_eq in Hb. }
  split.
  - apply Qcmult_nonneg_nonneg; [done|by apply Qclt_le_weak].
  - rewrite <-H1. apply Qcmult_le_compat_r; [done|by apply Qclt_le_weak].
Qed.

Lemma list_filter_fmap {A B} (f : A → B) (P : B → Prop)
    `{∀ x, Decision (P x)} (l : list A) :
  filter P (f <$> l) = f <$> filter (P ∘ f) l.
Proof.
  induction l as [|x l IH]; [done|]. csimpl.
  rewrite !filter_cons. simpl. case_decide; csimpl; by rewrite IH.
Qed.

(** X2: when the backtest returns statistics, the trade count is the number
    of rows without a null in d0_close, d+1_open and date and is at least
    one, the win count is at most the trade count, and the win rate is the
    number 100 * wins / n_trades, between 0 and 100. *)
Theorem backtest_win_rate `{SortValues} (df : App.DataFrame)
    (upper_pct lower_pct fee_pct : Qc) (capital : Z) (stats : App.Stats) :
  App.backtest_next_open df upper_pct lower_pct fee_pct capital
  = (Some stats, None) →
  App.n_trades stats = length (App.dropna df)
  ∧ (0 < App.n_trades stats)%nat
  ∧ (App.wins stats ≤ App.n_trades stats)%nat
  ∧ App.wins stats
    = length (filter (λ r, fgt (App.net_ret
                                  (App.returns upper_pct lower_pct fee_pct r)) 0)
                (App.dropna df))
  ∧ ∃ q, App.win_rate stats = Fin q ∧ 0 ≤ q ≤ App.hundred
         ∧ q = Qc_of_Z (Z.of_nat (App.wins stats))
               / Qc_of_Z (Z.of_nat (App.n_trades stats)) * App.hundred.
Proof.
  unfold App.backtest_next_open. case_bool_decide; [|done].
  destruct (App.dropna df) as [|r0 l] eqn:Hdrop; [done|]. intros [= <-].
  set (work := App.work_table df upper_pct lower_pct fee_pct).
  assert (length work = S (length l)) as Hlen
    by (unfold work; by rewrite work_table_length, Hdrop).
  unfold App.statistics; cbn [App.n_trades App.wins App.win_rate]. fold work.
  set (w := length (filter _ work)).
  assert (w ≤ length work)%nat as Hw by apply length_filter.
  split; [by rewrite Hlen|]. split; [lia|]. split; [done|]. split.
  { unfold w, work. rewrite work_table_perm, <-Hdrop.
    by rewrite list_filter_fmap, length_fmap. }
  destruct (length work) as [|n]; [lia|].
  assert (0 < Qc_of_Z (Z.of_nat (S n))) as Hn by (apply of_nat_pos; lia).
  unfold App.of_nat.
  rewrite fdiv_Fin by (intros Heq; rewrite Heq in Hn; by apply Qclt_not_eq in Hn).
  eexists. split; [reflexivity|]. split; [|done].
  assert (0 ≤ Qc_of_Z (Z.of_nat w)) as Hw0
    by (rewrite <-Z2Qc_inj_0; apply (proj1 (Z2Qc_inj_le _ _)); lia).
  assert (Qc_of_Z (Z.of_nat w) ≤ Qc_of_Z (Z.of_nat (S n))) as Hwn
    by (apply (proj1 (Z2Qc_inj_le _ _)); lia).
  destruct (ratio_bounds _ _ Hw0 Hwn Hn) as [Hr0 Hr1].
  pose proof hundred_pos as Hh. split.
  - apply Qcmult_nonneg_nonneg; [done|by apply Qclt_le_weak].
  - rewrite <-(Qcmult_1_l App.hundred) at 2.
    apply Qcmult_le_compat_r; [done|by apply Qclt_le_weak].
Qed.

Lemma backtest_win_rate_witness :
  let df := App.mkDataFrame App.required_cols [example_row 0 ∅; zero_close_row] in
  let stats :=
    App.statistics 1000000
      (App.work_table (H := merge_sort_values) df
         (Qc_of_Z 3) (Qc_of_Z (-1)) (ratio 1 2)) in
  App.n_trades stats = length (App.dropna df)
  ∧ (0 < App.n_trades stats)%nat
  ∧ (App.wins stats ≤ App.n_trades stats)%nat
  ∧ App.wins stats
    = length (filter (λ r, fgt (App.net_ret
                                  (App.returns (Qc_of_Z 3) (Qc_of_Z (-1))
                                     (ratio 1 2) r)) 0)
                (App.dropna df))
  ∧ ∃ q, App.win_rate stats = Fin q ∧ 0 ≤ q ≤ App.hundred
         ∧ q = Qc_of_Z (Z.of_nat (App.wins stats))
               / Qc_of_Z (Z.of_nat (App.n_trades stats)) * App.hundred.
Proof.
  intros df stats.
  apply (backtest_win_rate (H := merge_sort_values) df
           (Qc_of_Z 3) (Qc_of_Z (-1)) (ratio 1 2) 1000000).
  reflexivity.
Defined.

(** ** Bounds of the net return *)



(** ** The statistics do not depend on the order of the rows *)









(** ** The presets of the two limits *)

(** The options of the preset box: direct input, "+3 / -1", "+5 / -1",
    "+2 / -1", "+3 / -2" and "+10 / -1". *)
Inductive preset :=
  | DirectInput
  | Plus3Minus1
  | Plus5Minus1
  | Plus2Minus1
  | Plus3Minus2
  | Plus10Minus1.

(** Lines 267 to 278 of app.py: the limits [(upper_pct, lower_pct)] the
    backtest is run with. *)
Definition limits (p : preset) (upper_input lower_input : Qc) : Qc * Qc :=
  match p with
  | DirectInput => (upper_input, lower_input)
  | Plus3Minus1 => (Qc_of_Z 3, Qc_of_Z (-1))
  | Plus5Minus1 => (Qc_of_Z 5, Qc_of_Z (-1))
  | Plus2Minus1 => (Qc_of_Z 2, Qc_of_Z (-1))
  | Plus3Minus2 => (Qc_of_Z 3, Qc_of_Z (-2))
  | Plus10Minus1 => (Qc_of_Z 10, Qc_of_Z (-1))
  end.

(** X5: a preset other than direct input overrides the two number inputs
    with a negative lower limit and a positive upper limit, so that the
    backtest run with it clips every raw return that is not NaN into
    [lower_pct/100, upper_pct/100]; direct input passes the two inputs on
    unchanged. *)
Theorem preset_limits_ordered `{SortValues} (p : preset)
    (upper_input lower_input fee_pct : Qc) (df : App.DataFrame) :
  let upper_pct := (limits p upper_input lower_input).1 in
  let lower_pct := (limits p upper_input lower_input).2 in
  (p = DirectInput → upper_pct = upper_input ∧ lower_pct = lower_input)
  ∧ (p ≠ DirectInput →
       lower_pct < 0 ∧ 0 < upper_pct
       ∧ ∀ w, w ∈ App.work_table df upper_pct lower_pct fee_pct →
           App.raw_ret w ≠ NaN →
           ∃ c, App.clipped_ret w = Fin c
                ∧ lower_pct / App.hundred ≤ c ≤ upper_pct / App.hundred).
Proof.
  intros upper_pct lower_pct. split; [by intros ->|]. intros Hp.
  assert (lower_pct < 0 ∧ 0 < upper_pct) as [Hlo Hup].
  { unfold lower_pct, upper_pct. destruct p; try done; split; qc_eval. }
  split; [done|]. split; [done|].
  intros w (r & -> & _)%elem_of_work_table Hraw.
  destruct (returns_cases upper_pct lower_pct fee_pct r)
    as [(Hnan & _)|(c & Hc & Hin & _)]; [done|].
  exists c. split; [done|].
  assert (lower_pct / App.hundred ≤ upper_pct / App.hundred) as Hle.
  { apply div_hundred_le, Qclt_le_weak. by eapply Qclt_trans. }
  destruct (Qcmin_max_ordered _ _ Hle) as [Emin Emax].
  by rewrite Emin, Emax in Hin.
Qed.

Lemma preset_limits_ordered_witness :
  Qc_of_Z (-2) < 0 ∧ 0 < Qc_of_Z 3
  ∧ ∀ w, w ∈ App.work_table (H := merge_sort_values)
               (App.mkDataFrame App.required_cols [example_row 0 ∅])
               (Qc_of_Z 3) (Qc_of_Z (-2)) (ratio 1 2) →
      App.raw_ret w ≠ NaN →
      ∃ c, App.clipped_ret w = Fin c
           ∧ Qc_of_Z (-2) / App.hundred ≤ c ≤ Qc_of_Z 3 / App.hundred.
Proof.
  apply (preset_limits_ordered (H := merge_sort_values) Plus3Minus2 1 1).
  discriminate.
Defined.

(** ** The bounds of the dates and the default range *)



(** The rows of the view: one mask over the loaded rows. *)
Definition view_mask (start_date end_date : Z) (exclude_friday : bool)
    (r : App.Row) : bool :=
  App.in_range start_date end_date r
  && (negb exclude_friday || App.not_friday r).

Lemma filter_view_rows df start_date end_date exclude_friday :
  App.rows (App.filter_view df start_date end_date exclude_friday)
  = filter (view_mask start_date end_date exclude_friday) (App.rows df).
Proof.
  unfold App.filter_view, view_mask. destruct exclude_friday; simpl.
  - rewrite list_filter_filter. apply list_filter_iff. intros r.
    destruct (App.in_range _ _ r), (App.not_friday r); simpl; tauto.
  - apply list_filter_iff. intros r. by rewrite andb_true_r.
Qed.

Lemma filter_view_columns df start_date end_date exclude_friday :
  App.columns (App.filter_view df start_date end_date exclude_friday)
  = App.columns df.
Proof. unfold App.filter_view. by destruct exclude_friday. Qed.









(** ** Filtering twice *)

(** X7: filtering a view again gives the view of the intersection of the
    two ranges, with the weekday excluded when either filter excludes it; in
    particular filtering twice with the same settings changes nothing. *)
Theorem filter_view_twice (df : App.DataFrame) (s1 e1 s2 e2 : Z) (x1 x2 : bool) :
  App.filter_view (App.filter_view df s1 e1 x1) s2 e2 x2
  = App.filter_view df (s1 `max` s2) (e1 `min` e2) (x1 || x2)
  ∧ App.filter_view (App.filter_view df s1 e1 x1) s1 e1 x1
    = App.filter_view df s1 e1 x1.
Proof.
  assert (∀ a b : App.DataFrame,
            App.columns a = App.columns b → App.rows a = App.rows b → a = b)
    as Hext by (intros [] [] ; simpl; congruence).
  assert (∀ s1 e1 s2 e2 x1 x2,
            App.filter_view (App.filter_view df s1 e1 x1) s2 e2 x2
            = App.filter_view df (s1 `max` s2) (e1 `min` e2) (x1 || x2)) as Hcomp.
  { clear s1 e1 s2 e2 x1 x2. intros s1 e1 s2 e2 x1 x2. apply Hext.
    - by rewrite !filter_view_columns.
    - rewrite !filter_view_rows, list_filter_filter.
      apply list_filter_iff. intros r. unfold view_mask, App.in_range.
      destruct (App.date r) as [t|]; simpl; [|tauto].
      destruct x1, x2, (App.not_friday r); simpl;
        repeat case_bool_decide; simpl; try tauto; lia. }
  split; [apply Hcomp|].
  rewrite Hcomp, Z.max_id, Z.min_id. by destruct x1.
Qed.

(** ** What the loader reads *)

Lemma omap_ext_elem {A B} (f g : A → option B) (l : list A) :
  (∀ x, x ∈ l → f x = g x) → omap f l = omap g l.
Proof.
  induction l as [|x l IH]; intros Hfg; [done|]. csimpl.
  rewrite (Hfg x) by left. rewrite IH; [done|].
  intros y Hy. apply Hfg. by right.
Qed.

Lemma mapM_ext_elem {A B} (f g : A → option B) (l : list A) :
  (∀ x, x ∈ l → f x = g x) → mapM f l = mapM g l.
Proof.
  intros Hfg. destruct (mapM g l) as [k|] eqn:Hg.
  - apply mapM_Some. apply mapM_Some in Hg.
    clear -Hfg Hg. induction Hg as [|x y l k Hxy _ IH]; constructor.
    + rewrite Hfg; [done|left].
    + apply IH. intros z Hz. apply Hfg. by right.
  - apply mapM_None. apply mapM_None in Hg.
    apply Exists_exists in Hg as (x & Hx & Hgx). apply Exists_exists.
    exists x. split; [done|]. by rewrite Hfg.
Qed.

(** X8: the loader reads the files {prefix}_{year}.xlsx of the years 2000
    to 2025 and no other: two sets of files that agree on these names load
    into the same table, or both make the loader raise, so that adding,
    replacing or removing a file of any other name changes nothing; and
    every kind other than "volume" loads the value files. *)
Theorem load_top1_data_reads `{SortValues} `{App.ToDatetime}
    (fs1 fs2 : gmap string App.Sheet) (kind : string) :
  let prefix := if decide (kind = "volume") then "top1_volume" else "top1_value" in
  ((∀ y, (2000 ≤ y ≤ 2025)%Z →
      fs1 !! App.fname prefix y = fs2 !! App.fname prefix y) →
   App.load_top1_data fs1 kind = App.load_top1_data fs2 kind)
  ∧ (∀ name f, (∀ y, (2000 ≤ y ≤ 2025)%Z → name ≠ App.fname prefix y) →
       App.load_top1_data (<[name := f]> fs1) kind = App.load_top1_data fs1 kind
       ∧ App.load_top1_data (delete name fs1) kind = App.load_top1_data fs1 kind)
  ∧ (kind ≠ "volume" →
       App.load_top1_data fs1 kind = App.load_top1_data fs1 "value").
Proof.
  intros prefix.
  assert (∀ fs fs' : gmap string App.Sheet,
            (∀ y, (2000 ≤ y ≤ 2025)%Z →
               fs !! App.fname prefix y = fs' !! App.fname prefix y) →
            App.load_top1_data fs kind = App.load_top1_data fs' kind) as Hagree.
  { intros fs fs' Hfs. unfold App.load_top1_data. fold prefix.
    rewrite (mapM_ext_elem (App.load_year fs prefix) (App.load_year fs' prefix));
      [done|].
    intros y Hy%elem_of_years. unfold App.load_year. by rewrite Hfs. }
  split; [apply Hagree|]. split.
  - intros name f Hname. split; apply Hagree; intros y Hy.
    + rewrite lookup_insert_ne; [done|]. by apply Hname.
    + rewrite lookup_delete_ne; [done|]. by apply Hname.
  - intros Hk. unfold App.load_top1_data. by rewrite decide_False by done.
Qed.

Lemma load_top1_data_reads_witness :
  App.load_top1_data (H := merge_sort_values) (H0 := reads_no_text)
    (<["top1_volume_2026.xlsx" := sheet_with_text]> disk) "volume"
  = App.load_top1_data (H := merge_sort_values) (H0 := reads_no_text) disk "volume"
  ∧ App.load_top1_data (H := merge_sort_values) (H0 := reads_no_text)
      (delete "top1_volume_2026.xlsx" disk) "volume"
    = App.load_top1_data (H := merge_sort_values) (H0 := reads_no_text)
        disk "volume".
Proof.
  pose proof (load_top1_data_reads (H := merge_sort_values) (H0 := reads_no_text)
                disk disk "volume") as Hall.
  cbv zeta in Hall. destruct Hall as (_ & Hother & _).
  apply Hother. intros y Hy Heq.
  assert (y ∈ App.years) as Hin by by apply elem_of_years.
  clear Hy. revert y Hin Heq.
  apply (proj1 (Forall_forall
                  (λ y, "top1_volume_2026.xlsx" ≠ App.fname "top1_volume" y)
                  App.years)).
  apply (bool_decide_unpack _). vm_compute. exact I.
Defined.

(** ** The columns of the loaded table *)

Lemma elem_of_union_columns (dfs : list App.DataFrame) c : ∀ acc,
  c ∈ foldl (λ acc df, acc ++ list_difference (App.columns df) acc) acc dfs
  ↔ c ∈ acc ∨ ∃ f, f ∈ dfs ∧ c ∈ App.columns f.
Proof.
  induction dfs as [|f dfs IH]; intros acc; simpl.
  - split; [by left|]. intros [?|(f & Hf & _)]; [done|].
    by apply elem_of_nil in Hf.
  - rewrite IH, elem_of_app, list_elem_of_difference. split.
    + intros [[?|[? _]]|(g & Hg & ?)]; [by left|right..].
      * exists f. split; [left|done].
      * exists g. split; [by right|done].
    + intros [?|(g & [->|Hg]%elem_of_cons & Hc)]; [by left; left|..].
      * destruct (decide (c ∈ acc)); [by left; left|]. left; right. done.
      * right. eauto.
Qed.

Lemma with_year_columns raw c :
  c ∈ App.columns (with_year raw) ↔ c ∈ App.columns raw ∨ c = "year".
Proof.
  unfold with_year, App.has_col. case_bool_decide; simpl.
  - split; [by left|]. by intros [?| ->].
  - rewrite elem_of_app, list_elem_of_singleton. done.
Qed.

(** X9: when the loader returns, a column of the loaded table is a column
    of one of the files taken, or the year column; a loaded table that is
    not empty has the date and the year column.  Hence, when the script
    reaches the filter, the view has these two columns, and a backtest on it
    can report only d0_close and d+1_open as missing. *)
Theorem loaded_columns `{SortValues} `{App.ToDatetime}
    (fs : gmap string App.Sheet) (kind : string) :
  let prefix := if decide (kind = "volume") then "top1_volume" else "top1_value" in
  (∀ df, App.load_top1_data fs kind = Some df →
     (∀ c, c ∈ App.columns df ↔
        ∃ y raw, (2000 ≤ y ≤ 2025)%Z ∧ fs !! App.fname prefix y = Some raw
          ∧ "date" ∈ App.columns raw ∧ (c ∈ App.columns raw ∨ c = "year"))
     ∧ (App.empty df = false →
        "date" ∈ App.columns df ∧ "year" ∈ App.columns df))
  ∧ (∀ label date_range exclude_friday df_all df_view,
       App.script fs label date_range exclude_friday = App.Viewing df_all df_view →
       "date" ∈ App.columns df_view ∧ "year" ∈ App.columns df_view
       ∧ ∀ upper_pct lower_pct fee_pct capital missing,
           App.backtest_next_open df_view upper_pct lower_pct fee_pct capital
           = (None, Some (App.MissingColumns missing)) →
           missing ⊆ ["d0_close"; "d+1_open"]).
Proof.
  intros prefix.
  assert (∀ k df c, App.load_top1_data fs k = Some df →
            c ∈ App.columns df ↔
            ∃ f, f ∈ found fs (if decide (k = "volume") then "top1_volume"
                               else "top1_value")
                 ∧ c ∈ App.columns f) as Hcols.
  { intros k df c [_ ->]%load_top1_data_Some. unfold App.assemble.
    destruct (found fs _) as [|f0 l] eqn:Hfound.
    - simpl. split; [by intros ?%elem_of_nil|].
      by intros (f & ?%elem_of_nil & _).
    - cbn [App.columns App.concat]. rewrite elem_of_union_columns.
      split; [intros [?%elem_of_nil|?]; done|by right]. }
  assert (∀ k df, App.load_top1_data fs k = Some df → App.empty df = false →
            "date" ∈ App.columns df ∧ "year" ∈ App.columns df) as Hne.
  { intros k df Hdf Hk.
    assert (∃ c, c ∈ App.columns df) as [c Hc].
    { unfold App.empty in Hk. destruct (App.columns _) as [|c ?]; [done|].
      exists c. left. }
    apply (Hcols k df c Hdf) in Hc as (f & Hf & _).
    pose proof Hf as Hf'.
    apply elem_of_found in Hf' as (y & raw & dates & _ & _ & Hdate & _ & ->).
    split; apply (Hcols k df _ Hdf); exists (with_year (coerced raw dates));
      (split; [done|]); apply with_year_columns; [by left|by right]. }
  split.
  - intros df Hdf. split; [|by apply (Hne kind)].
    intros c. rewrite (Hcols kind df c Hdf). fold prefix. split.
    + intros (f & (y & raw & dates & Hy & Hraw & Hdate & _ & ->)%elem_of_found
                & Hc%with_year_columns).
      exists y, raw. eauto.
    + intros (y & raw & Hy & Hraw & Hdate & Hc).
      destruct (App.to_datetime (App.date <$> App.rows raw)) as [dates|] eqn:Hd.
      * exists (with_year (coerced raw dates)). split.
        -- apply elem_of_found. by exists y, raw, dates.
        -- by apply with_year_columns.
      * apply load_top1_data_Some in Hdf as [Hall _]. fold prefix in Hall.
        destruct (Hall y Hy). apply load_year_raises. by exists raw.
  - intros label date_range exclude_friday df_all df_view Hs.
    unfold App.script in Hs.
    set (k := match label with App.VolumeTop1 => "volume" | App.ValueTop1 => "value" end)
      in Hs.
    destruct (App.load_top1_data fs k) as [df|] eqn:Hdf; [|done].
    destruct (App.empty df) eqn:Hemp; [done|].
    destruct (Hne k df Hdf Hemp) as [Hdate Hyear].
    assert (App.columns df_view = App.columns df) as Hv.
    { destruct (App.get_date_bounds _) as [[[[a|]|] [[b|]|]]|]; try done.
      destruct date_range as [[|s [|e [|]]]|d]; try done;
        injection Hs as <- <-; apply filter_view_columns. }
    rewrite Hv. split; [done|]. split; [done|].
    intros upper_pct lower_pct fee_pct capital missing.
    unfold App.backtest_next_open. case_bool_decide.
    { by destruct (App.dropna df_view). }
    intros Heq.
    assert (missing = list_difference App.required_cols (App.columns df_view))
      as -> by congruence.
    intros c [Hc Hn]%list_elem_of_difference.
    rewrite Hv in Hn. unfold App.required_cols in Hc.
    apply elem_of_cons in Hc as [->|Hc]; [left|].
    apply elem_of_cons in Hc as [->|Hc]; [right; left|].
    apply list_elem_of_singleton in Hc as ->. done.
Qed.

Lemma loaded_columns_witness :
  ∃ df,
    App.load_top1_data (H := merge_sort_values) (H0 := reads_no_text) disk "volume"
    = Some df
    ∧ "date" ∈ App.columns df ∧ "year" ∈ App.columns df.
Proof.
  pose proof (loaded_columns (H := merge_sort_values) (H0 := reads_no_text)
                disk "volume") as Hall.
  cbv zeta in Hall. destruct Hall as (Hdf & _).
  eexists. split; [vm_compute; reflexivity|].
  eapply Hdf; [vm_compute; reflexivity|reflexivity].
Defined.

(** ** The tickers the collector picks *)

Section top_tickers.
Context `{DataCreate.Provider}.
Import DataCreate.

(** [idxmax] returns the first row that holds the maximum: the rows before
    it are strictly smaller. *)
Lemma foldl_best_first (col : Ohlcv → Z) (l : Snapshot) : ∀ x,
  ∃ l1 l2,
    x :: l
    = l1 ++ foldl (λ best y, if decide (col best.2 < col y.2)%Z then y else best)
              x l :: l2
    ∧ ∀ p, p ∈ l1 →
        (col p.2
         < col (foldl (λ best y, if decide (col best.2 < col y.2)%Z then y else best)
                  x l).2)%Z.
Proof.
  induction l as [|y l IH]; intros x; simpl.
  - exists [], []. split; [done|]. by intros p ?%elem_of_nil.
  - case_decide as Hxy.
    + destruct (IH y) as (l1 & l2 & Heq & Hlt).
      destruct (foldl_best_max col l y) as [Hy _].
      exists (x :: l1), l2. split; [by rewrite Heq at 1|].
      intros p [->|Hp]%elem_of_cons; [lia|by apply Hlt].
    + destruct (IH x) as (l1 & l2 & Heq & Hlt).
      destruct l1 as [|x' l1]; simpl in Heq.
      * injection Heq as Hx Hl. exists [], (y :: l). split.
        -- simpl. by rewrite <-Hx.
        -- by intros p ?%elem_of_nil.
      * injection Heq as <- Hl. exists (x :: y :: l1), l2. split.
        -- simpl. by rewrite Hl at 1.
        -- assert (col x.2 < col (foldl (λ best y0, if decide (col best.2 < col y0.2)%Z
                                                     then y0 else best) x l).2)%Z
             as Hx by (apply Hlt; left).
           intros p [->|[->|Hp]%elem_of_cons]%elem_of_cons; [done|lia|].
           apply Hlt. by right.
Qed.

Lemma idxmax_first col (df : Snapshot) t :
  idxmax col df = Some t →
  ∃ r l1 l2, df = l1 ++ (t, r) :: l2
    ∧ (∀ p, p ∈ l1 → (col p.2 < col r)%Z)
    ∧ (∀ p, p ∈ df → (col p.2 ≤ col r)%Z).
Proof.
  intros Ht. destruct (idxmax_maximal col df t Ht) as (r & Hin & Hmax).
  destruct df as [|x df]; [done|]. unfold idxmax in Ht. injection Ht as Ht.
  destruct (foldl_best_first col df x) as (l1 & l2 & Heq & Hlt).
  destruct (foldl_best_max col df x) as [Hx Hl].
  destruct (foldl _ x df) as [t' r'] eqn:Hb. simpl in Ht. subst t'.
  exists r', l1, l2. split; [done|]. split; [done|].
  intros p [->|Hp]%elem_of_cons; [done|by apply Hl].
Qed.

Lemma loc_unique (df : Snapshot) t r :
  NoDup (df.*1) → (t, r) ∈ df → loc df t = Some r.
Proof.
  intros Hnd Hin. unfold loc.
  induction df as [|[t' r'] df IH]; [by apply elem_of_nil in Hin|].
  simpl in *. apply NoDup_cons in Hnd as [Hnotin Hnd]. case_bool_decide as Ht.
  - subst t'. apply elem_of_cons in Hin as [[= ->]|Hin]; [done|].
    destruct Hnotin. apply list_elem_of_fmap. by exists (t, r).
  - apply elem_of_cons in Hin as [[= -> ->]|Hin]; [done|]. by apply IH.
Qed.

(** X10: on a day whose snapshot has distinct tickers, the VOLUME_TOP record
    is the first row of the snapshot, ETF tickers left out, that holds the
    largest volume, and the VALUE_TOP record the first that holds the largest
    traded value; each record carries the prices, the volume and the value of
    its row, and the name the provider gives for the ticker, or the empty
    string when that call fails.  No record carries an ETF ticker. *)
Theorem top1_of_day_argmax (dt : Z) (df : Snapshot) (etfs : list string)
    (vol val : TopRecord) :
  get_market_ohlcv_by_ticker dt = Some df →
  get_etf_ticker_list dt = Some etfs →
  NoDup (df.*1) →
  top1_of_day dt = Append vol val →
  let kept := filter (λ x, x.1 ∉ etfs) df in
  let first_max (col : Ohlcv → Z) (rec : TopRecord) :=
    ∃ r l1 l2,
      kept = l1 ++ (ticker rec, r) :: l2
      ∧ (∀ p, p ∈ l1 → (col p.2 < col r)%Z)
      ∧ (∀ p, p ∈ kept → (col p.2 ≤ col r)%Z)
      ∧ (ticker rec ∉ etfs)
      ∧ rec = top_record dt (rank_type rec) (ticker rec)
                (default "" (get_market_ticker_name (ticker rec))) r in
  first_max volume vol ∧ rank_type vol = VOLUME_TOP
  ∧ first_max value val ∧ rank_type val = VALUE_TOP.
Proof.
  intros Hdf Hetf Hnd Htop. cbv zeta. unfold top1_of_day in Htop.
  rewrite Hdf, Hetf in Htop. cbv zeta in Htop.
  assert (NoDup ((filter (λ x, x.1 ∉ etfs) df).*1)) as Hndk.
  { eapply sublist_NoDup; [exact Hnd|]. apply fmap_sublist, sublist_filter. }
  assert (∀ t r, (t, r) ∈ filter (λ x, x.1 ∉ etfs) df → t ∉ etfs) as Hkept.
  { intros t r [Hn _]%list_elem_of_filter. done. }
  destruct (filter (λ x, x.1 ∉ etfs) df) as [|x kept'] eqn:Hk; [done|].
  cbv iota in Htop. set (kept := x :: kept') in *.
  destruct (idxmax volume kept) as [t1|] eqn:H1; [|done].
  destruct (idxmax value kept) as [t2|] eqn:H2; [|done].
  destruct (idxmax_first _ _ _ H1) as (r1 & a1 & b1 & Hd1 & Hlt1 & Hle1).
  destruct (idxmax_first _ _ _ H2) as (r2 & a2 & b2 & Hd2 & Hlt2 & Hle2).
  assert ((t1, r1) ∈ kept) as Hin1
    by (rewrite Hd1; apply elem_of_app; right; left).
  assert ((t2, r2) ∈ kept) as Hin2
    by (rewrite Hd2; apply elem_of_app; right; left).
  rewrite (loc_unique _ _ _ Hndk Hin1), (loc_unique _ _ _ Hndk Hin2) in Htop.
  injection Htop as <- <-.
  split; [|split; [done|split; [|done]]].
  - exists r1, a1, b1. simpl. eauto 10.
  - exists r2, a2, b2. simpl. eauto 10.
Qed.

End top_tickers.

Lemma top1_of_day_argmax_witness :
  let kept := filter (λ x, x.1 ∉ ["069500"]) market in
  let vol := DataCreate.mkTop 0 DataCreate.VOLUME_TOP "005930" "Samsung"
               10 12 9 11 500 5500 in
  ∃ r l1 l2,
    kept = l1 ++ (DataCreate.ticker vol, r) :: l2
    ∧ (∀ p, p ∈ l1 → (DataCreate.volume p.2 < DataCreate.volume r)%Z)
    ∧ (∀ p, p ∈ kept → (DataCreate.volume p.2 ≤ DataCreate.volume r)%Z)
    ∧ (DataCreate.ticker vol ∉ ["069500"])
    ∧ vol = DataCreate.top_record 0 (DataCreate.rank_type vol)
              (DataCreate.ticker vol)
              (default "" (DataCreate.get_market_ticker_name (Provider := fake_provider)
                             (DataCreate.ticker vol))) r.
Proof.
  intros kept vol.
  refine (proj1 (top1_of_day_argmax (H := fake_provider) 0 market ["069500"] vol
                   (DataCreate.mkTop 0 DataCreate.VALUE_TOP "000660" ""
                      80 85 79 84 500 42000) _ _ _ _)).
  - reflexivity.
  - reflexivity.
  - apply (bool_decide_unpack _). vm_compute. exact I.
  - vm_compute. reflexivity.
Defined.

(** ** The price window of each record: attach_prev_next_ohlcv *)

Module Window.
Import DataCreate.

(** The price history of a ticker as the provider returns it: one row per
    date, with the columns of a snapshot; the column 거래대금 may be absent,
    and the field [value] of the rows is then meaningless. *)
Record History := mkHistory {
  has_value : bool;
  bars : list (Z * Ohlcv)
}.

(** The call [stock.get_market_ohlcv(START, END, ticker)]; [None] stands for
    a raised exception. *)
Class TickerData := {
  get_market_ohlcv : string → option History
}.

(** A row of [df_ohlcv]: the keys of the merge and the eighteen columns
    named d0_*_full, d-1_* and d+1_*. *)
Record FullRow := mkFull {
  f_ticker : string;
  f_date : Z;
  f_cells : gmap string float
}.

Definition of_Z (z : Z) : float := Fin (Qc_of_Z z).

(** A cell of a shifted column: the value of the neighbouring row, NaN
    where there is none. *)
Definition shifted (col : Ohlcv → Z) (o : option Ohlcv) : float :=
  match o with
  | Some r => of_Z (col r)
  | None => NaN
  end.

Definition fields : list (string * (Ohlcv → Z)) :=
  [("open", open); ("high", high); ("low", low); ("close", close);
   ("volume", volume); ("value", value)].

Definition window_cells (prev : option Ohlcv) (cur : Ohlcv)
    (next : option Ohlcv) : gmap string float :=
  list_to_map
    (((λ f, ("d0_" +:+ f.1 +:+ "_full", of_Z (f.2 cur))) <$> fields)
     ++ ((λ f, ("d-1_" +:+ f.1, shifted f.2 prev)) <$> fields)
     ++ ((λ f, ("d+1_" +:+ f.1, shifted f.2 next)) <$> fields)).

(** The cells of a record that matches no row of [df_ohlcv]. *)
Definition null_cells : gmap string float :=
  list_to_map
    (((λ f, ("d0_" +:+ f.1 +:+ "_full", NaN)) <$> fields)
     ++ ((λ f, ("d-1_" +:+ f.1, NaN)) <$> fields)
     ++ ((λ f, ("d+1_" +:+ f.1, NaN)) <$> fields)).

(** The value of a 64-bit signed integer operation: the result modulo 2^64,
    taken between -2^63 and 2^63 - 1. *)
Definition wrap64 (z : Z) : Z :=
  ((z + 2 ^ 63) `mod` 2 ^ 64 - 2 ^ 63)%Z.

(** The column 거래대금, computed as 종가 * 거래량 when the provider does
    not give it.  The two columns are int64, so the product wraps around. *)
Definition with_value (h : History) : list (Z * Ohlcv) :=
  if has_value h then bars h
  else (λ b, (b.1, mkOhlcv (open b.2) (high b.2) (low b.2) (close b.2)
                     (volume b.2) (wrap64 (close b.2 * volume b.2))))
         <$> bars h.

(** [shift(1)] and [shift(-1)] on the sorted history: row [i] gets the
    columns of rows [i - 1] and [i + 1]. *)
Definition shift_rows (ticker : string) (l : list (Z * Ohlcv)) : list FullRow :=
  imap (λ i b,
          mkFull ticker b.1
            (window_cells (snd <$> (match i with O => None | S j => l !! j end))
               b.2 (snd <$> l !! S i))) l.

(** One turn of the loop over the tickers: the rows appended to
    [all_rows], or [None] where the loop continues. *)
Definition ticker_rows `{TickerData} `{SortValues} (ticker : string)
    : option (list FullRow) :=
  match get_market_ohlcv ticker with
  | None => None
  | Some h =>
      match bars h with
      | [] => None
      | _ =>
          Some (shift_rows ticker
                  (sort_values (λ a b, bool_decide (a.1 ≤ b.1)%Z) (with_value h)))
      end
  end.

(** [Series.unique()]: the values in order of first appearance. *)
Fixpoint unique (l : list string) : list string :=
  match l with
  | [] => []
  | x :: l' => x :: filter (λ y, y ≠ x) (unique l')
  end.

(** [pd.merge(df_top, right, on=["ticker", "date"], how="left")]: every row
    of the left table in its order, once per matching row of the right
    table, or once with null cells when none matches. *)
Definition merge_left (df_top : list FinalRow) (right : list FullRow)
    (nulls : gmap string float) : list FinalRow :=
  df_top ≫= (λ r,
    match filter (λ f, f_ticker f = ticker (top r) ∧ f_date f = date (top r))
            right with
    | [] => [mkFinal (top r) (attached r ∪ nulls)]
    | ms => (λ f, mkFinal (top r) (attached r ∪ f_cells f)) <$> ms
    end).

(** [attach_prev_next_ohlcv].  The table of no record is the frame
    [pd.DataFrame([])], which has no column: reading its column "date"
    raises, shown as [None].  The same-day columns of a record are never
    null, so the final [fillna] leaves them as they are. *)
Definition attach_prev_next_ohlcv `{TickerData} `{SortValues}
    (df_top : list FinalRow) : option (list FinalRow) :=
  match df_top with
  | [] => None
  | _ =>
      let unique_tickers := unique (ticker ∘ top <$> df_top) in
      let all_rows := omap ticker_rows unique_tickers in
      match all_rows with
      | [] => Some df_top
      | _ => Some (merge_left df_top (mjoin all_rows) null_cells)
      end
  end.

End Window.


(** *** Facts on sorted lists, [unique] and the left merge *)


Lemma unique_elem (l : list string) x : x ∈ Window.unique l ↔ x ∈ l.
Proof.
  induction l as [|y l IH]; [done|]. simpl.
  rewrite !elem_of_cons, list_elem_of_filter, IH.
  destruct (decide (x = y)); tauto.
Qed.

Lemma unique_NoDup (l : list string) : NoDup (Window.unique l).
Proof.
  induction l as [|y l IH]; [constructor|]. simpl. apply NoDup_cons. split.
  - by intros [? _]%list_elem_of_filter.
  - by apply NoDup_filter.
Qed.

Lemma elem_of_merge_left df_top right nulls r :
  r ∈ Window.merge_left df_top right nulls ↔
  ∃ r0, r0 ∈ df_top ∧ DataCreate.top r = DataCreate.top r0
    ∧ ((∀ f, f ∈ right →
          ¬ (Window.f_ticker f = DataCreate.ticker (DataCreate.top r0)
             ∧ Window.f_date f = DataCreate.date (DataCreate.top r0)))
       ∧ DataCreate.attached r = DataCreate.attached r0 ∪ nulls
       ∨ ∃ f, f ∈ right
           ∧ Window.f_ticker f = DataCreate.ticker (DataCreate.top r0)
           ∧ Window.f_date f = DataCreate.date (DataCreate.top r0)
           ∧ DataCreate.attached r = DataCreate.attached r0 ∪ Window.f_cells f).
Proof.
  unfold Window.merge_left. rewrite list_elem_of_bind.
  set (P := λ (r0 : DataCreate.FinalRow) (f : Window.FullRow),
              Window.f_ticker f = DataCreate.ticker (DataCreate.top r0)
              ∧ Window.f_date f = DataCreate.date (DataCreate.top r0)).
  assert (∀ r0 f, f ∈ filter (P r0) right ↔ P r0 f ∧ f ∈ right) as Hms
    by (intros; apply list_elem_of_filter).
  split.
  - intros (r0 & Hr & Hr0). exists r0. split; [done|].
    specialize (Hms r0). fold (P r0) in Hr.
    destruct (filter (P r0) right) as [|m ms].
    + apply list_elem_of_singleton in Hr as ->. split; [done|]. left.
      split; [|done]. intros f Hf Hk.
      assert (f ∈ []) as Hin by by apply Hms. by apply elem_of_nil in Hin.
    + apply list_elem_of_fmap in Hr as (f & -> & Hf). split; [done|]. right.
      apply Hms in Hf as [[? ?] ?]. exists f. done.
  - intros (r0 & Hr0 & Htop & Hcase). exists r0. split; [|done].
    destruct r as [t a]; simpl in *. subst t.
    specialize (Hms r0). fold (P r0).
    destruct Hcase as [[Hno ->]|(f & Hf & Ht & Hd & ->)].
    + destruct (filter (P r0) right) as [|m ms]; [left|].
      assert (P r0 m ∧ m ∈ right) as [Hk Hin] by (apply Hms; left).
      by destruct (Hno m Hin).
    + assert (f ∈ filter (P r0) right) as Hin by by apply Hms.
      destruct (filter (P r0) right) as [|m ms];
        [by apply elem_of_nil in Hin|].
      exact (list_elem_of_fmap_2
               (λ f, DataCreate.mkFinal (DataCreate.top r0)
                       (DataCreate.attached r0 ∪ Window.f_cells f))
               (m :: ms) f Hin).
Qed.

Section window.
Context `{Window.TickerData} `{SortValues}.
Import DataCreate Window.

(** The history of a ticker in ascending order of the date, with its
    column of traded value. *)
Definition sorted_bars (h : History) : list (Z * Ohlcv) :=
  sort_values (λ a b, bool_decide (a.1 ≤ b.1)%Z) (with_value h).

(** The row before row [i]. *)
Definition row_before (l : list (Z * Ohlcv)) (i : nat) : option (Z * Ohlcv) :=
  match i with O => None | S j => l !! j end.



Lemma with_value_dates h : (with_value h).*1 = (bars h).*1.
Proof.
  unfold with_value. destruct (has_value h); [done|].
  rewrite <-list_fmap_compose. by apply list_fmap_ext.
Qed.

Lemma sorted_bars_perm h : sorted_bars h ≡ₚ with_value h.
Proof. apply sort_values_perm. Qed.




Lemma ticker_rows_Some t rows :
  ticker_rows t = Some rows ↔
  ∃ h, get_market_ohlcv t = Some h ∧ bars h ≠ []
       ∧ rows = shift_rows t (sorted_bars h).
Proof.
  unfold ticker_rows, sorted_bars.
  destruct (get_market_ohlcv t) as [h|]; [|split; [done|by intros (? & [=] & _)]].
  destruct (bars h) eqn:Hb; split.
  - done.
  - intros (h' & [= <-] & Hne & _). by rewrite Hb in Hne.
  - intros [= <-]. exists h. by rewrite Hb.
  - by intros (h' & [= <-] & _ & ->).
Qed.

Lemma elem_of_shift_rows t l f :
  f ∈ shift_rows t l ↔
  ∃ i b, l !! i = Some b
    ∧ f = mkFull t b.1 (window_cells (snd <$> row_before l i) b.2
                          (snd <$> l !! S i)).
Proof.
  unfold shift_rows. rewrite elem_of_lookup_imap.
  split; intros (i & b & ? & ?); by exists i, b.
Qed.

Lemma elem_of_all_rows (tickers : list string) f :
  f ∈ mjoin (omap ticker_rows tickers) ↔
  ∃ rows, f_ticker f ∈ tickers ∧ ticker_rows (f_ticker f) = Some rows ∧ f ∈ rows.
Proof.
  rewrite list_elem_of_join. setoid_rewrite list_elem_of_omap. split.
  - intros (rows & Hf & t & Ht & Hrows).
    pose proof Hrows as (h & _ & _ & ->)%ticker_rows_Some.
    pose proof Hf as (i & b & _ & ->)%elem_of_shift_rows. simpl. eauto.
  - intros (rows & Ht & Hrows & Hf). eauto.
Qed.


Lemma window_cells_lookup prev cur next f :
  f ∈ fields →
  window_cells prev cur next !! ("d0_" +:+ f.1 +:+ "_full") = Some (of_Z (f.2 cur))
  ∧ window_cells prev cur next !! ("d-1_" +:+ f.1) = Some (shifted f.2 prev)
  ∧ window_cells prev cur next !! ("d+1_" +:+ f.1) = Some (shifted f.2 next).
Proof.
  unfold fields. rewrite !elem_of_cons, elem_of_nil.
  intros [->|[->|[->|[->|[->|[->|[]]]]]]]; repeat split; reflexivity.
Qed.

Lemma null_cells_lookup k : k ∈ dom null_cells → null_cells !! k = Some NaN.
Proof.
  intros [x Hx]%elem_of_dom. rewrite Hx. f_equal.
  unfold null_cells in Hx. apply elem_of_list_to_map_2 in Hx.
  unfold fields in Hx. simpl in Hx.
  repeat (apply elem_of_cons in Hx as [[= _ ->]|Hx]; [done|]).
  by apply elem_of_nil in Hx.
Qed.

Lemma window_cells_dom prev cur next :
  dom (window_cells prev cur next) = dom null_cells.
Proof.
  unfold window_cells, null_cells. rewrite !dom_list_to_map_L. reflexivity.
Qed.

(** The rows fetched for a list of distinct tickers have distinct keys when
    no history repeats a date. *)
Lemma all_rows_keys_NoDup (tickers : list string) :
  NoDup tickers →
  (∀ t h, t ∈ tickers → get_market_ohlcv t = Some h → NoDup (bars h).*1) →
  NoDup ((λ f, (f_ticker f, f_date f)) <$> mjoin (omap ticker_rows tickers)).
Proof.
  induction 1 as [|t tickers Hnot Hnd IH]; intros Hh; [constructor|].
  simpl. destruct (ticker_rows t) as [rows|] eqn:Hrows.
  2: { apply IH. intros t' h' ?. apply Hh. by right. }
  simpl. rewrite fmap_app. apply NoDup_app. split; [|split].
  - apply ticker_rows_Some in Hrows as (h & Hget & _ & ->).
    unfold shift_rows. rewrite fmap_imap.
    assert (∀ l' : list (Z * Ohlcv),
              imap (λ (i : nat) (b : Z * Ohlcv), (t, b.1)) l'
              = (λ b : Z * Ohlcv, (t, b.1)) <$> l') as ->.
    { intros l'. exact (imap_const (λ b : Z * Ohlcv, (t, b.1)) l'). }
    assert (∀ l' : list (Z * Ohlcv),
              (λ b : Z * Ohlcv, (t, b.1)) <$> l' = (λ d : Z, (t, d)) <$> l'.*1) as ->
      by (intros; by rewrite <-list_fmap_compose).
    apply NoDup_fmap_2; [by intros ?? [=]|].
    rewrite sorted_bars_perm, with_value_dates. eapply Hh; [by left|done].
  - intros k (f & -> & Hf)%list_elem_of_fmap (f' & Hk & Hf')%list_elem_of_fmap.
    apply elem_of_all_rows in Hf' as (_ & Hin & _).
    apply ticker_rows_Some in Hrows as (h & _ & _ & ->).
    apply elem_of_shift_rows in Hf as (i & b & _ & ->). simpl in Hk.
    injection Hk as Hk _. apply Hnot. by rewrite Hk.
  - apply IH. intros t' h' ?. apply Hh. by right.
Qed.

Lemma filter_key_length {A K} `{EqDecision K} (key : A → K) (k : K) (l : list A) :
  NoDup (key <$> l) → (length (filter (λ a, key a = k) l) ≤ 1)%nat.
Proof.
  induction l as [|a l IH]; [simpl; lia|].
  rewrite fmap_cons, NoDup_cons. intros [Hnot Hnd].
  rewrite filter_cons. destruct (decide (key a = k)) as [Hk|]; [|by apply IH].
  destruct (filter (λ a, key a = k) l) as [|x xs] eqn:Hf; [simpl; lia|].
  exfalso.
  assert (x ∈ filter (λ a, key a = k) l) as [Hkx Hx]%list_elem_of_filter
    by (rewrite Hf; left).
  apply Hnot. rewrite Hk, <-Hkx. by apply list_elem_of_fmap_2.
Qed.

Lemma merge_left_once df_top right nulls :
  NoDup ((λ f, (f_ticker f, f_date f)) <$> right) →
  top <$> merge_left df_top right nulls = top <$> df_top.
Proof.
  intros Hnd. unfold merge_left.
  induction df_top as [|r df_top IH]; [done|].
  rewrite bind_cons, fmap_app, IH, fmap_cons. clear IH.
  change (top r :: (top <$> df_top)) with ([top r] ++ (top <$> df_top)). f_equal.
  pose proof (filter_key_length (λ f, (f_ticker f, f_date f))
                (ticker (top r), date (top r)) right Hnd) as Hlen.
  assert (filter (λ f, (f_ticker f, f_date f) = (ticker (top r), date (top r))) right
          = filter (λ f, f_ticker f = ticker (top r) ∧ f_date f = date (top r)) right)
    as Heq.
  { apply list_filter_iff. intros f. split; [by intros [= -> ->]|by intros [-> ->]]. }
  cbv beta in Hlen. rewrite Heq in Hlen.
  destruct (filter _ right) as [|m [|m' ms]]; [done..|simpl in Hlen; lia].
Qed.

(** The tickers whose fetch raises or gives an empty table. *)
Definition no_history (t : string) : Prop :=
  match get_market_ohlcv t with
  | Some h => bars h = []
  | None => True
  end.

Lemma ticker_rows_no_history t : ticker_rows t = None ↔ no_history t.
Proof.
  unfold ticker_rows, no_history. destruct (get_market_ohlcv t) as [h|]; [|done].
  by destruct (bars h).
Qed.

Lemma all_rows_nil (tickers : list string) :
  omap ticker_rows tickers = [] ↔ ∀ t, t ∈ tickers → no_history t.
Proof.
  split.
  - intros Hnil t Ht. apply ticker_rows_no_history.
    destruct (ticker_rows t) as [rows|] eqn:Hrows; [|done].
    assert (rows ∈ omap ticker_rows tickers) as Hin
      by (apply list_elem_of_omap; eauto).
    rewrite Hnil in Hin. by apply elem_of_nil in Hin.
  - intros Hall. induction tickers as [|t tickers IH]; [done|]. simpl.
    assert (ticker_rows t = None) as ->
      by (apply ticker_rows_no_history, Hall; by left).
    apply IH. intros t' ?. apply Hall. by right.
Qed.

Lemma tickers_of_table (df_top : list FinalRow) t :
  t ∈ unique (ticker ∘ top <$> df_top) ↔ ∃ r0, r0 ∈ df_top ∧ ticker (top r0) = t.
Proof.
  rewrite unique_elem, list_elem_of_fmap. split; intros (r0 & ? & ?); by exists r0.
Qed.

(** The two exits of the function on a table with a record. *)
Lemma attach_unchanged df_top :
  df_top ≠ [] → (∀ r0, r0 ∈ df_top → no_history (ticker (top r0))) →
  attach_prev_next_ohlcv df_top = Some df_top.
Proof using Type*.
  intros Hne Hall. unfold attach_prev_next_ohlcv.
  destruct df_top as [|r1 df_top]; [done|].
  set (df := r1 :: df_top) in *.
  assert (omap ticker_rows (unique (ticker ∘ top <$> df)) = []) as ->; [|done].
  apply all_rows_nil. intros t (r0 & Hr0 & <-)%tickers_of_table. by apply Hall.
Qed.

Lemma attach_merged df_top r1 :
  r1 ∈ df_top → ¬ no_history (ticker (top r1)) →
  attach_prev_next_ohlcv df_top
  = Some (merge_left df_top
            (mjoin (omap ticker_rows (unique (ticker ∘ top <$> df_top))))
            null_cells).
Proof using Type*.
  intros Hr1 Hh. unfold attach_prev_next_ohlcv.
  destruct df_top as [|r df_top]; [by apply elem_of_nil in Hr1|].
  set (df := r :: df_top) in *.
  pose proof (all_rows_nil (unique (ticker ∘ top <$> df))) as Hnil.
  destruct (omap ticker_rows (unique (ticker ∘ top <$> df))); [|done].
  destruct Hh. apply (proj1 Hnil eq_refl). apply tickers_of_table. eauto.
Qed.


Global Instance no_history_dec t : Decision (no_history t).
Proof.
  unfold no_history. destruct (get_market_ohlcv t) as [h|]; [|by left].
  destruct (bars h); [by left|by right].
Defined.

(** The rows of [df_ohlcv] with the ticker and the date of a record. *)
Lemma matching_rows (df_top : list FinalRow) r0 f :
  r0 ∈ df_top →
  (f ∈ mjoin (omap ticker_rows (unique (ticker ∘ top <$> df_top)))
   ∧ f_ticker f = ticker (top r0) ∧ f_date f = date (top r0))
  ↔ ∃ h i b, get_market_ohlcv (ticker (top r0)) = Some h
      ∧ sorted_bars h !! i = Some (date (top r0), b)
      ∧ f = mkFull (ticker (top r0)) (date (top r0))
              (window_cells (snd <$> row_before (sorted_bars h) i) b
                 (snd <$> sorted_bars h !! S i)).
Proof using Type*.
  intros Hr0. rewrite elem_of_all_rows. split.
  - intros ((rows & _ & Hrows & Hf) & Ht & Hd). rewrite Ht in Hrows.
    apply ticker_rows_Some in Hrows as (h & Hget & _ & ->).
    apply elem_of_shift_rows in Hf as (i & [d b] & Hi & ->).
    simpl in *. subst d. by exists h, i, b.
  - intros (h & i & b & Hget & Hi & ->). simpl. split; [|done].
    exists (shift_rows (ticker (top r0)) (sorted_bars h)). split; [|split].
    + apply tickers_of_table. eauto.
    + apply ticker_rows_Some. exists h. split; [done|]. split; [|done].
      intros Hnil.
      assert ((date (top r0), b) ∈ with_value h) as Hin
        by (rewrite <-sorted_bars_perm; by eapply list_elem_of_lookup_2).
      apply (list_elem_of_fmap_2 fst) in Hin. rewrite with_value_dates, Hnil in Hin.
      by apply elem_of_nil in Hin.
    + apply elem_of_shift_rows. by exists i, (date (top r0), b).
Qed.


(** X11: on a table with at least one record, when no fetched history
    repeats a date, attach_prev_next_ohlcv returns a table with the same
    records in the same order, each exactly once. *)
Theorem attach_prev_next_keeps_records df_top :
  df_top ≠ [] →
  (∀ r0 h, r0 ∈ df_top → get_market_ohlcv (ticker (top r0)) = Some h →
     NoDup (bars h).*1) →
  ∃ out, attach_prev_next_ohlcv df_top = Some out
         ∧ top <$> out = top <$> df_top.
Proof using Type*.
  intros Hne Hnd.
  destruct (decide (Forall (λ r0, no_history (ticker (top r0))) df_top))
    as [Hall|Hex].
  - exists df_top. split; [|done]. apply attach_unchanged; [done|].
    by apply Forall_forall.
  - apply not_Forall_Exists in Hex; [|intros ?; apply _].
    apply Exists_exists in Hex as (r1 & Hr1 & Hh).
    eexists. split; [by eapply attach_merged|].
    apply merge_left_once, all_rows_keys_NoDup; [apply unique_NoDup|].
    intros t h (r0 & Hr0 & <-)%tickers_of_table. by apply Hnd.
Qed.

(** X12: when every fetch of a history raises or gives an empty table, the
    records are returned as they are, without any of the eighteen columns;
    as soon as one ticker has a history, every returned record has all
    eighteen columns. *)
Theorem attach_prev_next_columns df_top out :
  attach_prev_next_ohlcv df_top = Some out →
  ((∀ r0, r0 ∈ df_top → no_history (ticker (top r0))) → out = df_top)
  ∧ (∀ r1, r1 ∈ df_top → ¬ no_history (ticker (top r1)) →
     ∀ r, r ∈ out → dom null_cells ⊆ dom (attached r)).
Proof using Type*.
  intros Hout. split.
  - intros Hall. destruct df_top as [|r1 df_top]; [done|].
    rewrite attach_unchanged in Hout by done. by injection Hout.
  - intros r1 Hr1 Hh r Hr. rewrite (attach_merged _ r1) in Hout by done.
    injection Hout as <-.
    apply elem_of_merge_left in Hr
      as (r0 & _ & _ & [[_ ->]|(f & Hf & _ & _ & ->)]);
      rewrite dom_union; [apply union_subseteq_r|].
    apply elem_of_all_rows in Hf as (rows & _ & Hrows & Hf).
    apply ticker_rows_Some in Hrows as (h & _ & _ & ->).
    apply elem_of_shift_rows in Hf as (i & b & _ & ->). simpl.
    rewrite window_cells_dom. apply union_subseteq_r.
Qed.


(** X14: a record whose date is not in the history of its ticker, or whose
    ticker has no history, while another ticker has one, is kept with NaN
    in each of the eighteen columns. *)
Theorem attach_prev_next_unmatched df_top out r0 r1 :
  attach_prev_next_ohlcv df_top = Some out →
  r0 ∈ df_top → r1 ∈ df_top → ¬ no_history (ticker (top r1)) →
  (∀ h, get_market_ohlcv (ticker (top r0)) = Some h →
     date (top r0) ∉ (bars h).*1) →
  mkFinal (top r0) (attached r0 ∪ null_cells) ∈ out
  ∧ (∀ r, r ∈ out → ticker (top r) = ticker (top r0) →
       date (top r) = date (top r0) →
       ∃ r', r' ∈ df_top ∧ top r = top r' ∧ attached r = attached r' ∪ null_cells)
  ∧ ∀ k, k ∈ dom null_cells → null_cells !! k = Some NaN.
Proof using Type*.
  intros Hout Hr0 Hr1 Hh Hno.
  rewrite (attach_merged _ r1) in Hout by done. injection Hout as <-.
  assert (∀ r', r' ∈ df_top → ticker (top r') = ticker (top r0) →
            date (top r') = date (top r0) →
            ∀ f, f ∈ mjoin (omap ticker_rows (unique (ticker ∘ top <$> df_top))) →
              ¬ (f_ticker f = ticker (top r') ∧ f_date f = date (top r')))
    as Hnone.
  { intros r' Hr' Ht Hd f Hf [Hft Hfd].
    destruct (proj1 (matching_rows df_top r' f Hr')) as (h & i & b & Hget & Hi & _);
      [done|].
    rewrite Ht in Hget. apply (Hno h Hget).
    rewrite <-with_value_dates, <-sorted_bars_perm, <-Hd.
    apply (list_elem_of_fmap_2 fst _ (date (top r'), b)).
    by eapply list_elem_of_lookup_2. }
  split; [|split].
  - apply elem_of_merge_left. exists r0. split; [done|]. split; [done|]. left.
    split; [|done]. by apply Hnone.
  - intros r Hr Ht Hd.
    apply elem_of_merge_left in Hr as (r' & Hr' & Htop & Hcase).
    exists r'. split; [done|]. split; [done|]. rewrite Htop in Ht, Hd.
    destruct Hcase as [[_ ->]|(f & Hf & Hft & Hfd & _)]; [done|].
    by destruct (Hnone r' Hr' Ht Hd f Hf).
  - apply null_cells_lookup.
Qed.

End window.

(** *** The window on three records and two tickers: "A" with three days
    given out of order and without the column of traded value, "B" with an
    empty table, any other ticker raising *)

Definition bar (c : Z) : DataCreate.Ohlcv := DataCreate.mkOhlcv c c c c 10 0.

(** A close of 4e9 and a volume of 4e9 give a negative traded value. *)
Example wrap64_overflow :
  Window.wrap64 (4000000000 * 4000000000) = (-2446744073709551616)%Z
  ∧ Window.wrap64 (20 * 10) = 200%Z.
Proof. split; reflexivity. Qed.

Definition history_A : Window.History :=
  Window.mkHistory false
    [((first_day_2000 + 2 * DAY)%Z, bar 30); (first_day_2000, bar 10);
     ((first_day_2000 + DAY)%Z, bar 20)].

Definition histories : Window.TickerData :=
  {| Window.get_market_ohlcv t :=
       if decide (t = "A") then Some history_A
       else if decide (t = "B") then Some (Window.mkHistory true [])
       else None |}.

Definition tops : list DataCreate.FinalRow :=
  [final_row (first_day_2000 + DAY) DataCreate.VOLUME_TOP "A";
   final_row (first_day_2000 + DAY) DataCreate.VALUE_TOP "B";
   final_row (first_day_2000 + 5 * DAY) DataCreate.VOLUME_TOP "A"].

Lemma histories_NoDup r0 h :
  r0 ∈ tops →
  Window.get_market_ohlcv (TickerData := histories)
    (DataCreate.ticker (DataCreate.top r0)) = Some h →
  NoDup (Window.bars h).*1.
Proof.
  unfold tops. rewrite !elem_of_cons, elem_of_nil.
  intros [->|[->|[->|[]]]] [= <-]; by apply (bool_decide_unpack _).
Qed.

Lemma attach_prev_next_keeps_records_witness :
  ∃ out,
    Window.attach_prev_next_ohlcv (H := histories) (H0 := merge_sort_values) tops
    = Some out
    ∧ DataCreate.top <$> out = DataCreate.top <$> tops.
Proof.
  apply (attach_prev_next_keeps_records (H := histories) (H0 := merge_sort_values)
           tops); [done|].
  apply histories_NoDup.
Defined.

Lemma attach_prev_next_columns_witness :
  ((∀ r0, r0 ∈ [final_row first_day_2000 DataCreate.VOLUME_TOP "B"] →
      no_history (H := histories) (DataCreate.ticker (DataCreate.top r0))) →
   [final_row first_day_2000 DataCreate.VOLUME_TOP "B"]
   = [final_row first_day_2000 DataCreate.VOLUME_TOP "B"])
  ∧ (∀ r1, r1 ∈ [final_row first_day_2000 DataCreate.VOLUME_TOP "B"] →
       ¬ no_history (H := histories) (DataCreate.ticker (DataCreate.top r1)) →
       ∀ r, r ∈ [final_row first_day_2000 DataCreate.VOLUME_TOP "B"] →
         dom Window.null_cells ⊆ dom (DataCreate.attached r)).
Proof.
  apply (attach_prev_next_columns (H := histories) (H0 := merge_sort_values)
           [final_row first_day_2000 DataCreate.VOLUME_TOP "B"]).
  reflexivity.
Defined.


Lemma attach_prev_next_unmatched_witness :
  DataCreate.mkFinal
    (DataCreate.top (final_row (first_day_2000 + 5 * DAY) DataCreate.VOLUME_TOP "A"))
    (∅ ∪ Window.null_cells)
  ∈ Window.merge_left tops
      (Window.shift_rows "A"
         (merge_sort_by (λ a b, bool_decide (a.1 ≤ b.1)%Z)
            (Window.with_value history_A)))
      Window.null_cells.
Proof.
  apply (attach_prev_next_unmatched (H := histories) (H0 := merge_sort_values)
           tops _
           (final_row (first_day_2000 + 5 * DAY) DataCreate.VOLUME_TOP "A")
           (final_row (first_day_2000 + DAY) DataCreate.VOLUME_TOP "A")).
  - reflexivity.
  - right. right. left.
  - left.
  - by apply (bool_decide_unpack _).
  - intros h [= <-]. by apply (bool_decide_unpack _).
Defined.

(** ** The investor columns of each record: attach_stock_investor_data *)

Module Investor.
Import DataCreate Window.

(** A row of the table of traded value by investor of a ticker: the columns
    개인, 외국인 and 기관합계. *)
Record Flows := mkFlows {
  individual : Z;
  foreigner : Z;
  institution : Z
}.

(** The table as the provider returns it, one row per date; each of the
    three columns may be absent, the field of the rows being then
    meaningless.  The table is taken to have some other column (기타법인,
    전체), so that it is empty when it has no row. *)
Record Trading := mkTrading {
  has_individual : bool;
  has_foreigner : bool;
  has_institution : bool;
  days : list (Z * Flows)
}.

(** The call [stock.get_market_trading_value_by_date(START, END,
    ticker=ticker)]; [None] stands for a raised exception. *)
Class InvestorData := {
  get_market_trading_value_by_date : string → option Trading
}.

(** A cell of a column that is filled with [pd.NA] when the table lacks
    it. *)
Definition or_na (present : bool) (z : Z) : float :=
  if present then of_Z z else NaN.

Definition investor_cells (inv : Trading) (v : Flows) : gmap string float :=
  list_to_map
    [("ind_value", or_na (has_individual inv) (individual v));
     ("frg_value", or_na (has_foreigner inv) (foreigner v));
     ("inst_value", or_na (has_institution inv) (institution v))].

(** The cells of a record that matches no row of [df_inv]. *)
Definition investor_nulls : gmap string float :=
  list_to_map [("ind_value", NaN); ("frg_value", NaN); ("inst_value", NaN)].

(** One turn of the loop over the tickers: the table appended to
    [inv_records], or [None] where the loop continues. *)
Definition investor_rows `{InvestorData} (ticker : string)
    : option (list FullRow) :=
  match get_market_trading_value_by_date ticker with
  | None => None
  | Some inv =>
      match days inv with
      | [] => None
      | _ => Some ((λ d, mkFull ticker d.1 (investor_cells inv d.2)) <$> days inv)
      end
  end.

(** [attach_stock_investor_data]; on the table of no record, reading the
    column "date" raises, shown as [None]. *)
Definition attach_stock_investor_data `{InvestorData} (df_top : list FinalRow)
    : option (list FinalRow) :=
  match df_top with
  | [] => None
  | _ =>
      let unique_tickers := unique (ticker ∘ top <$> df_top) in
      let inv_records := omap investor_rows unique_tickers in
      match inv_records with
      | [] => Some df_top
      | _ => Some (merge_left df_top (mjoin inv_records) investor_nulls)
      end
  end.

End Investor.

(** *** The rows fetched ticker by ticker *)

Section per_ticker.
Import DataCreate Window.
Variable rows_of : string → option (list FullRow).
Hypothesis rows_ticker :
  ∀ t rows f, rows_of t = Some rows → f ∈ rows → f_ticker f = t.

Lemma elem_of_fetched (tickers : list string) f :
  f ∈ mjoin (omap rows_of tickers) ↔
  ∃ rows, f_ticker f ∈ tickers ∧ rows_of (f_ticker f) = Some rows ∧ f ∈ rows.
Proof using rows_ticker.
  rewrite list_elem_of_join. setoid_rewrite list_elem_of_omap. split.
  - intros (rows & Hf & t & Ht & Hrows).
    rewrite (rows_ticker _ _ _ Hrows Hf). eauto.
  - intros (rows & Ht & Hrows & Hf). eauto.
Qed.

Lemma fetched_keys_NoDup (tickers : list string) :
  NoDup tickers →
  (∀ t rows, t ∈ tickers → rows_of t = Some rows → NoDup (f_date <$> rows)) →
  NoDup ((λ f, (f_ticker f, f_date f)) <$> mjoin (omap rows_of tickers)).
Proof using rows_ticker.
  induction 1 as [|t tickers Hnot Hnd IH]; intros Hh; [constructor|].
  simpl. destruct (rows_of t) as [rows|] eqn:Hrows.
  2: { apply IH. intros t' h' ?. apply Hh. by right. }
  simpl. rewrite fmap_app. apply NoDup_app. split; [|split].
  - assert ((λ f, (f_ticker f, f_date f)) <$> rows
            = (λ d : Z, (t, d)) <$> (f_date <$> rows)) as ->.
    { rewrite <-list_fmap_compose. apply list_fmap_ext. intros i f Hf. simpl.
      f_equal. eapply rows_ticker; [done|]. by eapply list_elem_of_lookup_2. }
    apply NoDup_fmap_2; [by intros ?? [=]|]. eapply Hh; [by left|done].
  - intros k (f & -> & Hf)%list_elem_of_fmap (f' & Hk & Hf')%list_elem_of_fmap.
    apply elem_of_fetched in Hf' as (_ & Hin & _).
    injection Hk as Hk _. apply Hnot.
    by rewrite <-(rows_ticker _ _ _ Hrows Hf), Hk.
  - apply IH. intros t' h' ?. apply Hh. by right.
Qed.

Lemma fetched_nil (tickers : list string) :
  omap rows_of tickers = [] ↔ ∀ t, t ∈ tickers → rows_of t = None.
Proof.
  split.
  - intros Hnil t Ht. destruct (rows_of t) as [rows|] eqn:Hrows; [|done].
    assert (rows ∈ omap rows_of tickers) as Hin
      by (apply list_elem_of_omap; eauto).
    rewrite Hnil in Hin. by apply elem_of_nil in Hin.
  - intros Hall. induction tickers as [|t tickers IH]; [done|]. simpl.
    rewrite (Hall t) by left. apply IH. intros t' ?. apply Hall. by right.
Qed.

End per_ticker.

Lemma NoDup_fst_functional {A B} (l : list (A * B)) x y1 y2 :
  NoDup l.*1 → (x, y1) ∈ l → (x, y2) ∈ l → y1 = y2.
Proof.
  intros Hnd [i Hi]%list_elem_of_lookup [j Hj]%list_elem_of_lookup.
  assert (i = j) as ->.
  { eapply (NoDup_lookup _ _ _ x Hnd); rewrite list_lookup_fmap.
    - by rewrite Hi.
    - by rewrite Hj. }
  rewrite Hi in Hj. by injection Hj.
Qed.

Section investor.
Context `{Investor.InvestorData}.
Import DataCreate Window Investor.

Lemma investor_rows_Some t rows :
  investor_rows t = Some rows ↔
  ∃ inv, get_market_trading_value_by_date t = Some inv ∧ days inv ≠ []
         ∧ rows = (λ d, mkFull t d.1 (investor_cells inv d.2)) <$> days inv.
Proof.
  unfold investor_rows.
  destruct (get_market_trading_value_by_date t) as [inv|];
    [|split; [done|by intros (? & [=] & _)]].
  destruct (days inv) eqn:Hd; split.
  - done.
  - intros (inv' & Hi & Hne & _). injection Hi as <-. by rewrite Hd in Hne.
  - intros [= <-]. exists inv. by rewrite Hd.
  - intros (inv' & Hi & _ & ->). injection Hi as <-. by rewrite Hd.
Qed.

Lemma investor_rows_ticker t rows f :
  investor_rows t = Some rows → f ∈ rows → f_ticker f = t.
Proof.
  intros (inv & _ & _ & ->)%investor_rows_Some (d & -> & _)%list_elem_of_fmap.
  done.
Qed.

(** The tickers whose fetch raises or gives an empty table. *)
Definition no_flows (t : string) : Prop :=
  match get_market_trading_value_by_date t with
  | Some inv => days inv = []
  | None => True
  end.

Global Instance no_flows_dec t : Decision (no_flows t).
Proof.
  unfold no_flows. destruct (get_market_trading_value_by_date t) as [inv|];
    [|by left].
  destruct (days inv); [by left|by right].
Defined.

Lemma investor_rows_no_flows t : investor_rows t = None ↔ no_flows t.
Proof.
  unfold investor_rows, no_flows.
  destruct (get_market_trading_value_by_date t) as [inv|]; [|done].
  by destruct (days inv).
Qed.

Lemma attach_investor_unchanged df_top :
  df_top ≠ [] → (∀ r0, r0 ∈ df_top → no_flows (ticker (top r0))) →
  attach_stock_investor_data df_top = Some df_top.
Proof.
  intros Hne Hall. unfold attach_stock_investor_data.
  destruct df_top as [|r1 df_top]; [done|].
  set (df := r1 :: df_top) in *.
  assert (omap investor_rows (unique (ticker ∘ top <$> df)) = []) as ->; [|done].
  apply fetched_nil. intros t (r0 & Hr0 & <-)%tickers_of_table.
  by apply investor_rows_no_flows, Hall.
Qed.

Lemma attach_investor_merged df_top r1 :
  r1 ∈ df_top → ¬ no_flows (ticker (top r1)) →
  attach_stock_investor_data df_top
  = Some (merge_left df_top
            (mjoin (omap investor_rows (unique (ticker ∘ top <$> df_top))))
            investor_nulls).
Proof.
  intros Hr1 Hh. unfold attach_stock_investor_data.
  destruct df_top as [|r df_top]; [by apply elem_of_nil in Hr1|].
  set (df := r :: df_top) in *.
  pose proof (fetched_nil investor_rows (unique (ticker ∘ top <$> df))) as Hnil.
  destruct (omap investor_rows (unique (ticker ∘ top <$> df))); [|done].
  destruct Hh. apply investor_rows_no_flows, (proj1 Hnil eq_refl).
  apply tickers_of_table. eauto.
Qed.

(** The rows of [df_inv] with the ticker and the date of a record. *)
Lemma matching_flows (df_top : list FinalRow) r0 f :
  r0 ∈ df_top →
  (f ∈ mjoin (omap investor_rows (unique (ticker ∘ top <$> df_top)))
   ∧ f_ticker f = ticker (top r0) ∧ f_date f = date (top r0))
  ↔ ∃ inv v, get_market_trading_value_by_date (ticker (top r0)) = Some inv
      ∧ (date (top r0), v) ∈ days inv
      ∧ f = mkFull (ticker (top r0)) (date (top r0)) (investor_cells inv v).
Proof.
  intros Hr0. rewrite (elem_of_fetched _ investor_rows_ticker). split.
  - intros ((rows & _ & Hrows & Hf) & Ht & Hd). rewrite Ht in Hrows.
    apply investor_rows_Some in Hrows as (inv & Hget & _ & ->).
    apply list_elem_of_fmap in Hf as ([d v] & -> & Hin).
    simpl in *. subst d. by exists inv, v.
  - intros (inv & v & Hget & Hin & ->). simpl. split; [|done].
    exists ((λ d, mkFull (ticker (top r0)) d.1 (investor_cells inv d.2))
              <$> days inv).
    split; [|split].
    + apply tickers_of_table. eauto.
    + apply investor_rows_Some. exists inv. split; [done|]. split; [|done].
      intros Hnil. rewrite Hnil in Hin. by apply elem_of_nil in Hin.
    + apply list_elem_of_fmap. by exists (date (top r0), v).
Qed.

(** X15: a record whose date is in the investor table of its ticker, the
    table having no repeated date, gets the three values of that date under
    the names ind_value, frg_value and inst_value, a value being NaN when
    the table has no such column. *)
Theorem attach_investor_values df_top out r0 inv v :
  attach_stock_investor_data df_top = Some out →
  r0 ∈ df_top →
  get_market_trading_value_by_date (ticker (top r0)) = Some inv →
  NoDup (days inv).*1 →
  (date (top r0), v) ∈ days inv →
  mkFinal (top r0) (attached r0 ∪ investor_cells inv v) ∈ out
  ∧ (∀ r, r ∈ out → ticker (top r) = ticker (top r0) →
       date (top r) = date (top r0) →
       ∃ r', r' ∈ df_top ∧ top r = top r'
         ∧ attached r = attached r' ∪ investor_cells inv v)
  ∧ investor_cells inv v !! "ind_value"
    = Some (if has_individual inv then of_Z (individual v) else NaN)
  ∧ investor_cells inv v !! "frg_value"
    = Some (if has_foreigner inv then of_Z (foreigner v) else NaN)
  ∧ investor_cells inv v !! "inst_value"
    = Some (if has_institution inv then of_Z (institution v) else NaN).
Proof.
  intros Hout Hr0 Hget Hnd Hv.
  assert (¬ no_flows (ticker (top r0))) as Hh.
  { unfold no_flows. rewrite Hget. intros Hnil. rewrite Hnil in Hv.
    by apply elem_of_nil in Hv. }
  rewrite (attach_investor_merged _ r0 Hr0 Hh) in Hout. injection Hout as <-.
  split; [|split; [|done]].
  - apply elem_of_merge_left. exists r0. split; [done|]. split; [done|]. right.
    destruct (proj2 (matching_flows df_top r0
                       (mkFull (ticker (top r0)) (date (top r0))
                          (investor_cells inv v)) Hr0))
      as (Hf & Ht & Hd); [by exists inv, v|].
    eexists. split; [exact Hf|]. done.
  - intros r Hr Ht Hd.
    apply elem_of_merge_left in Hr as (r' & Hr' & Htop & Hcase).
    exists r'. split; [done|]. split; [done|]. rewrite Htop in Ht, Hd.
    destruct Hcase as [[Hno _]|(f & Hf & Hft & Hfd & ->)].
    + exfalso.
      eapply (Hno (mkFull (ticker (top r')) (date (top r')) _)); [|done].
      apply (matching_flows df_top r' _ Hr'). exists inv, v.
      rewrite Ht, Hd. done.
    + destruct (proj1 (matching_flows df_top r' f Hr'))
        as (inv' & v' & Hget' & Hv' & ->); [done|].
      rewrite Ht, Hget in Hget'. injection Hget' as <-. simpl.
      rewrite Hd in Hv'. by rewrite (NoDup_fst_functional _ _ _ _ Hnd Hv Hv').
Qed.

(** X16: on a table with at least one record, when no fetched investor
    table repeats a date, attach_stock_investor_data returns the same
    records in the same order, each exactly once; when every fetch raises or
    gives an empty table, it returns the table as it is, without the three
    columns. *)
Theorem attach_investor_keeps_records df_top :
  df_top ≠ [] →
  (∀ r0 inv, r0 ∈ df_top →
     get_market_trading_value_by_date (ticker (top r0)) = Some inv →
     NoDup (days inv).*1) →
  ∃ out, attach_stock_investor_data df_top = Some out
         ∧ top <$> out = top <$> df_top
         ∧ ((∀ r0, r0 ∈ df_top → no_flows (ticker (top r0))) → out = df_top).
Proof.
  intros Hne Hnd.
  destruct (decide (Forall (λ r0, no_flows (ticker (top r0))) df_top))
    as [Hall|Hex].
  - exists df_top. split; [|done]. apply attach_investor_unchanged; [done|].
    by apply Forall_forall.
  - apply not_Forall_Exists in Hex; [|intros ?; apply _].
    apply Exists_exists in Hex as (r1 & Hr1 & Hh).
    eexists. split; [by eapply attach_investor_merged|]. split.
    + apply merge_left_once, (fetched_keys_NoDup _ investor_rows_ticker);
        [apply unique_NoDup|].
      intros t rows (r0 & Hr0 & <-)%tickers_of_table
        (inv & Hget & _ & ->)%investor_rows_Some.
      rewrite <-list_fmap_compose. by eapply Hnd.
    + intros Hall. destruct Hh. by apply Hall.
Qed.

End investor.

(** *** The investor columns on the three records: "A" with two days and no
    column 외국인, any other ticker raising *)

Definition trading_A : Investor.Trading :=
  Investor.mkTrading true false true
    [(first_day_2000, Investor.mkFlows 1 2 3);
     ((first_day_2000 + DAY)%Z, Investor.mkFlows (-4) 5 6)].

Definition investors : Investor.InvestorData :=
  {| Investor.get_market_trading_value_by_date t :=
       if decide (t = "A") then Some trading_A else None |}.

Lemma attach_investor_values_witness :
  DataCreate.mkFinal
    (DataCreate.top (final_row (first_day_2000 + DAY) DataCreate.VOLUME_TOP "A"))
    (∅ ∪ Investor.investor_cells trading_A (Investor.mkFlows (-4) 5 6))
  ∈ Window.merge_left tops
      ((λ d, Window.mkFull "A" d.1 (Investor.investor_cells trading_A d.2))
         <$> Investor.days trading_A)
      Investor.investor_nulls
  ∧ Investor.investor_cells trading_A (Investor.mkFlows (-4) 5 6) !! "ind_value"
    = Some (Window.of_Z (-4))
  ∧ Investor.investor_cells trading_A (Investor.mkFlows (-4) 5 6) !! "frg_value"
    = Some NaN.
Proof.
  destruct (attach_investor_values (H := investors) tops
              (Window.merge_left tops
                 ((λ d, Window.mkFull "A" d.1
                          (Investor.investor_cells trading_A d.2))
                    <$> Investor.days trading_A)
                 Investor.investor_nulls)
              (final_row (first_day_2000 + DAY) DataCreate.VOLUME_TOP "A")
              trading_A (Investor.mkFlows (-4) 5 6))
    as (Hin & _ & Hind & Hfrg & _).
  - reflexivity.
  - left.
  - reflexivity.
  - by apply (bool_decide_unpack _).
  - right. left.
  - done.
Defined.

Lemma attach_investor_keeps_records_witness :
  ∃ out,
    Investor.attach_stock_investor_data (H := investors) tops = Some out
    ∧ DataCreate.top <$> out = DataCreate.top <$> tops
    ∧ ((∀ r0, r0 ∈ tops →
          no_flows (H := investors) (DataCreate.ticker (DataCreate.top r0))) →
       out = tops).
Proof.
  apply (attach_investor_keeps_records (H := investors) tops); [done|].
  unfold tops. intros r0 inv. rewrite !elem_of_cons, elem_of_nil.
  intros [->|[->|[->|[]]]] [= <-]; by apply (bool_decide_unpack _).
Defined.

(** ** The market columns and the whole collection: get_trading_days,
    get_index_data and main *)

Module Index.
Import DataCreate Window Investor.

(** A row of the table of an index: the columns 시가, 고가, 저가, 종가,
    거래량 and 거래대금. *)
Record Quote := mkQuote {
  q_open : float;
  q_high : float;
  q_low : float;
  q_close : float;
  q_volume : float;
  q_value : float
}.

(** A row of the NASDAQ table: the columns Open, High, Low, Close and
    Volume. *)
Record UsQuote := mkUsQuote {
  u_open : float;
  u_high : float;
  u_low : float;
  u_close : float;
  u_volume : float
}.

(** The calls [stock.get_index_ohlcv_by_date(START, END, code)] and
    [fdr.DataReader(symbol, START, END)]: the rows in the order of the
    table, with their date; [None] stands for a raised exception.  A table
    is taken to have its columns, and its dates to be distinct. *)
Class IndexData := {
  get_index_ohlcv_by_date : string → option (list (Z * Quote));
  DataReader : string → option (list (Z * UsQuote))
}.

(** A table indexed by date. *)
Record Frame := mkFrame {
  columns : list string;
  index : gmap Z (gmap string float)
}.

(** The cells of a row that a join leaves without value. *)
Definition nulls (cols : list string) : gmap string float :=
  list_to_map ((λ c, (c, NaN)) <$> cols).

(** [a.join(b, how="outer")]: one row per date of either table. *)
Definition join_outer (a b : Frame) : Frame :=
  mkFrame (columns a ++ columns b)
    (merge (λ x y,
              match x, y with
              | None, None => None
              | _, _ => Some (default (nulls (columns a)) x
                              ∪ default (nulls (columns b)) y)
              end) (index a) (index b)).

Definition quote_columns (market : string) : list string :=
  [market +:+ "_open"; market +:+ "_high"; market +:+ "_low";
   market +:+ "_close"; market +:+ "_volume"; market +:+ "_value"].

Definition quote_cells (market : string) (q : Quote) : gmap string float :=
  list_to_map (zip (quote_columns market)
                 [q_open q; q_high q; q_low q; q_close q; q_volume q; q_value q]).

(** The table of an index with its columns renamed and selected. *)
Definition quote_frame (market : string) (df : list (Z * Quote)) : Frame :=
  mkFrame (quote_columns market)
    (list_to_map ((λ p, (p.1, quote_cells market p.2)) <$> df)).

Definition flows_columns (market : string) : list string :=
  [market +:+ "_individual_value"; market +:+ "_foreigner_value";
   market +:+ "_institution_value"].

Definition flows_cells (market : string) (inv : Trading) (v : Flows)
    : gmap string float :=
  list_to_map (zip (flows_columns market)
                 [or_na (has_individual inv) (individual v);
                  or_na (has_foreigner inv) (foreigner v);
                  or_na (has_institution inv) (institution v)]).

(** The table of traded value by investor of a market, with its three
    columns renamed, filled with [pd.NA] where absent, and selected. *)
Definition flows_frame (market : string) (inv : Trading) : Frame :=
  mkFrame (flows_columns market)
    (list_to_map ((λ p, (p.1, flows_cells market inv p.2)) <$> days inv)).

Definition nasdaq_columns : list string :=
  ["nasdaq_open"; "nasdaq_high"; "nasdaq_low"; "nasdaq_close"; "nasdaq_volume"].

Definition nasdaq_cells (q : UsQuote) : gmap string float :=
  list_to_map (zip nasdaq_columns
                 [u_open q; u_high q; u_low q; u_close q; u_volume q]).

(** The NASDAQ table with its index moved one day forward. *)
Definition nasdaq_frame (df : list (Z * UsQuote)) : Frame :=
  mkFrame nasdaq_columns
    (list_to_map ((λ p, ((p.1 + DAY)%Z, nasdaq_cells p.2)) <$> df)).

Definition get_trading_days `{IndexData} : option (list Z) :=
  df ← get_index_ohlcv_by_date "1001"; Some df.*1.

Definition get_index_data `{IndexData} `{InvestorData} : option Frame :=
  kospi ← get_index_ohlcv_by_date "1001";
  kosdaq ← get_index_ohlcv_by_date "2001";
  kospi_inv ← get_market_trading_value_by_date "KOSPI";
  kosdaq_inv ← get_market_trading_value_by_date "KOSDAQ";
  nasdaq ← DataReader "IXIC";
  let df := join_outer (quote_frame "kospi" kospi) (quote_frame "kosdaq" kosdaq) in
  let df := join_outer df (flows_frame "kospi" kospi_inv) in
  let df := join_outer df (flows_frame "kosdaq" kosdaq_inv) in
  let df := join_outer df (nasdaq_frame nasdaq) in
  Some df.

(** [pd.merge(df_top, df_index, on="date", how="left")], the dates of
    [df_index] being distinct. *)
Definition merge_on_date (df_top : list FinalRow) (df_index : Frame)
    : list FinalRow :=
  (λ r, mkFinal (top r)
          (attached r ∪ default (nulls (columns df_index))
                          (index df_index !! date (top r)))) <$> df_top.

(** Lines 326 to 337 of [main]: the table [df_final]. *)
Definition df_final `{Provider} `{TickerData} `{InvestorData} `{IndexData}
    `{SortValues} : option (list FinalRow) :=
  trading_days ← get_trading_days;
  records ← get_top1_by_day trading_days;
  df_top ← attach_prev_next_ohlcv ((λ r, mkFinal r ∅) <$> records);
  df_top ← attach_stock_investor_data df_top;
  df_index ← get_index_data;
  Some (merge_on_date df_top df_index).

(** [main], from the files before it to the files after it; [None] when an
    exception leaves it. *)
Definition main `{Provider} `{TickerData} `{InvestorData} `{IndexData}
    `{SortValues} (fs : gmap string (list FinalRow))
    : option (gmap string (list FinalRow)) :=
  df ← df_final; Some (save_yearly df fs).

End Index.

(** *** Rows of a frame and of its joins *)

Section frames.
Import DataCreate Window Investor Index.

(** The row of a date, null where the frame has none. *)
Definition row_at (f : Frame) (d : Z) : gmap string float :=
  default (nulls (columns f)) (index f !! d).

(** Every row has the columns of the frame. *)
Definition well_formed (f : Frame) : Prop :=
  ∀ d row, index f !! d = Some row → dom row = list_to_set (columns f).

Lemma dom_nulls cols : dom (nulls cols) = list_to_set cols.
Proof.
  unfold nulls. rewrite dom_list_to_map_L, <-list_fmap_compose.
  f_equal. apply list_fmap_id.
Qed.

Lemma nulls_lookup cols c : c ∈ cols → nulls cols !! c = Some NaN.
Proof.
  intros Hc. unfold nulls. apply elem_of_list_to_map_1'.
  - by intros y (c' & [= _ ->] & _)%list_elem_of_fmap.
  - apply list_elem_of_fmap. by exists c.
Qed.

Lemma nulls_app a b : nulls (a ++ b) = nulls a ∪ nulls b.
Proof. unfold nulls. by rewrite fmap_app, list_to_map_app. Qed.

Lemma dom_row_at f d : well_formed f → dom (row_at f d) = list_to_set (columns f).
Proof.
  intros Hwf. unfold row_at. destruct (index f !! d) as [row|] eqn:Hd; simpl.
  - by eapply Hwf.
  - apply dom_nulls.
Qed.

Lemma row_at_join a b d :
  row_at (join_outer a b) d = row_at a d ∪ row_at b d.
Proof.
  unfold row_at, join_outer. simpl. rewrite lookup_merge.
  destruct (index a !! d), (index b !! d); simpl; try done. apply nulls_app.
Qed.

Lemma join_outer_dates a b d :
  is_Some (index (join_outer a b) !! d)
  ↔ is_Some (index a !! d) ∨ is_Some (index b !! d).
Proof.
  unfold join_outer. simpl. rewrite lookup_merge.
  destruct (index a !! d), (index b !! d); simpl;
    rewrite ?is_Some_alt; try tauto.
  all: split; eauto.
Qed.

Lemma well_formed_join a b :
  well_formed a → well_formed b → well_formed (join_outer a b).
Proof.
  intros Ha Hb d row Hrow.
  assert (row = row_at (join_outer a b) d) as ->
    by (unfold row_at; by rewrite Hrow).
  rewrite row_at_join, dom_union_L, !dom_row_at by done.
  simpl. by rewrite list_to_set_app_L.
Qed.

(** A frame built from the rows of a table. *)
Lemma well_formed_rows {A} (cols : list string) (key : A → Z)
    (cells : A → gmap string float) (l : list A) :
  (∀ x, dom (cells x) = list_to_set cols) →
  well_formed (mkFrame cols (list_to_map ((λ p, (key p, cells p)) <$> l))).
Proof.
  intros Hdom d row Hrow. simpl in *.
  apply elem_of_list_to_map_2, list_elem_of_fmap in Hrow as (x & [= _ ->] & _).
  apply Hdom.
Qed.

Lemma rows_lookup_Some {A} (key : A → Z) (cells : A → gmap string float)
    (l : list A) x :
  NoDup (key <$> l) → x ∈ l →
  (list_to_map ((λ p, (key p, cells p)) <$> l) : gmap Z (gmap string float))
    !! key x = Some (cells x).
Proof.
  intros Hnd Hx. apply elem_of_list_to_map_1.
  - by rewrite <-list_fmap_compose.
  - apply list_elem_of_fmap. by exists x.
Qed.

Lemma rows_lookup_None {A} (key : A → Z) (cells : A → gmap string float)
    (l : list A) d :
  d ∉ key <$> l →
  (list_to_map ((λ p, (key p, cells p)) <$> l) : gmap Z (gmap string float))
    !! d = None.
Proof. intros Hd. apply not_elem_of_list_to_map_1. by rewrite <-list_fmap_compose. Qed.

Lemma rows_lookup_is_Some {A} (key : A → Z) (cells : A → gmap string float)
    (l : list A) d :
  is_Some ((list_to_map ((λ p, (key p, cells p)) <$> l)
            : gmap Z (gmap string float)) !! d)
  ↔ d ∈ key <$> l.
Proof.
  rewrite <-elem_of_dom, dom_list_to_map_L, elem_of_list_to_set.
  by rewrite <-list_fmap_compose.
Qed.

Lemma dom_zip_cells (cols : list string) (vals : list float) :
  length cols = length vals →
  dom (list_to_map (zip cols vals) : gmap string float) = list_to_set cols.
Proof. intros Hlen. rewrite dom_list_to_map_L, fst_zip; [done|lia]. Qed.

Lemma well_formed_quote market df : well_formed (quote_frame market df).
Proof.
  apply (well_formed_rows _ fst (λ p, quote_cells market p.2)).
  intros x. by apply dom_zip_cells.
Qed.

Lemma well_formed_flows market inv : well_formed (flows_frame market inv).
Proof.
  apply (well_formed_rows _ fst (λ p, flows_cells market inv p.2)).
  intros x. by apply dom_zip_cells.
Qed.

Lemma well_formed_nasdaq df : well_formed (nasdaq_frame df).
Proof.
  apply (well_formed_rows _ (λ p, (p.1 + DAY)%Z) (λ p, nasdaq_cells p.2)).
  intros x. by apply dom_zip_cells.
Qed.

End frames.

Section index.
Context `{Index.IndexData} `{Investor.InvestorData}.
Import DataCreate Window Investor Index.

Lemma row_at_absent f d c :
  well_formed f → c ∉ columns f → row_at f d !! c = None.
Proof.
  intros Hwf Hc. apply not_elem_of_dom. rewrite dom_row_at by done.
  by rewrite elem_of_list_to_set.
Qed.

(** The five frames joined by [get_index_data]. *)
Lemma get_index_data_Some kospi kosdaq kospi_inv kosdaq_inv nasdaq :
  get_index_ohlcv_by_date "1001" = Some kospi →
  get_index_ohlcv_by_date "2001" = Some kosdaq →
  get_market_trading_value_by_date "KOSPI" = Some kospi_inv →
  get_market_trading_value_by_date "KOSDAQ" = Some kosdaq_inv →
  DataReader "IXIC" = Some nasdaq →
  get_index_data
  = Some (join_outer
            (join_outer
               (join_outer
                  (join_outer (quote_frame "kospi" kospi)
                     (quote_frame "kosdaq" kosdaq))
                  (flows_frame "kospi" kospi_inv))
               (flows_frame "kosdaq" kosdaq_inv))
            (nasdaq_frame nasdaq)).
Proof. unfold get_index_data. by intros -> -> -> -> ->. Qed.

Lemma get_index_data_inv df :
  get_index_data = Some df →
  ∃ kospi kosdaq kospi_inv kosdaq_inv nasdaq,
    get_index_ohlcv_by_date "1001" = Some kospi
    ∧ get_index_ohlcv_by_date "2001" = Some kosdaq
    ∧ get_market_trading_value_by_date "KOSPI" = Some kospi_inv
    ∧ get_market_trading_value_by_date "KOSDAQ" = Some kosdaq_inv
    ∧ DataReader "IXIC" = Some nasdaq.
Proof.
  unfold get_index_data. intros Hdf.
  destruct (get_index_ohlcv_by_date "1001") as [kospi|]; [|done].
  destruct (get_index_ohlcv_by_date "2001") as [kosdaq|]; [|done].
  destruct (get_market_trading_value_by_date "KOSPI") as [kospi_inv|]; [|done].
  destruct (get_market_trading_value_by_date "KOSDAQ") as [kosdaq_inv|]; [|done].
  destruct (DataReader "IXIC") as [nasdaq|]; [|done].
  by exists kospi, kosdaq, kospi_inv, kosdaq_inv, nasdaq.
Qed.

(** The closing values in the row of a date: the index of the same date,
    and the NASDAQ session dated one day earlier. *)
Lemma index_row_close kospi kosdaq kospi_inv kosdaq_inv nasdaq d :
  let row :=
    row_at (join_outer
              (join_outer
                 (join_outer
                    (join_outer (quote_frame "kospi" kospi)
                       (quote_frame "kosdaq" kosdaq))
                    (flows_frame "kospi" kospi_inv))
                 (flows_frame "kosdaq" kosdaq_inv))
              (nasdaq_frame nasdaq)) d in
  (∀ q, NoDup kospi.*1 → (d, q) ∈ kospi →
     row !! "kospi_close" = Some (q_close q))
  ∧ (d ∉ kospi.*1 → row !! "kospi_close" = Some NaN)
  ∧ (∀ q, NoDup kosdaq.*1 → (d, q) ∈ kosdaq →
       row !! "kosdaq_close" = Some (q_close q))
  ∧ (d ∉ kosdaq.*1 → row !! "kosdaq_close" = Some NaN)
  ∧ (∀ q, NoDup nasdaq.*1 → ((d - DAY)%Z, q) ∈ nasdaq →
       row !! "nasdaq_close" = Some (u_close q))
  ∧ ((d - DAY)%Z ∉ nasdaq.*1 → row !! "nasdaq_close" = Some NaN).
Proof.
  cbv zeta. rewrite !row_at_join, !lookup_union.
  pose proof (well_formed_quote "kospi" kospi) as W1.
  pose proof (well_formed_quote "kosdaq" kosdaq) as W2.
  pose proof (well_formed_flows "kospi" kospi_inv) as W3.
  pose proof (well_formed_flows "kosdaq" kosdaq_inv) as W4.
  pose proof (well_formed_nasdaq nasdaq) as W5.
  assert (∀ (cols : list string) c, bool_decide (c ∈ cols) = false → c ∉ cols)
    as Hout by (intros ??; apply bool_decide_eq_false_1).
  assert (∀ f c, well_formed f → bool_decide (c ∈ columns f) = false →
            row_at f d !! c = None) as Habs
    by (intros f c Hwf Hc; apply row_at_absent; [done|by apply Hout]).
  rewrite (Habs (quote_frame "kosdaq" kosdaq) "kospi_close") by done.
  rewrite (Habs (quote_frame "kospi" kospi) "kosdaq_close") by done.
  rewrite (Habs (quote_frame "kospi" kospi) "nasdaq_close") by done.
  rewrite (Habs (quote_frame "kosdaq" kosdaq) "nasdaq_close") by done.
  rewrite !(Habs (flows_frame "kospi" kospi_inv)) by done.
  rewrite !(Habs (flows_frame "kosdaq" kosdaq_inv)) by done.
  rewrite (Habs (nasdaq_frame nasdaq) "kospi_close") by done.
  rewrite (Habs (nasdaq_frame nasdaq) "kosdaq_close") by done.
  unfold row_at, quote_frame, nasdaq_frame. simpl.
  repeat split.
  - intros q Hk Hq.
    pose proof (rows_lookup_Some fst (λ p, quote_cells "kospi" p.2) kospi (d, q)
                  Hk Hq) as Hrow.
    cbn [fst snd] in Hrow. by rewrite Hrow.
  - intros Hd.
    rewrite (rows_lookup_None fst (λ p, quote_cells "kospi" p.2) kospi d) by done.
    simpl. rewrite nulls_lookup; [done|]. by apply (bool_decide_unpack _).
  - intros q Hkd Hq.
    pose proof (rows_lookup_Some fst (λ p, quote_cells "kosdaq" p.2) kosdaq (d, q)
                  Hkd Hq) as Hrow.
    cbn [fst snd] in Hrow. by rewrite Hrow.
  - intros Hd.
    rewrite (rows_lookup_None fst (λ p, quote_cells "kosdaq" p.2) kosdaq d)
      by done.
    simpl. rewrite nulls_lookup; [done|]. by apply (bool_decide_unpack _).
  - intros q Hn Hq.
    pose proof (rows_lookup_Some (λ p : Z * UsQuote, (p.1 + DAY)%Z)
                  (λ p, nasdaq_cells p.2) nasdaq ((d - DAY)%Z, q)) as Hrow.
    cbn [fst snd] in Hrow. replace (d - DAY + DAY)%Z with d in Hrow by lia.
    rewrite Hrow; [done| |done].
    assert ((λ p : Z * UsQuote, (p.1 + DAY)%Z) <$> nasdaq
            = (λ x, (x + DAY)%Z) <$> nasdaq.*1) as ->
      by by rewrite <-list_fmap_compose.
    apply NoDup_fmap_2; [|done]. intros x y. lia.
  - intros Hd.
    rewrite (rows_lookup_None (λ p : Z * UsQuote, (p.1 + DAY)%Z)
               (λ p, nasdaq_cells p.2) nasdaq d).
    + simpl. rewrite nulls_lookup; [done|]. by apply (bool_decide_unpack _).
    + intros (p & -> & Hp)%list_elem_of_fmap. apply Hd.
      replace (p.1 + DAY - DAY)%Z with p.1 by lia. by apply list_elem_of_fmap_2.
Qed.

End index.

(** *** The two attaching stages inside [main] *)

Lemma merge_left_covers df_top right nulls r0 :
  r0 ∈ df_top →
  ∃ r, r ∈ Window.merge_left df_top right nulls
       ∧ DataCreate.top r = DataCreate.top r0.
Proof.
  intros Hr0. unfold Window.merge_left. setoid_rewrite list_elem_of_bind.
  destruct (filter (λ f, Window.f_ticker f = DataCreate.ticker (DataCreate.top r0)
                         ∧ Window.f_date f = DataCreate.date (DataCreate.top r0))
              right) as [|m ms] eqn:Hms.
  - eexists. split; [exists r0; split; [|done]; rewrite Hms; left|done].
  - eexists. split; [exists r0; split; [|done]; rewrite Hms; left|done].
Qed.

Lemma merge_left_other_columns df_top right nulls r :
  r ∈ Window.merge_left df_top right nulls →
  (∀ f, f ∈ right → dom (Window.f_cells f) = dom nulls) →
  ∃ r0, r0 ∈ df_top ∧ DataCreate.top r = DataCreate.top r0
    ∧ ∀ c, c ∉ dom nulls → DataCreate.attached r !! c = DataCreate.attached r0 !! c.
Proof.
  intros (r0 & Hr0 & Htop & Hcase)%elem_of_merge_left Hdom.
  exists r0. split; [done|]. split; [done|]. intros c Hc.
  destruct Hcase as [[_ ->]|(f & Hf & _ & _ & ->)]; apply lookup_union_l.
  - by apply not_elem_of_dom.
  - apply not_elem_of_dom. by rewrite Hdom.
Qed.

Section stages.
Context `{Window.TickerData} `{Investor.InvestorData} `{SortValues}.
Import DataCreate Window Investor.

Lemma window_stage df_top :
  df_top ≠ [] →
  ∃ out, attach_prev_next_ohlcv df_top = Some out
    ∧ out ≠ []
    ∧ (∀ r, r ∈ out →
         ∃ r0, r0 ∈ df_top ∧ top r = top r0
           ∧ ∀ c, c ∉ dom null_cells → attached r !! c = attached r0 !! c)
    ∧ ((∀ t h, get_market_ohlcv t = Some h → NoDup (bars h).*1) →
       top <$> out = top <$> df_top).
Proof using Type*.
  intros Hne.
  destruct (decide (Forall (λ r0, no_history (ticker (top r0))) df_top))
    as [Hall|Hex].
  - exists df_top. split; [|split; [done|split; [|done]]].
    + apply attach_unchanged; [done|]. by apply Forall_forall.
    + intros r Hr. by exists r.
  - apply not_Forall_Exists in Hex; [|intros ?; apply _].
    apply Exists_exists in Hex as (r1 & Hr1 & Hh).
    eexists. split; [by eapply attach_merged|]. split; [|split].
    + destruct (merge_left_covers df_top
                  (mjoin (omap ticker_rows (unique (ticker ∘ top <$> df_top))))
                  null_cells r1 Hr1) as (r & Hr & _).
      intros Hnil. rewrite Hnil in Hr. by apply elem_of_nil in Hr.
    + intros r Hr. apply (merge_left_other_columns _ _ _ _ Hr).
      intros f (rows & _ & Hrows & Hf)%elem_of_all_rows.
      apply ticker_rows_Some in Hrows as (h & _ & _ & ->).
      apply elem_of_shift_rows in Hf as (i & b & _ & ->). simpl.
      apply window_cells_dom.
    + intros Hnd. apply merge_left_once, all_rows_keys_NoDup; [apply unique_NoDup|].
      intros t h _. apply Hnd.
Qed.

Lemma investor_cells_dom inv v : dom (investor_cells inv v) = dom investor_nulls.
Proof. unfold investor_cells, investor_nulls. by rewrite !dom_list_to_map_L. Qed.

Lemma investor_stage df_top :
  df_top ≠ [] →
  ∃ out, attach_stock_investor_data df_top = Some out
    ∧ out ≠ []
    ∧ (∀ r, r ∈ out →
         ∃ r0, r0 ∈ df_top ∧ top r = top r0
           ∧ ∀ c, c ∉ dom investor_nulls → attached r !! c = attached r0 !! c)
    ∧ ((∀ t inv, get_market_trading_value_by_date t = Some inv →
          NoDup (days inv).*1) →
       top <$> out = top <$> df_top).
Proof using Type*.
  intros Hne.
  destruct (decide (Forall (λ r0, no_flows (ticker (top r0))) df_top))
    as [Hall|Hex].
  - exists df_top. split; [|split; [done|split; [|done]]].
    + apply attach_investor_unchanged; [done|]. by apply Forall_forall.
    + intros r Hr. by exists r.
  - apply not_Forall_Exists in Hex; [|intros ?; apply _].
    apply Exists_exists in Hex as (r1 & Hr1 & Hh).
    eexists. split; [by eapply attach_investor_merged|]. split; [|split].
    + destruct (merge_left_covers df_top
                  (mjoin (omap investor_rows (unique (ticker ∘ top <$> df_top))))
                  investor_nulls r1 Hr1) as (r & Hr & _).
      intros Hnil. rewrite Hnil in Hr. by apply elem_of_nil in Hr.
    + intros r Hr. apply (merge_left_other_columns _ _ _ _ Hr).
      intros f (rows & _ & Hrows & Hf)%(elem_of_fetched _ investor_rows_ticker).
      apply investor_rows_Some in Hrows as (inv & _ & _ & ->).
      apply list_elem_of_fmap in Hf as (d & -> & _). simpl.
      apply investor_cells_dom.
    + intros Hnd.
      apply merge_left_once, (fetched_keys_NoDup _ investor_rows_ticker);
        [apply unique_NoDup|].
      intros t rows _ (inv & Hget & _ & ->)%investor_rows_Some.
      rewrite <-list_fmap_compose. by eapply Hnd.
Qed.

End stages.

Section market_data.
Context `{Index.IndexData} `{Investor.InvestorData}.
Import DataCreate Window Investor Index.

(** X17: when the five fetches return, get_index_data returns one row for
    every date of the two index tables and of the two investor tables, and
    for the day after every date of the NASDAQ table, and no other row; in
    the row of a date, kospi_close and kosdaq_close are the closing values
    of that date and nasdaq_close is the closing value of the NASDAQ row
    dated one day earlier, each NaN when its table has no such row. *)
Theorem get_index_data_rows kospi kosdaq kospi_inv kosdaq_inv nasdaq :
  get_index_ohlcv_by_date "1001" = Some kospi →
  get_index_ohlcv_by_date "2001" = Some kosdaq →
  get_market_trading_value_by_date "KOSPI" = Some kospi_inv →
  get_market_trading_value_by_date "KOSDAQ" = Some kosdaq_inv →
  DataReader "IXIC" = Some nasdaq →
  NoDup kospi.*1 → NoDup kosdaq.*1 → NoDup nasdaq.*1 →
  ∃ df,
    get_index_data = Some df
    ∧ (∀ d, is_Some (index df !! d) ↔
         d ∈ kospi.*1 ∨ d ∈ kosdaq.*1 ∨ d ∈ (days kospi_inv).*1
         ∨ d ∈ (days kosdaq_inv).*1 ∨ (d - DAY)%Z ∈ nasdaq.*1)
    ∧ (∀ d row, index df !! d = Some row →
         (∀ q, (d, q) ∈ kospi → row !! "kospi_close" = Some (q_close q))
         ∧ (d ∉ kospi.*1 → row !! "kospi_close" = Some NaN)
         ∧ (∀ q, (d, q) ∈ kosdaq → row !! "kosdaq_close" = Some (q_close q))
         ∧ (d ∉ kosdaq.*1 → row !! "kosdaq_close" = Some NaN)
         ∧ (∀ q, ((d - DAY)%Z, q) ∈ nasdaq →
              row !! "nasdaq_close" = Some (u_close q))
         ∧ ((d - DAY)%Z ∉ nasdaq.*1 → row !! "nasdaq_close" = Some NaN)).
Proof.
  intros H1 H2 H3 H4 H5 Hk Hkd Hn. eexists. split; [|split].
  - by apply get_index_data_Some.
  - intros d. rewrite !join_outer_dates.
    unfold quote_frame, flows_frame, nasdaq_frame. simpl.
    rewrite (rows_lookup_is_Some fst (λ p, quote_cells "kospi" p.2)).
    rewrite (rows_lookup_is_Some fst (λ p, quote_cells "kosdaq" p.2)).
    rewrite (rows_lookup_is_Some fst (λ p, flows_cells "kospi" kospi_inv p.2)).
    rewrite (rows_lookup_is_Some fst (λ p, flows_cells "kosdaq" kosdaq_inv p.2)).
    rewrite (rows_lookup_is_Some (λ p : Z * UsQuote, (p.1 + DAY)%Z)
               (λ p, nasdaq_cells p.2)).
    assert (d ∈ (λ p : Z * UsQuote, (p.1 + DAY)%Z) <$> nasdaq
            ↔ (d - DAY)%Z ∈ nasdaq.*1) as ->; [|tauto].
    rewrite !list_elem_of_fmap. split; intros (p & Hd & Hp); exists p.
    + split; [lia|done].
    + split; [lia|done].
  - intros d row Hrow.
    pose proof (index_row_close kospi kosdaq kospi_inv kosdaq_inv nasdaq d)
      as Hclose.
    cbv zeta in Hclose. unfold row_at in Hclose. rewrite Hrow in Hclose.
    simpl in Hclose. destruct Hclose as (C1 & C2 & C3 & C4 & C5 & C6).
    repeat split; auto.
Qed.

End market_data.

Section collection.
Context `{DataCreate.Provider} `{Window.TickerData} `{Investor.InvestorData}
  `{Index.IndexData} `{SortValues}.
Import DataCreate Window Investor Index.

Lemma records_not_nil (recs : list TopRecord) :
  recs ≠ [] → (λ r, mkFinal r ∅) <$> recs ≠ [].
Proof. by destruct recs. Qed.

(** The stages of [df_final]. *)
Lemma df_final_Some days recs df_index :
  get_trading_days = Some days → get_top1_by_day days = Some recs →
  recs ≠ [] → get_index_data = Some df_index →
  ∃ df1 df2,
    attach_prev_next_ohlcv ((λ r, mkFinal r ∅) <$> recs) = Some df1
    ∧ attach_stock_investor_data df1 = Some df2
    ∧ df_final = Some (merge_on_date df2 df_index)
    ∧ (∀ r, r ∈ df2 → ∃ t, t ∈ recs ∧ top r = t
         ∧ ∀ c, c ∉ dom null_cells → c ∉ dom investor_nulls →
             attached r !! c = None)
    ∧ ((∀ t h, get_market_ohlcv t = Some h → NoDup (bars h).*1) →
       (∀ t inv, get_market_trading_value_by_date t = Some inv →
          NoDup (Investor.days inv).*1) →
       top <$> df2 = recs).
Proof using Type*.
  intros Hdays Hrecs Hne Hindex.
  destruct (window_stage _ (records_not_nil _ Hne))
    as (df1 & Hdf1 & Hne1 & Hcols1 & Honce1).
  destruct (investor_stage _ Hne1) as (df2 & Hdf2 & Hne2 & Hcols2 & Honce2).
  exists df1, df2. split; [done|]. split; [done|]. split; [|split].
  - unfold df_final. rewrite Hdays. simpl. rewrite Hrecs. simpl.
    rewrite Hdf1. simpl. rewrite Hdf2. simpl. by rewrite Hindex.
  - intros r Hr.
    destruct (Hcols2 r Hr) as (r1 & Hr1 & Htop1 & Hc1).
    destruct (Hcols1 r1 Hr1) as (r0 & Hr0 & Htop0 & Hc0).
    apply list_elem_of_fmap in Hr0 as (t & -> & Ht). simpl in *.
    exists t. split; [done|]. split; [congruence|].
    intros c Hw Hi. by rewrite Hc1, Hc0.
  - intros Hh Hi. rewrite (Honce2 Hi), (Honce1 Hh), <-list_fmap_compose.
    apply list_fmap_id.
Qed.

Lemma df_final_inv df :
  df_final = Some df →
  ∃ days recs df_index,
    get_trading_days = Some days ∧ get_top1_by_day days = Some recs
    ∧ recs ≠ [] ∧ get_index_data = Some df_index.
Proof.
  unfold df_final. intros Hdf.
  destruct get_trading_days as [days|] eqn:Hd; [|done]. simpl in Hdf.
  destruct (get_top1_by_day days) as [recs|] eqn:Hr; [|done]. simpl in Hdf.
  destruct recs as [|t recs]; [done|].
  destruct (attach_prev_next_ohlcv _) as [df1|]; [|done]. simpl in Hdf.
  destruct (attach_stock_investor_data df1) as [df2|]; [|done]. simpl in Hdf.
  destruct get_index_data as [df_index|] eqn:Hi; [|done].
  by exists days, (t :: recs), df_index.
Qed.

(** X18: main raises exactly when a fetch of get_index_data raises, when
    the collection of the daily records raises, or when no record was
    collected; in every other case it returns. *)
Theorem main_outcome (fs : gmap string (list FinalRow)) :
  main fs = None ↔
  get_index_data = None
  ∨ ∃ days, get_trading_days = Some days
      ∧ (get_top1_by_day days = None ∨ get_top1_by_day days = Some []).
Proof using Type*.
  unfold main. split.
  - intros Hmain.
    destruct get_index_data as [df_index|] eqn:Hindex; [|by left]. right.
    destruct get_trading_days as [days|] eqn:Hdays.
    2: { unfold get_index_data, get_trading_days in *.
         by destruct (get_index_ohlcv_by_date "1001"). }
    exists days. split; [done|].
    destruct (get_top1_by_day days) as [recs|] eqn:Hrecs; [|by left]. right.
    destruct recs as [|t recs]; [done|]. exfalso.
    destruct (df_final_Some days (t :: recs) df_index)
      as (df1 & df2 & _ & _ & Hdf & _); [done..|].
    by rewrite Hdf in Hmain.
  - intros Hcase. destruct df_final as [df|] eqn:Hdf; [|done]. exfalso.
    apply df_final_inv in Hdf as (days & recs & df_index & Hd & Hr & Hne & Hi).
    destruct Hcase as [Hnone|(days' & Hd' & Hcase)]; [congruence|].
    rewrite Hd in Hd'. injection Hd' as <-. rewrite Hr in Hcase.
    destruct Hcase as [|[= ->]]; done.
Qed.

End collection.

(** The day before a Monday is no day from Monday to Friday. *)
Lemma day_before_monday (t : Z) :
  weekday t = 0%Z → ¬ (weekday (t - DAY) ≤ 4)%Z.
Proof.
  unfold weekday. intros Hmonday.
  replace (t - DAY)%Z with (t + (-1) * DAY)%Z by lia.
  rewrite Z.div_add by done.
  revert Hmonday. generalize (t `div` DAY)%Z. intros x.
  pose proof (Z.mod_pos_bound (x + 3) 7) as B1.
  pose proof (Z.mod_pos_bound (x + -1 + 3) 7) as B2.
  pose proof (Z.div_mod (x + 3) 7) as D1.
  pose proof (Z.div_mod (x + -1 + 3) 7) as D2.
  lia.
Qed.

Section files.
Context `{DataCreate.Provider} `{Window.TickerData} `{Investor.InvestorData}
  `{Index.IndexData} `{SortValues}.
Import DataCreate Window Investor Index.

Lemma merge_on_date_top df_top df_index :
  top <$> merge_on_date df_top df_index = top <$> df_top.
Proof. unfold merge_on_date. by rewrite <-list_fmap_compose. Qed.

Lemma partition_records (df : list FinalRow) y k :
  top <$> partition df y k
  = filter (λ t, dt_year (date t) = y ∧ rank_type t = k) (top <$> df).
Proof. unfold partition. by rewrite list_filter_fmap. Qed.

(** X19: when the daily collection gives at least one record and the
    market data are fetched, no table of the providers (price history,
    investor table of a ticker or of a market, index table, NASDAQ table)
    repeating a date, main returns, and for every year from 2000 to 2025
    and every rank type the file top1_volume_{year}.xlsx or
    top1_value_{year}.xlsx holds one row for each collected record of that
    year and rank type and no other row; when there is no such record the
    file is left as it was. *)
Theorem main_files (fs : gmap string (list FinalRow)) days recs :
  get_trading_days = Some days →
  get_top1_by_day days = Some recs →
  recs ≠ [] →
  is_Some get_index_data →
  (∀ t h, get_market_ohlcv t = Some h → NoDup (bars h).*1) →
  (∀ t inv, get_market_trading_value_by_date t = Some inv →
     NoDup (Investor.days inv).*1) →
  (∀ code df, get_index_ohlcv_by_date code = Some df → NoDup df.*1) →
  (∀ symbol df, DataReader symbol = Some df → NoDup df.*1) →
  ∃ fs', main fs = Some fs'
    ∧ ∀ y k, (2000 ≤ y ≤ 2025)%Z →
        let part := filter (λ t, dt_year (date t) = y ∧ rank_type t = k) recs in
        (part ≠ [] →
         ∃ rows, fs' !! file_name k y = Some rows ∧ top <$> rows ≡ₚ part)
        ∧ (part = [] → fs' !! file_name k y = fs !! file_name k y).
Proof using Type*.
  intros Hdays Hrecs Hne [df_index Hindex] Hh Hi _ _.
  destruct (df_final_Some days recs df_index)
    as (df1 & df2 & _ & _ & Hdf & _ & Honce); [done..|].
  specialize (Honce Hh Hi).
  set (df := merge_on_date df2 df_index) in *.
  exists (save_yearly df fs). split; [unfold main; by rewrite Hdf|].
  assert (top <$> df = recs) as Htop by (unfold df; by rewrite merge_on_date_top).
  intros y k Hy. cbv zeta. rewrite <-Htop, <-partition_records. split.
  - intros Hp.
    assert (partition df y k ≠ []) as Hp' by (by destruct (partition df y k)).
    exists (written df y k). split; [|by rewrite written_perm].
    unfold save_yearly, groupby_year. apply (save_groups_written df).
    + rewrite merge_sort_Permutation. apply NoDup_remove_dups.
    + apply elem_of_group_keys. by eapply partition_year.
    + done.
    + by rewrite written_nil.
  - intros Hp. apply fmap_nil_inv in Hp.
    unfold save_yearly, groupby_year. apply (save_groups_other df).
    intros y' k' _ _ Hw [-> ->]%file_name_inj. by apply written_nil in Hp.
Qed.

(** X20: in every row of the final table, kospi_close is the closing value
    of the KOSPI index on the date of the record, and nasdaq_close the
    closing value of the NASDAQ row dated one day before it, each NaN when
    its table has no such row. *)
Theorem df_final_market_close df r kospi nasdaq :
  df_final = Some df → r ∈ df →
  get_index_ohlcv_by_date "1001" = Some kospi →
  DataReader "IXIC" = Some nasdaq →
  NoDup kospi.*1 → NoDup nasdaq.*1 →
  (∀ q, (date (top r), q) ∈ kospi →
     attached r !! "kospi_close" = Some (q_close q))
  ∧ (date (top r) ∉ kospi.*1 → attached r !! "kospi_close" = Some NaN)
  ∧ (∀ q, ((date (top r) - DAY)%Z, q) ∈ nasdaq →
       attached r !! "nasdaq_close" = Some (u_close q))
  ∧ ((date (top r) - DAY)%Z ∉ nasdaq.*1 →
     attached r !! "nasdaq_close" = Some NaN).
Proof using Type*.
  intros Hdf Hr Hk Hn Hndk Hndn.
  pose proof Hdf as (days & recs & df_index & Hd & Hrecs & Hne & Hi)%df_final_inv.
  destruct (df_final_Some days recs df_index)
    as (df1 & df2 & _ & _ & Hdf' & Hcols & _); [done..|].
  rewrite Hdf in Hdf'. injection Hdf' as ->.
  apply list_elem_of_fmap in Hr as (r2 & -> & Hr2). simpl.
  destruct (Hcols r2 Hr2) as (t & _ & _ & Hnone).
  pose proof Hi as (kospi' & kosdaq & kospi_inv & kosdaq_inv & nasdaq'
                    & E1 & E2 & E3 & E4 & E5)%get_index_data_inv.
  rewrite Hk in E1. injection E1 as <-. rewrite Hn in E5. injection E5 as <-.
  rewrite (get_index_data_Some kospi kosdaq kospi_inv kosdaq_inv nasdaq) in Hi
    by done.
  injection Hi as <-.
  pose proof (index_row_close kospi kosdaq kospi_inv kosdaq_inv nasdaq
                (date (top r2))) as Hclose.
  cbv zeta in Hclose. unfold row_at in Hclose.
  destruct Hclose as (C1 & C2 & _ & _ & C5 & C6).
  assert (attached r2 !! "kospi_close" = None) as Nk
    by (apply Hnone; by apply (bool_decide_unpack _)).
  assert (attached r2 !! "nasdaq_close" = None) as Nn
    by (apply Hnone; by apply (bool_decide_unpack _)).
  rewrite !lookup_union_r by done. repeat split; auto.
Qed.

(** X21: when every row of the NASDAQ table is dated from Monday to Friday,
    nasdaq_close is NaN in every row of the final table whose record is
    dated on a Monday. *)
Theorem df_final_monday_nasdaq df r nasdaq :
  df_final = Some df → r ∈ df →
  DataReader "IXIC" = Some nasdaq →
  (∀ p, p ∈ nasdaq → (weekday p.1 ≤ 4)%Z) →
  weekday (date (top r)) = 0%Z →
  attached r !! "nasdaq_close" = Some NaN.
Proof using Type*.
  intros Hdf Hr Hn Hweek Hmonday.
  pose proof Hdf as (days & recs & df_index & Hd & Hrecs & Hne & Hi)%df_final_inv.
  destruct (df_final_Some days recs df_index)
    as (df1 & df2 & _ & _ & Hdf' & Hcols & _); [done..|].
  rewrite Hdf in Hdf'. injection Hdf' as ->.
  apply list_elem_of_fmap in Hr as (r2 & -> & Hr2). simpl in *.
  destruct (Hcols r2 Hr2) as (t & _ & _ & Hnone).
  pose proof Hi as (kospi & kosdaq & kospi_inv & kosdaq_inv & nasdaq'
                    & E1 & E2 & E3 & E4 & E5)%get_index_data_inv.
  rewrite Hn in E5. injection E5 as <-.
  rewrite (get_index_data_Some kospi kosdaq kospi_inv kosdaq_inv nasdaq) in Hi
    by done.
  injection Hi as <-.
  pose proof (index_row_close kospi kosdaq kospi_inv kosdaq_inv nasdaq
                (date (top r2))) as Hclose.
  cbv zeta in Hclose. unfold row_at in Hclose.
  destruct Hclose as (_ & _ & _ & _ & _ & C6).
  rewrite lookup_union_r
    by (apply Hnone; by apply (bool_decide_unpack _)).
  apply C6. intros (p & Hp1 & Hp)%list_elem_of_fmap.
  specialize (Hweek p Hp). rewrite <-Hp1 in Hweek.
  by apply (day_before_monday (date (top r2))).
Qed.

End files.

(** *** The collection over two days, Monday 2000-01-03 and the Tuesday
    after it: one ticker "A" on the market, its history ending on the
    Monday, a KOSPI table of the two days, empty tables for the rest, and a
    NASDAQ table with the Monday alone *)

Definition monday : Z := (first_day_2000 + 2 * DAY)%Z.

Definition daily_A : DataCreate.Provider :=
  {| DataCreate.get_market_ohlcv_by_ticker dt := Some [("A", bar 20)];
     DataCreate.get_etf_ticker_list dt := Some [];
     DataCreate.get_market_ticker_name t := None |}.

Definition market_investors : Investor.InvestorData :=
  {| Investor.get_market_trading_value_by_date t :=
       if decide (t = "A") then Some trading_A
       else Some (Investor.mkTrading true true true []) |}.

Definition level (x : Z) : Index.Quote :=
  Index.mkQuote (Window.of_Z x) (Window.of_Z x) (Window.of_Z x) (Window.of_Z x)
    (Fin 0) (Fin 0).

Definition session (x : Z) : Index.UsQuote :=
  Index.mkUsQuote (Window.of_Z x) (Window.of_Z x) (Window.of_Z x) (Window.of_Z x)
    (Fin 0).

Definition kospi_table : list (Z * Index.Quote) :=
  [(monday, level 100); ((monday + DAY)%Z, level 101)].

Definition nasdaq_table : list (Z * Index.UsQuote) := [(monday, session 4000)].

Definition indices : Index.IndexData :=
  {| Index.get_index_ohlcv_by_date code :=
       if decide (code = "1001") then Some kospi_table else Some [];
     Index.DataReader symbol := Some nasdaq_table |}.

Definition collected : list DataCreate.TopRecord :=
  [DataCreate.mkTop monday DataCreate.VOLUME_TOP "A" "" 20 20 20 20 10 0;
   DataCreate.mkTop monday DataCreate.VALUE_TOP "A" "" 20 20 20 20 10 0;
   DataCreate.mkTop (monday + DAY) DataCreate.VOLUME_TOP "A" "" 20 20 20 20 10 0;
   DataCreate.mkTop (monday + DAY) DataCreate.VALUE_TOP "A" "" 20 20 20 20 10 0].

(** The final table of this collection. *)
Definition final_rows : list DataCreate.FinalRow :=
  default []
    (Index.df_final (H := daily_A) (H0 := histories) (H1 := market_investors)
       (H2 := indices) (H3 := merge_sort_values)).

Definition row_number (i : nat) : DataCreate.FinalRow :=
  default (final_row 0 DataCreate.VOLUME_TOP "") (final_rows !! i).

Example final_rows_records : DataCreate.top <$> final_rows = collected.
Proof. vm_compute. reflexivity. Qed.

Lemma get_index_data_rows_witness :
  ∃ df,
    Index.get_index_data (H := indices) (H0 := market_investors) = Some df
    ∧ (∀ d, is_Some (Index.index df !! d) ↔
         d ∈ kospi_table.*1 ∨ d ∈ ([] : list (Z * Index.Quote)).*1
         ∨ d ∈ ([] : list (Z * Investor.Flows)).*1
         ∨ d ∈ ([] : list (Z * Investor.Flows)).*1
         ∨ (d - DAY)%Z ∈ nasdaq_table.*1)
    ∧ (∀ d row, Index.index df !! d = Some row →
         (∀ q, (d, q) ∈ kospi_table →
            row !! "kospi_close" = Some (Index.q_close q))
         ∧ (d ∉ kospi_table.*1 → row !! "kospi_close" = Some NaN)
         ∧ (∀ q, (d, q) ∈ ([] : list (Z * Index.Quote)) →
              row !! "kosdaq_close" = Some (Index.q_close q))
         ∧ (d ∉ ([] : list (Z * Index.Quote)).*1 →
            row !! "kosdaq_close" = Some NaN)
         ∧ (∀ q, ((d - DAY)%Z, q) ∈ nasdaq_table →
              row !! "nasdaq_close" = Some (Index.u_close q))
         ∧ ((d - DAY)%Z ∉ nasdaq_table.*1 → row !! "nasdaq_close" = Some NaN)).
Proof.
  apply (get_index_data_rows (H := indices) (H0 := market_investors)
           kospi_table [] (Investor.mkTrading true true true [])
           (Investor.mkTrading true true true []) nasdaq_table);
    try reflexivity; by apply (bool_decide_unpack _).
Defined.

Lemma main_files_witness :
  ∃ fs',
    Index.main (H := daily_A) (H0 := histories) (H1 := market_investors)
      (H2 := indices) (H3 := merge_sort_values) ∅ = Some fs'
    ∧ ∀ y k, (2000 ≤ y ≤ 2025)%Z →
        let part :=
          filter (λ t, dt_year (DataCreate.date t) = y ∧ DataCreate.rank_type t = k)
            collected in
        (part ≠ [] →
         ∃ rows, fs' !! DataCreate.file_name k y = Some rows
                 ∧ DataCreate.top <$> rows ≡ₚ part)
        ∧ (part = [] →
           fs' !! DataCreate.file_name k y
           = (∅ : gmap string (list DataCreate.FinalRow)) !! DataCreate.file_name k y).
Proof.
  apply (main_files (H := daily_A) (H0 := histories) (H1 := market_investors)
           (H2 := indices) (H3 := merge_sort_values) ∅
           [monday; (monday + DAY)%Z] collected).
  - reflexivity.
  - vm_compute. reflexivity.
  - discriminate.
  - eexists. reflexivity.
  - intros t h. simpl. repeat case_decide; intros [= <-];
      by apply (bool_decide_unpack _).
  - intros t inv. simpl. repeat case_decide; intros [= <-];
      by apply (bool_decide_unpack _).
  - intros code df. simpl. repeat case_decide; intros [= <-];
      by apply (bool_decide_unpack _).
  - intros symbol df. simpl. intros [= <-]. by apply (bool_decide_unpack _).
Defined.

Lemma df_final_market_close_witness :
  DataCreate.attached (row_number 2) !! "kospi_close" = Some (Window.of_Z 101)
  ∧ DataCreate.attached (row_number 2) !! "nasdaq_close"
    = Some (Window.of_Z 4000).
Proof.
  destruct (df_final_market_close (H := daily_A) (H0 := histories)
              (H1 := market_investors) (H2 := indices)
              (H3 := merge_sort_values)
              final_rows (row_number 2) kospi_table nasdaq_table)
    as (Ck & _ & Cn & _).
  - vm_compute. reflexivity.
  - apply (list_elem_of_lookup_2 _ 2). vm_compute. reflexivity.
  - reflexivity.
  - reflexivity.
  - by apply (bool_decide_unpack _).
  - by apply (bool_decide_unpack _).
  - split.
    + apply (Ck (level 101)). right. left.
    + apply (Cn (session 4000)).
      replace (DataCreate.date (DataCreate.top (row_number 2)) - DAY)%Z
        with monday by (vm_compute; reflexivity).
      left.
Defined.

Lemma df_final_monday_nasdaq_witness :
  DataCreate.attached (row_number 0) !! "nasdaq_close" = Some NaN.
Proof.
  apply (df_final_monday_nasdaq (H := daily_A) (H0 := histories)
           (H1 := market_investors) (H2 := indices) (H3 := merge_sort_values)
           final_rows (row_number 0) nasdaq_table).
  - vm_compute. reflexivity.
  - apply (list_elem_of_lookup_2 _ 0). vm_compute. reflexivity.
  - reflexivity.
  - intros p [->|[]%elem_of_nil]%elem_of_cons. vm_compute. discriminate.
  - vm_compute. reflexivity.
Defined.
